(** * The CIROH workshop notebook [scripts/CIROH_Datasets.ipynb]

    A shallow embedding of the notebook's code cells: the facet/OPG loading
    cell, the overview map, the OPG time series, the ERA5 loading cell, the
    date subsetting cell and the daily multi-panel plotting loop.

    The notebook is a script over numpy, pandas, xarray and matplotlib.  The
    data operations it calls (dtype conversion, masked assignment, boolean
    indexing, the median, dataset arithmetic, label slicing of the time
    index, positional indexing, strided slicing) are written out below the
    way those libraries define them.  Drawing calls are recorded in the
    figure that [savefig] writes and [show] displays.  The checks they
    make on the arrays the notebook passes them are written out: the
    Mercator projection refuses a nan central longitude, [pcolormesh]
    refuses non-finite coordinates and grids whose shapes do not go
    together, [contourf] and [contour] refuse a field under 2 x 2 or one
    that does not match its coordinates, [barbs] refuses winds that do not
    match theirs.  A text placed at a nan position is left out by
    matplotlib, not refused.  The colour a cell of the overview mesh is
    painted with (its position between the colour limits, looked up in the
    listed colour map) is written out apart from the figure record. *)

From Stdlib Require Import ZArith QArith Qround Lia Lqa Ascii String Sorted.
From stdpp Require Import base option list gmap strings pretty.

Close Scope Q_scope.

(** ** Python exceptions and outcomes *)

Inductive exn :=
| FileNotFoundError
| IndexError
| KeyError
| TypeError
| AttributeError
| ValueError
| NameError
| CRSError.

Inductive outcome (A : Type) :=
| Ok (a : A)
| Raise (e : exn).
Arguments Ok {A} _.
Arguments Raise {A} _.

(** Whether a computation returned. *)
Definition is_ok {A} (o : outcome A) : bool :=
  match o with Ok _ => true | Raise _ => false end.

(** ** numpy values and 2-D arrays *)

(** A float64 cell: a finite value, carried as the rational it denotes, or
    [nan].  Rounding and infinities are outside this model. *)
Inductive npfloat :=
| Num (q : Q)
| NaN.

(** [a == b] on floats: [nan] compares unequal to everything. *)
Definition np_eq (a b : npfloat) : bool :=
  match a, b with
  | Num x, Num y => Qeq_bool x y
  | _, _ => false
  end.

(** [np.isfinite] on a cell. *)
Definition isfinite (x : npfloat) : bool :=
  match x with
  | Num _ => true
  | NaN => false
  end.

(** A 2-D array: its shape and its cells in row-major (C) order. *)
Record ndarray (A : Type) := mk_ndarray {
  nrows : nat;
  ncols : nat;
  cells : list A
}.
Arguments mk_ndarray {A} _ _ _.
Arguments nrows {A} _.
Arguments ncols {A} _.
Arguments cells {A} _.

Definition shape {A} (a : ndarray A) : nat * nat := (nrows a, ncols a).

Definition wf_ndarray {A} (a : ndarray A) : Prop :=
  length (cells a) = nrows a * ncols a.

Definition shape_eqb (s t : nat * nat) : bool :=
  Nat.eqb (fst s) (fst t) && Nat.eqb (snd s) (snd t).

Definition map_array {A B} (f : A -> B) (a : ndarray A) : ndarray B :=
  mk_ndarray (nrows a) (ncols a) (map f (cells a)).

(** The two dtypes [np.array(pd.read_csv(...))] yields for the grids. *)
Inductive array :=
| IntArr (a : ndarray Z)
| FloatArr (a : ndarray npfloat).

Definition of_int (z : Z) : npfloat := Num (inject_Z z).

(** The cells of an array read as floats (what [astype('float')], a
    comparison with a Python number and [np.median] all do first). *)
Definition to_float (a : array) : ndarray npfloat :=
  match a with
  | IntArr a => map_array of_int a
  | FloatArr a => a
  end.

Definition array_shape (a : array) : nat * nat := shape (to_float a).

(** [a.astype('float')]: always a new float array. *)
Definition astype_float (a : array) : array := FloatArr (to_float a).

(** [a == c] for a Python number [c]: a boolean array of the same shape. *)
Definition eq_scalar (a : array) (c : Z) : ndarray bool :=
  map_array (fun x => np_eq x (of_int c)) (to_float a).

(** The cells of [a[m] = v] for a boolean mask [m] over the same cells. *)
Fixpoint put_where (xs : list npfloat) (ms : list bool) (v : npfloat)
  : list npfloat :=
  match xs, ms with
  | x :: xs', b :: ms' => (if b then v else x) :: put_where xs' ms' v
  | _, _ => xs
  end.

(** [a[m] = v]: numpy raises IndexError when the mask's shape is not the
    array's. *)
Definition setitem_mask (a : ndarray npfloat) (m : ndarray bool) (v : npfloat)
  : outcome (ndarray npfloat) :=
  if shape_eqb (shape a) (shape m)
  then Ok (mk_ndarray (nrows a) (ncols a) (put_where (cells a) (cells m) v))
  else Raise IndexError.

(** Lines 113-114 on values: [orientx = orientation.astype('float')]
    followed by [orientx[orientx == 9] = np.nan]. *)
Definition mask_flat (orientation : array) : outcome (ndarray npfloat) :=
  let orientx := astype_float orientation in
  setitem_mask (to_float orientx) (eq_scalar orientx 9) NaN.

(** What the masked assignment does to one cell. *)
Definition mask_cell (x : npfloat) : npfloat :=
  if np_eq x (of_int 9) then NaN else x.

(** The masked copy of an orientation grid, as [mask_flat] returns it. *)
Definition masked_grid (o : array) : ndarray npfloat :=
  mk_ndarray (nrows (to_float o)) (ncols (to_float o))
    (map mask_cell (cells (to_float o))).

(** The cells of [a[m]], in row-major order. *)
Fixpoint select {A} (xs : list A) (ms : list bool) : list A :=
  match xs, ms with
  | x :: xs', b :: ms' => if b then x :: select xs' ms' else select xs' ms'
  | _, _ => []
  end.

(** [a[m]] with a boolean mask: a 1-D array, IndexError on a shape mismatch. *)
Definition bool_index {A} (a : ndarray A) (m : ndarray bool)
  : outcome (list A) :=
  if shape_eqb (shape a) (shape m)
  then Ok (select (cells a) (cells m))
  else Raise IndexError.

(** The values of [vals] at the cells, in row-major order, whose facet id
    in [fa] equals [F]. *)
Definition values_where (F : Z) (fa vals : array) : list npfloat :=
  omap (fun k =>
          match cells (to_float fa) !! k with
          | Some f =>
              if np_eq f (of_int F) then cells (to_float vals) !! k else None
          | None => None
          end)
       (seq 0 (length (cells (to_float fa)))).

(** A facet id occurs in a grid when some cell equals it. *)
Definition occurs (F : Z) (fa : array) : Prop :=
  exists k f, cells (to_float fa) !! k = Some f /\ np_eq f (of_int F) = true.

(** ** [np.median] and [np.mean] *)

(** Sorting by insertion (the median only depends on the sorted order). *)
Fixpoint insert_sorted (x : Q) (l : list Q) : list Q :=
  match l with
  | [] => [x]
  | y :: l' => if Qle_bool x y then x :: l else y :: insert_sorted x l'
  end.

Fixpoint sort (l : list Q) : list Q :=
  match l with
  | [] => []
  | x :: l' => insert_sorted x (sort l')
  end.

(** The finite values of a 1-D array, or [None] when one of them is nan. *)
Fixpoint finite_values (l : list npfloat) : option (list Q) :=
  match l with
  | [] => Some []
  | Num q :: l' =>
      match finite_values l' with
      | Some qs => Some (q :: qs)
      | None => None
      end
  | NaN :: _ => None
  end.

(** [np.median] of a 1-D array: nan for an empty array (numpy only warns)
    and for an array holding a nan; else the middle of the sorted values,
    or the mean of the two middle ones. *)
Definition np_median (l : list npfloat) : npfloat :=
  match finite_values l with
  | None => NaN
  | Some qs =>
      let s := sort qs in
      let n := length s in
      if Nat.eqb n 0 then NaN
      else if Nat.even n
           then Num ((nth (n / 2 - 1) s 0%Q + nth (n / 2) s 0%Q) / 2)%Q
           else Num (nth (n / 2) s 0%Q)
  end.

(** The sum of a list of values. *)
Definition Qsum (l : list Q) : Q := fold_right Qplus 0%Q l.

(** [np.mean] of all cells: nan for no cell or a nan cell; else the mean,
    carried exactly (float64 rounds its last place). *)
Definition np_mean (l : list npfloat) : npfloat :=
  match finite_values l with
  | None => NaN
  | Some qs =>
      if Nat.eqb (length qs) 0 then NaN
      else Num (Qsum qs / inject_Z (Z.of_nat (length qs)))%Q
  end.

(** The number of values satisfying a test. *)
Fixpoint count_if (p : Q -> bool) (l : list Q) : nat :=
  match l with
  | [] => 0
  | x :: l' => (if p x then 1 else 0) + count_if p l'
  end.

(** A median of a list of values: at least half of them are at most [m]
    and at least half are at least [m]. *)
Definition is_median (m : Q) (l : list Q) : Prop :=
  length l <= 2 * count_if (fun x => Qle_bool x m) l /\
  length l <= 2 * count_if (fun x => Qle_bool m x) l.

(** ** Calendar days and [datetime64[ns]] timestamps *)

(** A proleptic Gregorian calendar date. *)
Record date := mk_date {
  year : Z;
  month : Z;
  day : Z
}.

(** Days since 1970-01-01 of a calendar date. *)
Definition days_from_civil (d : date) : Z :=
  let y := (if month d <=? 2 then year d - 1 else year d)%Z in
  let era := (y / 400)%Z in
  let yoe := (y - era * 400)%Z in
  let mp := (if month d >? 2 then month d - 3 else month d + 9)%Z in
  let doy := ((153 * mp + 2) / 5 + day d - 1)%Z in
  let doe := (yoe * 365 + yoe / 4 - yoe / 100 + doy)%Z in
  (era * 146097 + doe - 719468)%Z.

(** The calendar date of a day number. *)
Definition civil_from_days (z : Z) : date :=
  let z := (z + 719468)%Z in
  let era := (z / 146097)%Z in
  let doe := (z - era * 146097)%Z in
  let yoe := ((doe - doe / 1460 + doe / 36524 - doe / 146096) / 365)%Z in
  let doy := (doe - (365 * yoe + yoe / 4 - yoe / 100))%Z in
  let mp := ((5 * doy + 2) / 153)%Z in
  let d := (doy - (153 * mp + 2) / 5 + 1)%Z in
  let m := (if mp <? 10 then mp + 3 else mp - 9)%Z in
  let y := (yoe + era * 400)%Z in
  mk_date (if m <=? 2 then y + 1 else y)%Z m d.

(** A timestamp of a time axis: nanoseconds since the epoch, as xarray
    decodes a NetCDF time coordinate.  int64's least value is NaT. *)
Abbreviation datetime64 := Z (only parsing).

(** Nanoseconds in a day. *)
Definition NS_PER_DAY : Z := 86400000000000.

(** The timestamps int64 can hold. *)
Definition valid_datetime64 (t : datetime64) : Prop :=
  (- 2 ^ 63 < t < 2 ^ 63)%Z.

(** The day a timestamp falls on (the cast to unit ["D"] floors). *)
Definition day_of (t : datetime64) : Z := (t / NS_PER_DAY)%Z.

(** The first and the last nanosecond of a calendar day: the bounds pandas
    gives a date string used as the start or the end of a slice. *)
Definition day_lower (d : date) : datetime64 :=
  (days_from_civil d * NS_PER_DAY)%Z.
Definition day_upper (d : date) : datetime64 :=
  ((days_from_civil d + 1) * NS_PER_DAY - 1)%Z.

(** The decimal digits, by value. *)
Definition digit_chars : list ascii :=
  ["0"; "1"; "2"; "3"; "4"; "5"; "6"; "7"; "8"; "9"]%char.

(** The last decimal digit of [n]. *)
Definition digit (n : Z) : ascii :=
  nth (Z.to_nat (n mod 10)) digit_chars "0"%char.

Definition digits2 (n : Z) : string :=
  String (digit (n / 10)) (String (digit n) EmptyString).

Definition digits4 (n : Z) : string :=
  String (digit (n / 1000)) (String (digit (n / 100)) (digits2 n)).

(** ISO form [YYYY-MM-DD] of a date (years 0 to 9999, which cover every
    valid [datetime64[ns]]). *)
Definition iso_string (d : date) : string :=
  digits4 (year d) +:+ "-" +:+ digits2 (month d) +:+ "-" +:+ digits2 (day d).

(** [np.datetime_as_string(t, unit="D")]. *)
Definition datetime_as_string_D (t : datetime64) : string :=
  iso_string (civil_from_days (day_of t)).

(** Position of a character in a list. *)
Fixpoint position (c : ascii) (l : list ascii) : option Z :=
  match l with
  | [] => None
  | x :: l' => if Ascii.eqb c x then Some 0%Z else Z.succ <$> position c l'
  end.

(** The value of a decimal digit. *)
Definition digit_value (c : ascii) : option Z := position c digit_chars.

(** The number a string of decimal digits denotes. *)
Fixpoint number_of (s : list ascii) (acc : Z) : option Z :=
  match s with
  | [] => Some acc
  | c :: s' =>
      match digit_value c with
      | Some v => number_of s' (10 * acc + v)%Z
      | None => None
      end
  end.

(** Reading back an ISO date [YYYY-MM-DD]. *)
Definition parse_iso (s : string) : option date :=
  match list_ascii_of_string s with
  | [y1; y2; y3; y4; "-"%char; m1; m2; "-"%char; d1; d2] =>
      match number_of [y1; y2; y3; y4] 0, number_of [m1; m2] 0,
            number_of [d1; d2] 0 with
      | Some y, Some m, Some d => Some (mk_date y m d)
      | _, _, _ => None
      end
  | _ => None
  end.

(** ** Sorted search on a time index *)

(** NaT, the missing timestamp: int64's least value. *)
Definition NaT : Z := (- 2 ^ 63)%Z.

(** No timestamp is smaller than the one before it. *)
Fixpoint nondecreasing (l : list Z) : bool :=
  match l with
  | [] => true
  | x :: l' =>
      match l' with
      | [] => true
      | y :: _ => (x <=? y)%Z && nondecreasing l'
      end
  end.

(** [Index.is_monotonic_increasing] of a datetime index: it holds no NaT
    and no timestamp is smaller than the one before it. *)
Definition is_monotonic_increasing (l : list Z) : bool :=
  forallb (fun t => negb (t =? NaT)%Z) l && nondecreasing l.

(** The binary search of [searchsorted] between positions [lo] and [hi]:
    [right x] tells whether the insertion point lies after a cell [x]. *)
Fixpoint bisect (right : Z -> bool) (a : list Z) (lo hi fuel : nat) : nat :=
  match fuel with
  | 0 => lo
  | S fuel' =>
      if lo <? hi then
        let mid := (lo + hi) / 2 in
        match a !! mid with
        | Some x =>
            if right x then bisect right a (mid + 1) hi fuel'
            else bisect right a lo mid fuel'
        | None => lo
        end
      else lo
  end.

(** [a.searchsorted(v, side="left")]: before the first cell [>= v]. *)
Definition searchsorted_left (a : list Z) (v : Z) : nat :=
  bisect (fun x => (x <? v)%Z) a 0 (length a) (length a).

(** [a.searchsorted(v, side="right")]: after the last cell [<= v]. *)
Definition searchsorted_right (a : list Z) (v : Z) : nat :=
  bisect (fun x => (x <=? v)%Z) a 0 (length a) (length a).

(** The positional slice [l[i:j]]. *)
Definition slice {A} (i j : nat) (l : list A) : list A := drop i (take j l).

(** [index.slice_indexer(start, stop)] for two date strings, as xarray's
    [sel] uses it.  On an increasing index the bounds are found by sorted
    search.  On any other index pandas builds a mask (a NaT compares
    false with everything), raises KeyError unless both bounds occur in
    the index, and returns positions, which xarray refuses (KeyError)
    unless they are the whole index. *)
Definition slice_indexer (idx : list datetime64) (start stop : date)
  : outcome (nat * nat) :=
  let lower := day_lower start in
  let upper := day_upper stop in
  if is_monotonic_increasing idx
  then Ok (searchsorted_left idx lower, searchsorted_right idx upper)
  else if existsb (Z.eqb lower) idx && existsb (Z.eqb upper) idx
            && forallb (fun t => negb (t =? NaT)%Z
                                 && (lower <=? t)%Z && (t <=? upper)%Z) idx
       then Ok (0, length idx)
       else Raise KeyError.

(** A list in increasing order, by positions. *)
Definition increasing (a : list Z) : Prop :=
  forall i j x y, i <= j -> a !! i = Some x -> a !! j = Some y -> (x <= y)%Z.

(** Being within the closed interval [lower, upper]. *)
Definition within (lower upper : Z) (t : Z) : Prop :=
  (lower <= t <= upper)%Z.

#[local] Instance within_dec (lower upper t : Z) : Decision (within lower upper t).
Proof. unfold within. apply _. Defined.

(** ** Strided slicing *)

Fixpoint every_from {A} (k wait : nat) (l : list A) : list A :=
  match l with
  | [] => []
  | x :: l' =>
      match wait with
      | 0 => x :: every_from k (k - 1) l'
      | S w => every_from k w l'
      end
  end.

(** [l[::k]]. *)
Definition every {A} (k : nat) (l : list A) : list A := every_from k 0 l.

Fixpoint rows_of {A} (n c : nat) (l : list A) : list (list A) :=
  match n with
  | 0 => []
  | S n' => take c l :: rows_of n' c (drop c l)
  end.

(** [a[::k, ::k]]. *)
Definition every2 {A} (k : nat) (a : ndarray A) : ndarray A :=
  let rs := every k (rows_of (nrows a) (ncols a) (cells a)) in
  mk_ndarray (length rs) (length (every k (seq 0 (ncols a))))
             (concat (map (every k) rs)).

(** ** xarray datasets *)

(** The arithmetic the notebook applies to gridded values ([* 1000],
    [- 273.15], [/ 9.81], [* 1.94384]), as an interface: the theorems hold
    for whatever the array dtype makes of them. *)
Class Scalar (V : Type) := {
  scalar_mul : V -> Q -> V;
  scalar_sub : V -> Q -> V;
  scalar_div : V -> Q -> V
}.

(** A pandas table read by [read_csv(..., index_col=0)]: row labels (here
    text, as the dates of the OPG table are), column labels and the
    values. *)
Record DataFrame := mk_DataFrame {
  df_index : list string;
  df_columns : list string;
  df_values : array
}.

(** Position of the first occurrence of a label. *)
Fixpoint index_of (x : string) (l : list string) : option nat :=
  match l with
  | [] => None
  | y :: l' => if String.eqb x y then Some 0 else S <$> index_of x l'
  end.

(** Column [k] of a row-major 2-D array. *)
Definition column {A} (k : nat) (a : ndarray A) : list A :=
  omap (fun r => r !! k) (rows_of (nrows a) (ncols a) (cells a)).

(** [df[name]]: KeyError for a label that is no column. *)
Definition df_getitem (df : DataFrame) (name : string)
  : outcome (list npfloat) :=
  match index_of name (df_columns df) with
  | Some k => Ok (column k (to_float (df_values df)))
  | None => Raise KeyError
  end.

(** A location of the interpreter's heap. *)
Abbreviation loc := nat (only parsing).

Section Notebook.

Context {V : Type} `{!Scalar V}.

(** [datetime.strptime(x, '%Y-%m-%d')], taken as given. *)
Variable strptime_ymd : string -> option date.

(** A dataset opened from one NetCDF file: the coordinates, and the data
    variables by name, each a stack of 2-D (latitude, longitude) frames
    along time. *)
Record Dataset := mk_Dataset {
  time : list datetime64;
  latitude : list V;
  longitude : list V;
  data_vars : list (string * list (ndarray V))
}.

(** Dataset arithmetic with a scalar: every cell of every data variable,
    nothing else. *)
Definition ds_map (f : V -> V) (ds : Dataset) : Dataset :=
  mk_Dataset (time ds) (latitude ds) (longitude ds)
    (map (fun nv => (fst nv, map (map_array f) (snd nv))) (data_vars ds)).

Definition ds_mul (ds : Dataset) (c : Q) : Dataset :=
  ds_map (fun v => scalar_mul v c) ds.
Definition ds_sub (ds : Dataset) (c : Q) : Dataset :=
  ds_map (fun v => scalar_sub v c) ds.
Definition ds_div (ds : Dataset) (c : Q) : Dataset :=
  ds_map (fun v => scalar_div v c) ds.

(** Positional slice along time of the coordinate and of every variable. *)
Definition isel_time (ds : Dataset) (i j : nat) : Dataset :=
  mk_Dataset (slice i j (time ds)) (latitude ds) (longitude ds)
    (map (fun nv => (fst nv, slice i j (snd nv))) (data_vars ds)).

(** [ds.sel(time=slice(start, stop))]. *)
Definition sel_time (ds : Dataset) (start stop : date) : outcome Dataset :=
  match slice_indexer (time ds) start stop with
  | Ok (i, j) => Ok (isel_time ds i j)
  | Raise e => Raise e
  end.

(** [ds.name]: the data variable of that name. *)
Fixpoint lookup_var (name : string) (vs : list (string * list (ndarray V)))
  : outcome (list (ndarray V)) :=
  match vs with
  | [] => Raise AttributeError
  | (n, frames) :: vs' =>
      if String.eqb name n then Ok frames else lookup_var name vs'
  end.

Definition get_var (ds : Dataset) (name : string)
  : outcome (list (ndarray V)) :=
  lookup_var name (data_vars ds).

(** [values[k, :, :]]: IndexError past the end of the time axis. *)
Definition frame_at (frames : list (ndarray V)) (k : nat)
  : outcome (ndarray V) :=
  match frames !! k with
  | Some a => Ok a
  | None => Raise IndexError
  end.

(** The cell [k] (row-major) of variable [name] at time position [t]. *)
Definition value_at (ds : Dataset) (name : string) (t k : nat) : option V :=
  match get_var ds name with
  | Ok frames =>
      match frames !! t with
      | Some a => cells a !! k
      | None => None
      end
  | Raise _ => None
  end.

(** ** Figures, files and the interpreter state *)

(** The six panels of one day, the wind barbs and the title. *)
Record daily_figure := mk_daily_figure {
  ivt_panel : list V * list V * ndarray V;
  hgt_panel : list V * list V * ndarray V;
  precip_panel : list V * list V * ndarray V;
  u_panel : list V * list V * ndarray V;
  v_panel : list V * list V * ndarray V;
  temp_panel : list V * list V * ndarray V;
  barbs : list V * list V * ndarray V * ndarray V;
  central_longitude : npfloat;
  suptitle : string
}.

Inductive figure :=
| OverviewFig (central : npfloat) (X Y C : ndarray npfloat)
              (label : npfloat * npfloat * string)
| SeriesFig (xdata : list date) (ydata : list npfloat)
| DailyFig (f : daily_figure).

Inductive file :=
| Csv (df : DataFrame)
| NetCDF (ds : Dataset)
| Png (fig : figure).

(** Objects of the interpreter's heap. *)
Inductive obj :=
| OArray (a : array)
| OFrame (df : DataFrame)
| ODataset (ds : Dataset).

(** The state a cell runs in: the heap of objects (a location is an index;
    objects are never freed), the files on disk and the figures shown. *)
Record state := mk_state {
  heap : list obj;
  disk : gmap string file;
  shown : list figure
}.

(** Cells run in a state and either return or raise; what was written
    before an exception stays written. *)
Definition M (A : Type) : Type := state -> outcome A * state.

Definition ret {A} (a : A) : M A := fun s => (Ok a, s).
Definition raise {A} (e : exn) : M A := fun s => (Raise e, s).
Definition bind {A B} (m : M A) (k : A -> M B) : M B :=
  fun s =>
    match m s with
    | (Ok a, s') => k a s'
    | (Raise e, s') => (Raise e, s')
    end.
Definition lift {A} (o : outcome A) : M A := fun s => (o, s).

Notation "x <- m ;; k" := (bind m (fun x => k))
  (at level 100, m at next level, right associativity).
Notation "m ;;; k" := (bind m (fun _ => k))
  (at level 100, right associativity).

(** A new object, at the next free location. *)
Definition alloc (o : obj) : M loc :=
  fun s => (Ok (length (heap s)), mk_state (heap s ++ [o]) (disk s) (shown s)).

(** Reading a name: NameError when nothing is bound there. *)
Definition load (l : loc) : M obj :=
  fun s =>
    match heap s !! l with
    | Some o => (Ok o, s)
    | None => (Raise NameError, s)
    end.

(** In-place update of the object at a location. *)
Definition store (l : loc) (o : obj) : M unit :=
  fun s => (Ok tt, mk_state (<[l := o]> (heap s)) (disk s) (shown s)).

Definition load_array (l : loc) : M array :=
  o <- load l ;;
  match o with OArray a => ret a | _ => raise TypeError end.

Definition load_frame (l : loc) : M DataFrame :=
  o <- load l ;;
  match o with OFrame df => ret df | _ => raise TypeError end.

Definition load_dataset (l : loc) : M Dataset :=
  o <- load l ;;
  match o with ODataset ds => ret ds | _ => raise TypeError end.

Definition read_file (p : string) : M file :=
  fun s =>
    match disk s !! p with
    | Some f => (Ok f, s)
    | None => (Raise FileNotFoundError, s)
    end.

(** [plt.savefig(p)]: the image file appears, or is replaced, at once. *)
Definition savefig (p : string) (fig : figure) : M unit :=
  fun s => (Ok tt, mk_state (heap s) (<[p := Png fig]> (disk s)) (shown s)).

(** [plt.show()]. *)
Definition show (fig : figure) : M unit :=
  fun s => (Ok tt, mk_state (heap s) (disk s) (shown s ++ [fig])).

(** A [for] loop: the body in turn on each element, stopping at the first
    exception. *)
Fixpoint for_each {A} (l : list A) (body : A -> M unit) : M unit :=
  match l with
  | [] => ret tt
  | x :: l' => body x ;;; for_each l' body
  end.

(** A program that leaves the heap as it found it. *)
Definition heap_pure {A} (m : M A) : Prop :=
  forall s, heap (snd (m s)) = heap s.

(** ** Cell 2: loading the facet and OPG tables *)

(** [pd.read_csv(p, index_col=0)]. *)
Definition read_csv (p : string) : M DataFrame :=
  f <- read_file p ;;
  match f with Csv df => ret df | _ => raise ValueError end.

(** [np.array(pd.read_csv(p, index_col=0))], bound to a new name. *)
Definition read_grid (p : string) : M loc :=
  df <- read_csv p ;;
  alloc (OArray (df_values df)).

(** The names the cell binds. *)
Record facet_env := mk_facet_env {
  elev : loc;
  facets : loc;
  lats : loc;
  lons : loc;
  orientation : loc;
  opg : loc
}.

(** Lines 84-89: the five grids become arrays, the OPG table stays a
    data frame. *)
Definition load_facets (path : string) : M facet_env :=
  elev <- read_grid (path +:+ "elevation.csv") ;;
  facets <- read_grid (path +:+ "facet_labels.csv") ;;
  lats <- read_grid (path +:+ "lats.csv") ;;
  lons <- read_grid (path +:+ "lons.csv") ;;
  orientation <- read_grid (path +:+ "facet_orientation.csv") ;;
  df <- read_csv (path +:+ "winter_northernUT_opg.csv") ;;
  opg <- alloc (OFrame df) ;;
  ret (mk_facet_env elev facets lats lons orientation opg).

(** ** Cell 3: the overview map *)

(** [ccrs.Mercator(central_longitude=c)]: the projection cannot be built
    on a nan. *)
Definition mercator (c : npfloat) : outcome unit :=
  match c with
  | Num _ => Ok tt
  | NaN => Raise CRSError
  end.

(** Every cell of a grid is finite. *)
Definition all_finite (a : ndarray npfloat) : bool :=
  forallb isfinite (cells a).

(** The shapes of 2-D [X] and [Y] once a one-row [X] is repeated along the
    rows of [Y] and a one-column [Y] along the columns of [X]. *)
Definition repeat_xy (sx sy : nat * nat) : (nat * nat) * (nat * nat) :=
  let Nx := snd sx in
  let Ny := fst sy in
  (if Nat.eqb (fst sx) 1 then (Ny, Nx) else sx,
   if Nat.eqb (snd sy) 1 then (Ny, Nx) else sy).

(** [pcolormesh(X, Y, C, transform=PlateCarree(), shading='auto')] on a
    map axes, for 2-D [X], [Y].  Along each axis on which the coordinates
    count as many as the cells of [C] they are cell centres, and the axes
    turns them into cell corners: one more along that axis.  matplotlib
    then raises ValueError when a coordinate is not finite, and TypeError
    unless [X] and [Y] have one shape, one more than [C]'s along both
    axes. *)
Definition pcolormesh_check (X Y C : ndarray npfloat) : outcome unit :=
  let Nx := ncols X in
  let Ny := nrows Y in
  let gr := if Nat.eqb (nrows C) Ny then 1 else 0 in
  let gc := if Nat.eqb (ncols C) Nx then 1 else 0 in
  let sx := (fst (fst (repeat_xy (shape X) (shape Y))) + gr,
             snd (fst (repeat_xy (shape X) (shape Y))) + gc) in
  let sy := (fst (snd (repeat_xy (shape X) (shape Y))) + gr,
             snd (snd (repeat_xy (shape X) (shape Y))) + gc) in
  if negb (all_finite X && all_finite Y) then Raise ValueError
  else if negb (shape_eqb (fst (repeat_xy sx sy)) (snd (repeat_xy sx sy)))
       then Raise TypeError
       else if shape_eqb (fst sy, snd sx) (S (nrows C), S (ncols C))
            then Ok tt
            else Raise TypeError.

Definition overview_path : string := "../figures/facet_orientations.png".

(** The cell, with the labelled facet id [F] (2131 in the notebook):
    lines 113-114 make the float copy [orientx] and mask it in place, line
    122 builds the projection on [np.mean(lons)], line 125 is
    [pcolormesh(lons, lats, orientx)], lines 129-130 place the label at the
    two medians, lines 147-148 save and show the figure. *)
Definition overview_map (F : Z) (e : facet_env) : M unit :=
  o <- load_array (orientation e) ;;
  orientx <- alloc (OArray (astype_float o)) ;;
  ox <- load_array orientx ;;
  masked <- lift (setitem_mask (to_float ox) (eq_scalar ox 9) NaN) ;;
  store orientx (OArray (FloatArr masked)) ;;;
  lo <- load_array (lons e) ;;
  let central := np_mean (cells (to_float lo)) in
  lift (mercator central) ;;;
  la <- load_array (lats e) ;;
  c <- load_array orientx ;;
  lift (pcolormesh_check (to_float lo) (to_float la) (to_float c)) ;;;
  fa <- load_array (facets e) ;;
  xs <- lift (bool_index (to_float lo) (eq_scalar fa F)) ;;
  ys <- lift (bool_index (to_float la) (eq_scalar fa F)) ;;
  let fig := OverviewFig central (to_float lo) (to_float la) (to_float c)
               (np_median xs, np_median ys, pretty F) in
  savefig overview_path fig ;;;
  show fig.

(** The figure the overview cell draws from the four grids. *)
Definition overview_figure (F : Z) (lo la fa o : array) (xs ys : list npfloat)
  : figure :=
  OverviewFig (np_mean (cells (to_float lo))) (to_float lo) (to_float la)
    (masked_grid o) (np_median xs, np_median ys, pretty F).

(** The four names the overview cell reads are bound to these arrays. *)
Definition grids_bound (s : state) (e : facet_env) (lo la fa o : array)
  : Prop :=
  heap s !! lons e = Some (OArray lo) /\
  heap s !! lats e = Some (OArray la) /\
  heap s !! facets e = Some (OArray fa) /\
  heap s !! orientation e = Some (OArray o).

(** Shapes [pcolormesh] takes: one shape for longitude and latitude,
    which is the orientation grid's (cell centres) or one more along both
    axes (cell corners). *)
Definition mesh_accepts (lo la o : array) : Prop :=
  array_shape lo = array_shape la /\
  (array_shape lo = array_shape o \/
   array_shape lo = (S (fst (array_shape o)), S (snd (array_shape o)))).

(** Along each axis the orientation grid counts as many cells as the
    longitude grid, or one less. *)
Definition orientation_fits (lo o : array) : Prop :=
  (fst (array_shape o) = fst (array_shape lo) \/
   S (fst (array_shape o)) = fst (array_shape lo)) /\
  (snd (array_shape o) = snd (array_shape lo) \/
   S (snd (array_shape o)) = snd (array_shape lo)).

(** Coordinates the map can be drawn on: there is a longitude, and no
    longitude or latitude is nan. *)
Definition finite_mesh (lo la : array) : Prop :=
  cells (to_float lo) <> [] /\
  Forall (fun x => isfinite x = true) (cells (to_float lo)) /\
  Forall (fun x => isfinite x = true) (cells (to_float la)).

(** The shapes the two boolean-mask selections take: the facet-id grid
    has the shape of longitude and of latitude. *)
Definition mask_fits (lo la fa : array) : Prop :=
  array_shape lo = array_shape fa /\ array_shape la = array_shape fa.

(** ** Cell 4: the OPG time series of one facet *)

(** [[datetime.strptime(x, '%Y-%m-%d') for x in xdata]] on text labels:
    ValueError at the first label that is no date.  (On a label column
    that pandas reads as numbers strptime raises TypeError instead; the
    theorems below name neither.) *)
Fixpoint parse_dates (l : list string) : outcome (list date) :=
  match l with
  | [] => Ok []
  | x :: l' =>
      match strptime_ymd x with
      | None => Raise ValueError
      | Some d =>
          match parse_dates l' with
          | Ok ds => Ok (d :: ds)
          | Raise e => Raise e
          end
      end
  end.

Definition series_path : string := "../figures/opg_timeseries_facet2131.png".

(** The cell, with the column label (["2131"] in the notebook).  [scatter]
    raises ValueError when x and y differ in size. *)
Definition timeseries_plot (col : string) (e : facet_env) : M unit :=
  df <- load_frame (opg e) ;;
  xdata <- lift (parse_dates (df_index df)) ;;
  ydata <- lift (df_getitem df col) ;;
  (if Nat.eqb (length xdata) (length ydata) then ret tt
   else raise ValueError) ;;;
  let fig := SeriesFig xdata ydata in
  savefig series_path fig ;;;
  show fig.

(** ** Cell 5: loading the ERA5 fields *)

(** [xr.open_dataset(p)]. *)
Definition open_dataset (p : string) : M Dataset :=
  f <- read_file p ;;
  match f with NetCDF ds => ret ds | _ => raise ValueError end.

(** The six names of the ERA5 cells. *)
Record era5_env := mk_era5_env {
  IVT : loc;
  precip : loc;
  temp700 : loc;
  uwinds700 : loc;
  vwinds700 : loc;
  hgt500 : loc
}.

(** Lines 243-248: each name is bound to the dataset read, or to the
    result of the arithmetic on it. *)
Definition load_era5 (path : string) : M era5_env :=
  ds1 <- open_dataset (path +:+ "IVT_sfc.nc") ;;
  IVT <- alloc (ODataset ds1) ;;
  ds2 <- open_dataset (path +:+ "precip_sfc.nc") ;;
  precip <- alloc (ODataset (ds_mul ds2 1000)) ;;
  ds3 <- open_dataset (path +:+ "temp_700.nc") ;;
  temp700 <- alloc (ODataset (ds_sub ds3 (27315 # 100))) ;;
  ds4 <- open_dataset (path +:+ "uwnd_700.nc") ;;
  uwinds700 <- alloc (ODataset ds4) ;;
  ds5 <- open_dataset (path +:+ "vwnd_700.nc") ;;
  vwinds700 <- alloc (ODataset ds5) ;;
  ds6 <- open_dataset (path +:+ "hgt_500.nc") ;;
  hgt500 <- alloc (ODataset (ds_div ds6 (981 # 100))) ;;
  ret (mk_era5_env IVT precip temp700 uwinds700 vwinds700 hgt500).

(** ** Cell 7: subsetting to a date interval *)

(** [x = x.sel(time=slice(dates[0], dates[1]))]: the name is bound to a
    new dataset. *)
Definition subset_one (dates : date * date) (l : loc) : M loc :=
  ds <- load_dataset l ;;
  ds' <- lift (sel_time ds (fst dates) (snd dates)) ;;
  alloc (ODataset ds').

(** Lines 287-292. *)
Definition subset_era5 (dates : date * date) (e : era5_env) : M era5_env :=
  IVT' <- subset_one dates (IVT e) ;;
  precip' <- subset_one dates (precip e) ;;
  temp700' <- subset_one dates (temp700 e) ;;
  uwinds700' <- subset_one dates (uwinds700 e) ;;
  vwinds700' <- subset_one dates (vwinds700 e) ;;
  hgt500' <- subset_one dates (hgt500 e) ;;
  ret (mk_era5_env IVT' precip' temp700' uwinds700' vwinds700' hgt500').

(** The interval of the notebook, [dates = ['2017-01-07', '2017-01-12']]. *)
Definition notebook_dates : date * date :=
  (mk_date 2017 1 7, mk_date 2017 1 12).

(** ** Cell 8: one figure per day *)

(** [contourf(x, y, z)] and [contour(x, y, z)] on 1-D [x] and [y]:
    TypeError unless [z] has at least two rows and two columns, one column
    per entry of [x] and one row per entry of [y]. *)
Definition contour_check (x y : list V) (z : ndarray V) : outcome unit :=
  if (nrows z <? 2) || (ncols z <? 2) then Raise TypeError
  else if negb (length x =? ncols z) then Raise TypeError
  else if negb (length y =? nrows z) then Raise TypeError
  else Ok tt.

(** [ax.contourf(ds.longitude, ds.latitude, ds.name.values[dayx, :, :])]:
    the frame is read, then the call checks it against the dataset's own
    coordinates. *)
Definition panel (ds : Dataset) (name : string) (dayx : nat)
  : outcome (list V * list V * ndarray V) :=
  match get_var ds name with
  | Raise e => Raise e
  | Ok frames =>
      match frame_at frames dayx with
      | Raise e => Raise e
      | Ok a =>
          match contour_check (longitude ds) (latitude ds) a with
          | Raise e => Raise e
          | Ok _ => Ok (longitude ds, latitude ds, a)
          end
      end
  end.

(** [barbs(x, y, u, v)] on 1-D [x] and [y], on a map axes: ValueError
    unless [u] and [v] both have one row per entry of [y] and one column
    per entry of [x]. *)
Definition barbs_check (x y : list V) (u v : ndarray V) : outcome unit :=
  if shape_eqb (shape u) (length y, length x)
     && shape_eqb (shape v) (length y, length x)
  then Ok tt
  else Raise ValueError.

(** [a[::5, ::5] * 1.94384] on one frame: every fifth grid point, in
    knots. *)
Definition to_knots (a : ndarray V) : ndarray V :=
  map_array (fun v => scalar_mul v (194384 # 100000)) (every2 5 a).

(** [ds.name.values[dayx, ::5, ::5] * 1.94384]. *)
Definition knots (ds : Dataset) (name : string) (dayx : nat)
  : outcome (ndarray V) :=
  match get_var ds name with
  | Raise e => Raise e
  | Ok frames =>
      match frame_at frames dayx with
      | Raise e => Raise e
      | Ok a => Ok (to_knots a)
      end
  end.

(** [IVT.time.values[dayx]]. *)
Definition time_at (ds : Dataset) (dayx : nat) : outcome datetime64 :=
  match time ds !! dayx with
  | Some t => Ok t
  | None => Raise IndexError
  end.

(** [f"{path}atmos_{datex}.png"] with [path = "../figures/"]. *)
Definition daily_path (datex : string) : string :=
  "../figures/" +:+ "atmos_" +:+ datex +:+ ".png".

(** The body of the loop for position [dayx]. *)
Definition plot_day (central : npfloat) (e : era5_env) (dayx : nat) : M unit :=
  ivt <- load_dataset (IVT e) ;;
  p_ivt <- lift (panel ivt "IVT" dayx) ;;
  hgt <- load_dataset (hgt500 e) ;;
  p_hgt <- lift (panel hgt "hgt" dayx) ;;
  pr <- load_dataset (precip e) ;;
  p_pr <- lift (panel pr "precip" dayx) ;;
  uw <- load_dataset (uwinds700 e) ;;
  p_u <- lift (panel uw "uwnd" dayx) ;;
  vw <- load_dataset (vwinds700 e) ;;
  p_v <- lift (panel vw "vwnd" dayx) ;;
  tmp <- load_dataset (temp700 e) ;;
  p_t <- lift (panel tmp "temp" dayx) ;;
  u700 <- lift (knots uw "uwnd" dayx) ;;
  v700 <- lift (knots vw "vwnd" dayx) ;;
  lift (barbs_check (every 5 (longitude uw)) (every 5 (latitude uw))
          u700 v700) ;;;
  t <- lift (time_at ivt dayx) ;;
  let datex := datetime_as_string_D t in
  let fig := DailyFig (mk_daily_figure p_ivt p_hgt p_pr p_u p_v p_t
                         (every 5 (longitude uw), every 5 (latitude uw),
                          u700, v700)
                         central datex) in
  savefig (daily_path datex) fig ;;;
  show fig.

(** The cell: line 314 builds the projection on [np.mean(lons)], then
    [for dayx in range(len(IVT.time.values))]. *)
Definition daily_plots (lons : loc) (e : era5_env) : M unit :=
  lo <- load_array lons ;;
  let central := np_mean (cells (to_float lo)) in
  lift (mercator central) ;;;
  ivt <- load_dataset (IVT e) ;;
  for_each (seq 0 (length (time ivt))) (plot_day central e).

(** ** The daily loop as a function of the six datasets *)

(** The datasets bound to the six names. *)
Record era5_data := mk_era5_data {
  d_IVT : Dataset;
  d_precip : Dataset;
  d_temp700 : Dataset;
  d_uwinds700 : Dataset;
  d_vwinds700 : Dataset;
  d_hgt500 : Dataset
}.

(** The six names are bound to these datasets. *)
Definition era5_bound (s : state) (e : era5_env) (d : era5_data) : Prop :=
  heap s !! IVT e = Some (ODataset (d_IVT d)) /\
  heap s !! precip e = Some (ODataset (d_precip d)) /\
  heap s !! temp700 e = Some (ODataset (d_temp700 d)) /\
  heap s !! uwinds700 e = Some (ODataset (d_uwinds700 d)) /\
  heap s !! vwinds700 e = Some (ODataset (d_vwinds700 d)) /\
  heap s !! hgt500 e = Some (ODataset (d_hgt500 d)).

(** The six NetCDF files under [path] hold these datasets. *)
Definition era5_files (dk : gmap string file) (path : string)
    (raw : era5_data) : Prop :=
  dk !! (path +:+ "IVT_sfc.nc") = Some (NetCDF (d_IVT raw)) /\
  dk !! (path +:+ "precip_sfc.nc") = Some (NetCDF (d_precip raw)) /\
  dk !! (path +:+ "temp_700.nc") = Some (NetCDF (d_temp700 raw)) /\
  dk !! (path +:+ "uwnd_700.nc") = Some (NetCDF (d_uwinds700 raw)) /\
  dk !! (path +:+ "vwnd_700.nc") = Some (NetCDF (d_vwinds700 raw)) /\
  dk !! (path +:+ "hgt_500.nc") = Some (NetCDF (d_hgt500 raw)).

(** The file name and the figure of position [dayx], or the exception the
    loop body raises there. *)
Definition day_figure (central : npfloat) (d : era5_data) (dayx : nat)
  : outcome (string * figure) :=
  match panel (d_IVT d) "IVT" dayx with Raise x => Raise x | Ok p_ivt =>
  match panel (d_hgt500 d) "hgt" dayx with Raise x => Raise x | Ok p_hgt =>
  match panel (d_precip d) "precip" dayx with Raise x => Raise x | Ok p_pr =>
  match panel (d_uwinds700 d) "uwnd" dayx with Raise x => Raise x | Ok p_u =>
  match panel (d_vwinds700 d) "vwnd" dayx with Raise x => Raise x | Ok p_v =>
  match panel (d_temp700 d) "temp" dayx with Raise x => Raise x | Ok p_t =>
  match knots (d_uwinds700 d) "uwnd" dayx with Raise x => Raise x | Ok u700 =>
  match knots (d_vwinds700 d) "vwnd" dayx with Raise x => Raise x | Ok v700 =>
  match barbs_check (every 5 (longitude (d_uwinds700 d)))
          (every 5 (latitude (d_uwinds700 d))) u700 v700
  with Raise x => Raise x | Ok _ =>
  match time_at (d_IVT d) dayx with Raise x => Raise x | Ok t =>
    let datex := datetime_as_string_D t in
    Ok (daily_path datex,
        DailyFig (mk_daily_figure p_ivt p_hgt p_pr p_u p_v p_t
                    (every 5 (longitude (d_uwinds700 d)),
                     every 5 (latitude (d_uwinds700 d)), u700, v700)
                    central datex))
  end end end end end end end end end end.

(** The loop over positions [ks], on the disk and the list of figures
    shown: it stops at the first position whose body raises. *)
Fixpoint render_days (central : npfloat) (d : era5_data) (ks : list nat)
    (dk : gmap string file) (sh : list figure)
  : outcome unit * (gmap string file * list figure) :=
  match ks with
  | [] => (Ok tt, (dk, sh))
  | k :: ks' =>
      match day_figure central d k with
      | Raise x => (Raise x, (dk, sh))
      | Ok (name, fig) =>
          render_days central d ks' (<[name := Png fig]> dk) (sh ++ [fig])
      end
  end.

(** The frames the six names hold, in the order the loop body reads them:
    IVT, hgt, precip, uwnd, vwnd, temp. *)
Record era5_frames := mk_era5_frames {
  f_IVT : list (ndarray V);
  f_hgt : list (ndarray V);
  f_precip : list (ndarray V);
  f_uwnd : list (ndarray V);
  f_vwnd : list (ndarray V);
  f_temp : list (ndarray V)
}.

(** Each dataset has the variable the loop body asks it for. *)
Definition vars_named (d : era5_data) (f : era5_frames) : Prop :=
  get_var (d_IVT d) "IVT" = Ok (f_IVT f) /\
  get_var (d_hgt500 d) "hgt" = Ok (f_hgt f) /\
  get_var (d_precip d) "precip" = Ok (f_precip f) /\
  get_var (d_uwinds700 d) "uwnd" = Ok (f_uwnd f) /\
  get_var (d_vwinds700 d) "vwnd" = Ok (f_vwnd f) /\
  get_var (d_temp700 d) "temp" = Ok (f_temp f).

(** One frame of each variable, in that order. *)
Definition six_frames : Type :=
  ndarray V * ndarray V * ndarray V * ndarray V * ndarray V * ndarray V.

(** The frame of every variable at one and the same time position. *)
Definition frames_at (f : era5_frames) (k : nat) : option six_frames :=
  match f_IVT f !! k, f_hgt f !! k, f_precip f !! k,
        f_uwnd f !! k, f_vwnd f !! k, f_temp f !! k with
  | Some a1, Some a2, Some a3, Some a4, Some a5, Some a6 =>
      Some (a1, a2, a3, a4, a5, a6)
  | _, _, _, _, _, _ => None
  end.

(** What the drawing calls of the loop body check on the six frames of
    one position: each field against the coordinates of its own dataset,
    in the order of the panels, then the two wind fields, thinned to every
    fifth point, against the thinned coordinates of the U-wind dataset. *)
Definition day_check (d : era5_data) (fr : six_frames) : outcome unit :=
  let '(a1, a2, a3, a4, a5, a6) := fr in
  match contour_check (longitude (d_IVT d)) (latitude (d_IVT d)) a1
  with Raise x => Raise x | Ok _ =>
  match contour_check (longitude (d_hgt500 d)) (latitude (d_hgt500 d)) a2
  with Raise x => Raise x | Ok _ =>
  match contour_check (longitude (d_precip d)) (latitude (d_precip d)) a3
  with Raise x => Raise x | Ok _ =>
  match contour_check (longitude (d_uwinds700 d)) (latitude (d_uwinds700 d)) a4
  with Raise x => Raise x | Ok _ =>
  match contour_check (longitude (d_vwinds700 d)) (latitude (d_vwinds700 d)) a5
  with Raise x => Raise x | Ok _ =>
  match contour_check (longitude (d_temp700 d)) (latitude (d_temp700 d)) a6
  with Raise x => Raise x | Ok _ =>
    barbs_check (every 5 (longitude (d_uwinds700 d)))
      (every 5 (latitude (d_uwinds700 d))) (to_knots a4) (to_knots a5)
  end end end end end end.

(** A frame on the grid of its dataset: at least 2 x 2, one row per
    latitude and one column per longitude. *)
Definition fits (ds : Dataset) (a : ndarray V) : Prop :=
  2 <= nrows a /\ 2 <= ncols a /\
  nrows a = length (latitude ds) /\ ncols a = length (longitude ds).

(** Datasets the loop can draw: every frame of every variable is on the
    grid of its own dataset, and the two wind datasets have grids of one
    size. *)
Definition drawable (d : era5_data) (f : era5_frames) : Prop :=
  Forall (fits (d_IVT d)) (f_IVT f) /\
  Forall (fits (d_hgt500 d)) (f_hgt f) /\
  Forall (fits (d_precip d)) (f_precip f) /\
  Forall (fits (d_uwinds700 d)) (f_uwnd f) /\
  Forall (fits (d_vwinds700 d)) (f_vwnd f) /\
  Forall (fits (d_temp700 d)) (f_temp f) /\
  length (latitude (d_vwinds700 d)) = length (latitude (d_uwinds700 d)) /\
  length (longitude (d_vwinds700 d)) = length (longitude (d_uwinds700 d)).

(** The six frames of one position go with the coordinates they are
    drawn on: each field with those of its own dataset, and the two wind
    fields, thinned to every fifth point, with each other. *)
Definition frames_fit (d : era5_data) (fr : six_frames) : Prop :=
  let '(a1, a2, a3, a4, a5, a6) := fr in
  fits (d_IVT d) a1 /\ fits (d_hgt500 d) a2 /\ fits (d_precip d) a3 /\
  fits (d_uwinds700 d) a4 /\ fits (d_vwinds700 d) a5 /\
  fits (d_temp700 d) a6 /\
  shape (to_knots a5) = shape (to_knots a4).

(** The figure of one day, from the six frames and the day's timestamp. *)
Definition figure_of (central : npfloat) (d : era5_data) (fr : six_frames)
    (t : datetime64) : figure :=
  let '(a1, a2, a3, a4, a5, a6) := fr in
  DailyFig (mk_daily_figure
    (longitude (d_IVT d), latitude (d_IVT d), a1)
    (longitude (d_hgt500 d), latitude (d_hgt500 d), a2)
    (longitude (d_precip d), latitude (d_precip d), a3)
    (longitude (d_uwinds700 d), latitude (d_uwinds700 d), a4)
    (longitude (d_vwinds700 d), latitude (d_vwinds700 d), a5)
    (longitude (d_temp700 d), latitude (d_temp700 d), a6)
    (every 5 (longitude (d_uwinds700 d)), every 5 (latitude (d_uwinds700 d)),
     to_knots a4, to_knots a5)
    central (datetime_as_string_D t)).

(** The file name and the figure of position [k], when every variable and
    the time axis reach that far. *)
Definition day_output (central : npfloat) (d : era5_data) (f : era5_frames)
    (k : nat) : option (string * figure) :=
  match frames_at f k, time (d_IVT d) !! k with
  | Some fr, Some t =>
      Some (daily_path (datetime_as_string_D t), figure_of central d fr t)
  | _, _ => None
  end.

(** What the loop writes and shows when no position raises. *)
Definition daily_outputs (central : npfloat) (d : era5_data)
    (f : era5_frames) : list (string * figure) :=
  omap (day_output central d f) (seq 0 (length (time (d_IVT d)))).

(** Every variable has a frame for every position of IVT's time axis. *)
Definition enough_frames (d : era5_data) (f : era5_frames) : Prop :=
  length (time (d_IVT d)) <= length (f_IVT f) /\
  length (time (d_IVT d)) <= length (f_hgt f) /\
  length (time (d_IVT d)) <= length (f_precip f) /\
  length (time (d_IVT d)) <= length (f_uwnd f) /\
  length (time (d_IVT d)) <= length (f_vwnd f) /\
  length (time (d_IVT d)) <= length (f_temp f).

(** xarray's invariant: a variable has one frame per entry of its
    dataset's time axis. *)
Definition frames_along_time (d : era5_data) (f : era5_frames) : Prop :=
  length (f_IVT f) = length (time (d_IVT d)) /\
  length (f_hgt f) = length (time (d_hgt500 d)) /\
  length (f_precip f) = length (time (d_precip d)) /\
  length (f_uwnd f) = length (time (d_uwinds700 d)) /\
  length (f_vwnd f) = length (time (d_vwinds700 d)) /\
  length (f_temp f) = length (time (d_temp700 d)).

(** The name of the image of one day number. *)
Definition day_file (z : Z) : string :=
  daily_path (iso_string (civil_from_days z)).

(** The datasets the loading cell binds to the six names, from the ones
    in the files. *)
Definition converted (raw : era5_data) : era5_data :=
  mk_era5_data
    (d_IVT raw)
    (ds_mul (d_precip raw) 1000)
    (ds_sub (d_temp700 raw) (27315 # 100))
    (d_uwinds700 raw)
    (d_vwinds700 raw)
    (ds_div (d_hgt500 raw) (981 # 100)).

(** The files a list of (name, figure) pairs leaves on a disk. *)
Definition write_all (outs : list (string * figure))
    (dk : gmap string file) : gmap string file :=
  foldl (fun m nf => <[fst nf := Png (snd nf)]> m) dk outs.

End Notebook.

Arguments Dataset V : clear implicits.
Arguments daily_figure V : clear implicits.
Arguments figure V : clear implicits.
Arguments file V : clear implicits.
Arguments obj V : clear implicits.
Arguments state V : clear implicits.
Arguments M V A : clear implicits.
Arguments era5_data V : clear implicits.
Arguments era5_frames V : clear implicits.
Arguments six_frames V : clear implicits.
Arguments day_file : simpl never.

Notation "x <- m ;; k" := (bind m (fun x => k))
  (at level 100, m at next level, right associativity).
Notation "m ;;; k" := (bind m (fun _ => k))
  (at level 100, right associativity).

(** ** Well-formed tables, calendar dates and footprints *)

(** A table as [read_csv] builds it: one row label per row, one column
    label per column, rectangular values. *)
Definition wf_DataFrame (df : DataFrame) : Prop :=
  wf_ndarray (to_float (df_values df)) /\
  nrows (to_float (df_values df)) = length (df_index df) /\
  ncols (to_float (df_values df)) = length (df_columns df).

(** Every cell is a finite value between [lo] and [hi]. *)
Definition finite_between (lo hi : Q) (l : list npfloat) : Prop :=
  Forall (fun x => exists q, x = Num q /\ (lo <= q)%Q /\ (q <= hi)%Q) l.

(** Leap years of the proleptic Gregorian calendar. *)
Definition is_leap (y : Z) : bool :=
  ((y mod 4 =? 0) && (negb (y mod 100 =? 0) || (y mod 400 =? 0)))%Z.

Definition days_in_month (y m : Z) : Z :=
  if (m =? 2)%Z then (if is_leap y then 29 else 28)%Z
  else if ((m =? 4) || (m =? 6) || (m =? 9) || (m =? 11))%Z then 30%Z
       else 31%Z.

(** A date of the calendar: what a date string can denote. *)
Definition valid_date (d : date) : Prop :=
  (1 <= month d <= 12)%Z /\
  (1 <= day d <= days_in_month (year d) (month d))%Z.

(** The tables of the six CSV files of the facet directory. *)
Record facet_tables := mk_facet_tables {
  t_elev : DataFrame;
  t_facets : DataFrame;
  t_lats : DataFrame;
  t_lons : DataFrame;
  t_orientation : DataFrame;
  t_opg : DataFrame
}.

Section Sequence.

Context {V : Type} `{!Scalar V}.

(** A program that leaves every file alone but those whose name satisfies
    [P]. *)
Definition writes_only {A} (P : string -> Prop) (m : M V A) : Prop :=
  forall s p, ~ P p -> disk (snd (m s)) !! p = disk s !! p.

(** A program that touches nothing but the heap, and only adds objects
    to it. *)
Definition only_allocates {A} (m : M V A) : Prop :=
  forall s,
    disk (snd (m s)) = disk s /\ shown (snd (m s)) = shown s /\
    exists new, heap (snd (m s)) = heap s ++ new.

(** The six CSV files under [path] hold these tables. *)
Definition facet_csvs (dk : gmap string (file V)) (path : string)
    (t : facet_tables) : Prop :=
  dk !! (path +:+ "elevation.csv") = Some (Csv (t_elev t)) /\
  dk !! (path +:+ "facet_labels.csv") = Some (Csv (t_facets t)) /\
  dk !! (path +:+ "lats.csv") = Some (Csv (t_lats t)) /\
  dk !! (path +:+ "lons.csv") = Some (Csv (t_lons t)) /\
  dk !! (path +:+ "facet_orientation.csv") = Some (Csv (t_orientation t)) /\
  dk !! (path +:+ "winter_northernUT_opg.csv") = Some (Csv (t_opg t)).






(** Two datasets that differ at most in their time axis. *)
Definition same_but_time (ds ds' : Dataset V) : Prop :=
  latitude ds' = latitude ds /\ longitude ds' = longitude ds /\
  data_vars ds' = data_vars ds.

End Sequence.

(** ** The colours of the overview map *)

(** Lines 108-110: [cmap_fi], eight greys from black to white. *)
Definition grey (q : Q) : Q * Q * Q := (q, q, q).

Definition cmap_fi : list (Q * Q * Q) :=
  [grey 0; grey (1428 # 10000); grey (2857 # 10000); grey (4285 # 10000);
   grey (5714 # 10000); grey (7142 # 10000); grey (8571 # 10000); grey 1]%Q.

(** [Normalize(vmin, vmax)]: the position of a value between the limits. *)
Definition normalize (vmin vmax : Q) (v : npfloat) : npfloat :=
  match v with
  | Num q => Num ((q - vmin) / (vmax - vmin))%Q
  | NaN => NaN
  end.

(** The entry of a colour map's lookup table. *)
Inductive lut_entry :=
| Listed (i : nat)
| Under
| Over
| Bad.

(** [Colormap.__call__] on a normalized value, for a map of [N] colours:
    the position times [N], where [N] itself counts as the last colour;
    negative is "under", [N] and beyond is "over", nan is "bad"; else the
    integer part. *)
Definition lut_index (N : nat) (x : npfloat) : lut_entry :=
  match x with
  | NaN => Bad
  | Num q =>
      let n := inject_Z (Z.of_nat N) in
      let xa := (q * n)%Q in
      if Qeq_bool xa n then Listed (N - 1)
      else if negb (Qle_bool 0 xa) then Under
      else if Qle_bool n xa then Over
      else Listed (Z.to_nat (Qfloor xa))
  end.

(** The colour of a value, if it is painted at all: with the defaults of
    a listed colour map, "under" is the first colour, "over" the last and
    "bad" is transparent. *)
Definition to_rgba (cmap : list (Q * Q * Q)) (vmin vmax : Q) (v : npfloat)
  : option (Q * Q * Q) :=
  match lut_index (length cmap) (normalize vmin vmax v) with
  | Listed i => cmap !! i
  | Under => head cmap
  | Over => last cmap
  | Bad => None
  end.

(** Lines 125-126: the mesh painted through [cmap_fi] between the limits
    0.5 and 8.5. *)
Definition facet_paint (v : npfloat) : option (Q * Q * Q) :=
  to_rgba cmap_fi (1 # 2) (17 # 2) v.

(** ** A small instance: exact rational values *)

#[global] Instance Q_scalar : Scalar Q := {|
  scalar_mul := Qmult;
  scalar_sub := Qminus;
  scalar_div := Qdiv
|}.

(** The two [path] values of the loading cells. *)
Definition facets_dir : string := "../datasets/facets_and_opgs/".
Definition era5_dir : string := "../datasets/era5_atmos/".

Definition grid_int (r c : nat) (l : list Z) : array :=
  IntArr (mk_ndarray r c l).

Definition grid_float (r c : nat) (l : list Q) : array :=
  FloatArr (mk_ndarray r c (map Num l)).

(** A CSV file holding a grid. *)
Definition table (a : array) : file Q := Csv (mk_DataFrame [] [] a).

Definition sample_opg : DataFrame :=
  mk_DataFrame ["2017-01-01"; "2017-01-02"] ["2131"; "7"]
    (FloatArr (mk_ndarray 2 2 [Num 1; NaN; Num 3; Num 4]%Q)).

(** The six files of the facet directory. *)
Definition facet_files (elev facets lats lons orientation : array)
  : list (string * file Q) :=
  [ (facets_dir +:+ "elevation.csv", table elev);
    (facets_dir +:+ "facet_labels.csv", table facets);
    (facets_dir +:+ "lats.csv", table lats);
    (facets_dir +:+ "lons.csv", table lons);
    (facets_dir +:+ "facet_orientation.csv", table orientation);
    (facets_dir +:+ "winter_northernUT_opg.csv", Csv sample_opg) ].

(** Conforming 2 x 2 grids in which facet 2131 has three cells. *)
Definition sample_elev : array := grid_int 2 2 [1500; 1600; 1700; 1800]%Z.
Definition sample_facets : array := grid_int 2 2 [2131; 7; 2131; 2131]%Z.
Definition sample_lats : array := grid_float 2 2 [40; 41; 42; 43]%Q.
Definition sample_lons : array := grid_float 2 2 [-111; -112; -113; -114]%Q.
Definition sample_orientation : array := grid_int 2 2 [1; 9; 3; 9]%Z.

(** A facet grid with no cell of facet 2131. *)
Definition absent_facets : array := grid_int 2 2 [5; 7; 5; 5]%Z.

(** Grids of other shapes. *)
Definition elev_1x1 : array := grid_int 1 1 [1500]%Z.
Definition facets_1x2 : array := grid_int 1 2 [2131; 7]%Z.
Definition facets_3x3 : array :=
  grid_int 3 3 [2131; 7; 7; 7; 2131; 7; 7; 7; 2131]%Z.
Definition lats_3x3 : array :=
  grid_float 3 3 [40; 40; 40; 41; 41; 41; 42; 42; 42]%Q.
Definition lons_3x3 : array :=
  grid_float 3 3 [-113; -112; -111; -113; -112; -111; -113; -112; -111]%Q.

(** Daily timestamps (midnight) from 2017-01-01 through 2017-01-31. *)
Definition january : list Z :=
  map (fun k => ((days_from_civil (mk_date 2017 1 1) + Z.of_nat k)
                 * NS_PER_DAY)%Z)
      (seq 0 31).

(** One variable on a 2 x 2 grid, one frame per day of [january]. *)
Definition sample_dataset (name : string) (base : Q) : Dataset Q :=
  mk_Dataset january [40; 41]%Q [-112; -111]%Q
    [(name,
      map (fun k => let x := (base + inject_Z (Z.of_nat k))%Q in
                    mk_ndarray 2 2 [x; x + 1; x + 2; x + 3]%Q)
          (seq 0 31))].

Definition sample_raw : era5_data Q :=
  mk_era5_data
    (sample_dataset "IVT" 100)
    (sample_dataset "precip" (1 # 1000))
    (sample_dataset "temp" 270)
    (sample_dataset "uwnd" 5)
    (sample_dataset "vwnd" (-3))
    (sample_dataset "hgt" 54000).

Definition era5_sample_files : list (string * file Q) :=
  [ (era5_dir +:+ "IVT_sfc.nc", NetCDF (d_IVT sample_raw));
    (era5_dir +:+ "precip_sfc.nc", NetCDF (d_precip sample_raw));
    (era5_dir +:+ "temp_700.nc", NetCDF (d_temp700 sample_raw));
    (era5_dir +:+ "uwnd_700.nc", NetCDF (d_uwinds700 sample_raw));
    (era5_dir +:+ "vwnd_700.nc", NetCDF (d_vwinds700 sample_raw));
    (era5_dir +:+ "hgt_500.nc", NetCDF (d_hgt500 sample_raw)) ].

(** A disk with the conforming grids and the six ERA5 files. *)
Definition sample_disk : gmap string (file Q) :=
  list_to_map
    (facet_files sample_elev sample_facets sample_lats sample_lons
                 sample_orientation
     ++ era5_sample_files).

(** The same grids, with no cell of facet 2131. *)
Definition absent_disk : gmap string (file Q) :=
  list_to_map
    (facet_files sample_elev absent_facets sample_lats sample_lons
                 sample_orientation).

(** Grids of three shapes: elevation 1 x 1, orientation 2 x 2, and
    facet ids, latitude and longitude 3 x 3. *)
Definition mismatched_disk : gmap string (file Q) :=
  list_to_map
    (facet_files elev_1x1 facets_3x3 lats_3x3 lons_3x3 sample_orientation).

(** The conforming grids with a 1 x 1 elevation grid. *)
Definition odd_elevation_disk : gmap string (file Q) :=
  list_to_map
    (facet_files elev_1x1 sample_facets sample_lats sample_lons
                 sample_orientation).

(** A fresh interpreter on a disk. *)
Definition fresh (dk : gmap string (file Q)) : state Q := mk_state [] dk [].

(** The names after the facet loading cell has run on a fresh state. *)
Definition loaded_env : facet_env := mk_facet_env 0 1 2 3 4 5.

Definition loaded (dk : gmap string (file Q)) : state Q :=
  snd (load_facets facets_dir (fresh dk)).

(** The six datasets cut to the positions 6..11 of [january], the days
    2017-01-07 through 2017-01-12. *)
Definition six_days : era5_data Q :=
  mk_era5_data
    (isel_time (d_IVT (converted sample_raw)) 6 12)
    (isel_time (d_precip (converted sample_raw)) 6 12)
    (isel_time (d_temp700 (converted sample_raw)) 6 12)
    (isel_time (d_uwinds700 (converted sample_raw)) 6 12)
    (isel_time (d_vwinds700 (converted sample_raw)) 6 12)
    (isel_time (d_hgt500 (converted sample_raw)) 6 12).

Definition frames_of (ds : Dataset Q) : list (ndarray Q) :=
  match data_vars ds with
  | (_, frames) :: _ => frames
  | [] => []
  end.

Definition six_days_frames : era5_frames Q :=
  mk_era5_frames
    (frames_of (d_IVT six_days)) (frames_of (d_hgt500 six_days))
    (frames_of (d_precip six_days)) (frames_of (d_uwinds700 six_days))
    (frames_of (d_vwinds700 six_days)) (frames_of (d_temp700 six_days)).

(** The whole notebook up to the daily loop: both loading cells and the
    subsetting cell. *)
Definition notebook_prefix : M Q (facet_env * era5_env) :=
  e <- load_facets facets_dir ;;
  e5 <- load_era5 era5_dir ;;
  e5' <- subset_era5 notebook_dates e5 ;;
  ret (e, e5').

Definition subset_env : era5_env := mk_era5_env 12 13 14 15 16 17.

Definition subset_state : state Q :=
  snd (notebook_prefix (fresh sample_disk)).

(** The tables of the sample facet directory. *)
Definition sample_tables : facet_tables :=
  mk_facet_tables
    (mk_DataFrame [] [] sample_elev) (mk_DataFrame [] [] sample_facets)
    (mk_DataFrame [] [] sample_lats) (mk_DataFrame [] [] sample_lons)
    (mk_DataFrame [] [] sample_orientation) sample_opg.

(** Longitudes with a missing value in a cell of facet 2131. *)
Definition nan_lons : array :=
  FloatArr (mk_ndarray 2 2 [NaN; Num (-112); Num (-113); Num (-114)]%Q).

Definition nan_lons_disk : gmap string (file Q) :=
  list_to_map
    (facet_files sample_elev sample_facets sample_lats nan_lons
                 sample_orientation).

(** One variable on a 2 x 2 grid, one frame per timestamp of [ts]. *)
Definition dataset_on (ts : list Z) (name : string) (base : Q) : Dataset Q :=
  mk_Dataset ts [40; 41]%Q [-112; -111]%Q
    [(name,
      map (fun k => let x := (base + inject_Z (Z.of_nat k))%Q in
                    mk_ndarray 2 2 [x; x + 1; x + 2; x + 3]%Q)
          (seq 0 (length ts)))].

Definition era5_on (ts : list Z) : era5_data Q :=
  mk_era5_data
    (dataset_on ts "IVT" 100) (dataset_on ts "precip" 1)
    (dataset_on ts "temp" (-3)) (dataset_on ts "uwnd" 5)
    (dataset_on ts "vwnd" (-3)) (dataset_on ts "hgt" 5500).

(** The frames of the six datasets, in the order the loop reads them. *)
Definition frames_in (d : era5_data Q) : era5_frames Q :=
  mk_era5_frames
    (frames_of (d_IVT d)) (frames_of (d_hgt500 d)) (frames_of (d_precip d))
    (frames_of (d_uwinds700 d)) (frames_of (d_vwinds700 d))
    (frames_of (d_temp700 d)).

(** A state in which [lons] is name 0 and the six datasets of [d] are the
    names 1 to 6. *)
Definition bound_env : era5_env := mk_era5_env 1 2 3 4 5 6.

Definition bound_state (d : era5_data Q) : state Q :=
  mk_state
    [OArray sample_lons; ODataset (d_IVT d); ODataset (d_precip d);
     ODataset (d_temp700 d); ODataset (d_uwinds700 d);
     ODataset (d_vwinds700 d); ODataset (d_hgt500 d)]
    ∅ [].

(** Midnight and noon of 2017-01-07, then midnight of 2017-01-08. *)
Definition half_days : list Z :=
  [17173 * NS_PER_DAY; 17173 * NS_PER_DAY + 43200000000000;
   17174 * NS_PER_DAY]%Z.

(** Three days, of which the V-wind dataset holds only the first two. *)
Definition three_days : list Z :=
  [17173 * NS_PER_DAY; 17174 * NS_PER_DAY; 17175 * NS_PER_DAY]%Z.


(** The six datasets with the precipitation records stamped a day
    later. *)
Definition shifted_precip : era5_data Q :=
  mk_era5_data
    (dataset_on three_days "IVT" 100)
    (dataset_on (map (fun t => (t + NS_PER_DAY)%Z) three_days) "precip" 1)
    (dataset_on three_days "temp" (-3)) (dataset_on three_days "uwnd" 5)
    (dataset_on three_days "vwnd" (-3)) (dataset_on three_days "hgt" 5500).

(** A 6 x 7 wind field whose cell number [k] holds [k]. *)
Definition wind_frame : ndarray Q :=
  mk_ndarray 6 7 (map (fun k => inject_Z (Z.of_nat k)) (seq 0 42)).

(** January 2017, newest day first. *)
Definition january_backwards : Dataset Q :=
  mk_Dataset (rev january) [40; 41]%Q [-112; -111]%Q [].

(** Latitudes with a missing value. *)
Definition nan_lats : array :=
  FloatArr (mk_ndarray 2 2 [Num 40; NaN; Num 42; Num 43]%Q).

Definition nan_lats_disk : gmap string (file Q) :=
  list_to_map
    (facet_files sample_elev sample_facets nan_lats sample_lons
                 sample_orientation).




(** One variable on a grid of three latitudes and three longitudes. *)
Definition wide_dataset (ts : list Z) (name : string) (base : Q)
  : Dataset Q :=
  mk_Dataset ts [40; 41; 42]%Q [-113; -112; -111]%Q
    [(name,
      map (fun k => let x := (base + inject_Z (Z.of_nat k))%Q in
                    mk_ndarray 3 3
                      [x; x + 1; x + 2; x + 3; x + 4; x + 5; x + 6; x + 7;
                       x + 8]%Q)
          (seq 0 (length ts)))].

(** IVT on a 3 x 3 grid beside the five other fields on 2 x 2 grids. *)
Definition wide_IVT : era5_data Q :=
  mk_era5_data
    (wide_dataset three_days "IVT" 100) (dataset_on three_days "precip" 1)
    (dataset_on three_days "temp" (-3)) (dataset_on three_days "uwnd" 5)
    (dataset_on three_days "vwnd" (-3)) (dataset_on three_days "hgt" 5500).

(** The V-wind on a grid of six latitudes and seven longitudes beside the
    U-wind on the 2 x 2 grid: thinned, 2 x 2 against 1 x 1. *)
Definition vwnd_6x7 : Dataset Q :=
  mk_Dataset three_days
    [40; 41; 42; 43; 44; 45]%Q [-117; -116; -115; -114; -113; -112; -111]%Q
    [("vwnd", [wind_frame; wind_frame; wind_frame])].

Definition odd_winds : era5_data Q :=
  mk_era5_data
    (dataset_on three_days "IVT" 100) (dataset_on three_days "precip" 1)
    (dataset_on three_days "temp" (-3)) (dataset_on three_days "uwnd" 5)
    vwnd_6x7 (dataset_on three_days "hgt" 5500).

(** A state with the facet grids at the names 0 to 5, the facet-id grid
    being 1 x 2, and the datasets of [odd_winds] at the names 6 to 11. *)
Definition odd_env : era5_env := mk_era5_env 6 7 8 9 10 11.

Definition odd_state : state Q :=
  mk_state
    [OArray sample_elev; OArray facets_1x2; OArray sample_lats;
     OArray sample_lons; OArray sample_orientation; OFrame sample_opg;
     ODataset (d_IVT odd_winds); ODataset (d_precip odd_winds);
     ODataset (d_temp700 odd_winds); ODataset (d_uwinds700 odd_winds);
     ODataset (d_vwinds700 odd_winds); ODataset (d_hgt500 odd_winds)]
    ∅ [].

(** * Properties *)

(** ** Masking the flat code *)

Lemma shape_eqb_refl (s : nat * nat) : shape_eqb s s = true.
Proof.
  unfold shape_eqb. rewrite !Nat.eqb_refl. reflexivity.
Qed.

Lemma shape_eqb_eq (s t : nat * nat) : shape_eqb s t = true <-> s = t.
Proof.
  destruct s as [a b], t as [c d]. unfold shape_eqb. simpl.
  rewrite andb_true_iff, !Nat.eqb_eq. split.
  - intros [-> ->]. reflexivity.
  - intros [= -> ->]. split; reflexivity.
Qed.

Lemma shape_eqb_neq (s t : nat * nat) : shape_eqb s t = false <-> s <> t.
Proof.
  rewrite <- shape_eqb_eq. destruct (shape_eqb s t); split; congruence.
Qed.

Lemma put_where_map (p : npfloat -> bool) (v : npfloat) (xs : list npfloat) :
  put_where xs (map p xs) v = map (fun x => if p x then v else x) xs.
Proof.
  induction xs as [|x xs IH]; simpl; [reflexivity|]. rewrite IH. reflexivity.
Qed.

Lemma mask_flat_cells (G : array) :
  mask_flat G =
  Ok (mk_ndarray (nrows (to_float G)) (ncols (to_float G))
        (map mask_cell (cells (to_float G)))).
Proof.
  unfold mask_flat, setitem_mask, eq_scalar. simpl.
  rewrite shape_eqb_refl. rewrite put_where_map. reflexivity.
Qed.







(** ** Strided slices *)

Lemma length_rows_of {A} (n c : nat) :
  forall l : list A, length (rows_of n c l) = n.
Proof.
  induction n as [|n IH]; intros l; cbn [rows_of length].
  - reflexivity.
  - rewrite IH. reflexivity.
Qed.

Lemma every_from_lookup {A} (k : nat) :
  0 < k ->
  forall (l : list A) (w i : nat), every_from k w l !! i = l !! (w + i * k).
Proof.
  intros Hk. induction l as [|x l IH]; intros w i; cbn [every_from].
  - rewrite !lookup_nil. reflexivity.
  - destruct w as [|w].
    + destruct i as [|i]; [reflexivity|].
      cbn [lookup list_lookup].
      change (every_from k (k - 1) l !! i = (x :: l) !! (S i * k)).
      rewrite IH. replace (S i * k) with (S (k - 1 + i * k)) by lia.
      reflexivity.
    + rewrite IH. reflexivity.
Qed.

Lemma every_lookup {A} (k : nat) (l : list A) (i : nat) :
  0 < k -> every k l !! i = l !! (i * k).
Proof. intros Hk. unfold every. rewrite every_from_lookup by assumption. reflexivity. Qed.

Lemma length_every {A} (k : nat) (l : list A) :
  0 < k -> length (every k l) = (length l + k - 1) / k.
Proof.
  intros Hk.
  set (m := length (every k l)). set (n := length l).
  assert (Hm : forall i, i < m <-> i * k < n).
  { intros i. unfold m, n. rewrite <- !lookup_lt_is_Some.
    rewrite every_lookup by assumption. reflexivity. }
  assert (Hup : n <= m * k).
  { destruct (le_lt_dec n (m * k)) as [|Hlt]; [assumption|].
    apply Hm in Hlt. lia. }
  assert (Hlo : m = 0 \/ (m - 1) * k < n).
  { destruct m as [|m']; [left; reflexivity|right]. apply Hm. lia. }
  apply (Nat.div_unique _ _ _ (n + k - 1 - k * m)); nia.
Qed.

(** ** Running the cells *)

Section Runs.

Context {V : Type} `{!Scalar V}.

Implicit Types (s : state V) (ds : Dataset V).

Lemma heap_lookup_alloc s (l : loc) (o x : obj V) :
  heap s !! l = Some o -> (heap s ++ [x]) !! l = Some o.
Proof.
  intros H. apply lookup_app_l_Some. exact H.
Qed.

Lemma heap_lookup_fresh (h : list (obj V)) (x : obj V) :
  (h ++ [x]) !! length h = Some x.
Proof.
  rewrite lookup_app_r by lia. rewrite Nat.sub_diag. reflexivity.
Qed.

Lemma heap_store_fresh (h : list (obj V)) (x y : obj V) :
  <[length h := y]> (h ++ [x]) = h ++ [y].
Proof.
  rewrite insert_app_r_alt by lia. rewrite Nat.sub_diag. reflexivity.
Qed.

Lemma mask_flat_masked_grid (o : array) : mask_flat o = Ok (masked_grid o).
Proof. apply mask_flat_cells. Qed.

(** The overview cell, run on a state where the four names are bound. *)
Lemma overview_map_run (F : Z) (e : facet_env) s (lo la fa o : array) :
  heap s !! lons e = Some (OArray lo) ->
  heap s !! lats e = Some (OArray la) ->
  heap s !! facets e = Some (OArray fa) ->
  heap s !! orientation e = Some (OArray o) ->
  overview_map F e s =
  let s1 := mk_state (heap s ++ [OArray (FloatArr (masked_grid o))])
                     (disk s) (shown s) in
  match mercator (np_mean (cells (to_float lo))) with
  | Raise x => (Raise x, s1)
  | Ok _ =>
  match pcolormesh_check (to_float lo) (to_float la) (masked_grid o) with
  | Raise x => (Raise x, s1)
  | Ok _ =>
      match bool_index (to_float lo) (eq_scalar fa F) with
      | Raise x => (Raise x, s1)
      | Ok xs =>
          match bool_index (to_float la) (eq_scalar fa F) with
          | Raise x => (Raise x, s1)
          | Ok ys =>
              let fig := overview_figure F lo la fa o xs ys in
              (Ok tt,
               mk_state (heap s1) (<[overview_path := Png fig]> (disk s))
                        (shown s ++ [fig]))
          end
      end
  end
  end.
Proof.
  intros Hlo Hla Hfa Ho.
  pose proof (mask_flat_masked_grid o) as Hm. unfold mask_flat in Hm.
  unfold overview_map, load_array, load, alloc, store, lift, ret, raise, bind.
  cbv beta. rewrite Ho. cbn [heap disk shown].
  rewrite heap_lookup_fresh. rewrite Hm. cbn [heap disk shown].
  rewrite heap_store_fresh.
  rewrite (heap_lookup_alloc s _ _ _ Hlo). cbn [heap disk shown].
  destruct (mercator _); [|reflexivity].
  rewrite (heap_lookup_alloc s _ _ _ Hla). cbn [heap disk shown].
  rewrite heap_lookup_fresh. cbn [heap disk shown to_float].
  destruct (pcolormesh_check _ _ _); [|reflexivity].
  rewrite (heap_lookup_alloc s _ _ _ Hfa). cbn [heap disk shown].
  destruct (bool_index (to_float lo) _); [|reflexivity].
  destruct (bool_index (to_float la) _); reflexivity.
Qed.

Lemma plot_day_run (central : npfloat) (e : era5_env) (d : era5_data V)
    (dayx : nat) s :
  era5_bound s e d ->
  plot_day central e dayx s =
  match day_figure central d dayx with
  | Raise x => (Raise x, s)
  | Ok (name, fig) =>
      (Ok tt, mk_state (heap s) (<[name := Png fig]> (disk s))
                       (shown s ++ [fig]))
  end.
Proof.
  intros (H1 & H2 & H3 & H4 & H5 & H6).
  unfold plot_day, day_figure, load_dataset, load, lift, ret, raise,
    savefig, show, bind.
  cbv beta. rewrite H1. cbn [heap disk shown].
  destruct (panel (d_IVT d) "IVT" dayx); [|reflexivity].
  rewrite H6. cbn [heap disk shown].
  destruct (panel (d_hgt500 d) "hgt" dayx); [|reflexivity].
  rewrite H2. cbn [heap disk shown].
  destruct (panel (d_precip d) "precip" dayx); [|reflexivity].
  rewrite H4. cbn [heap disk shown].
  destruct (panel (d_uwinds700 d) "uwnd" dayx); [|reflexivity].
  rewrite H5. cbn [heap disk shown].
  destruct (panel (d_vwinds700 d) "vwnd" dayx); [|reflexivity].
  rewrite H3. cbn [heap disk shown].
  destruct (panel (d_temp700 d) "temp" dayx); [|reflexivity].
  destruct (knots (d_uwinds700 d) "uwnd" dayx); [|reflexivity].
  destruct (knots (d_vwinds700 d) "vwnd" dayx); [|reflexivity].
  destruct (barbs_check _ _ _ _); [|reflexivity].
  destruct (time_at (d_IVT d) dayx); reflexivity.
Qed.

Lemma for_each_plot_day_run (central : npfloat) (e : era5_env)
    (d : era5_data V) (ks : list nat) :
  forall s, era5_bound s e d ->
  for_each ks (plot_day central e) s =
  let r := render_days central d ks (disk s) (shown s) in
  (fst r, mk_state (heap s) (fst (snd r)) (snd (snd r))).
Proof.
  induction ks as [|k ks IH]; intros s Hb.
  - destruct s. reflexivity.
  - cbn [for_each render_days]. unfold bind at 1.
    rewrite (plot_day_run central e d k s Hb).
    destruct (day_figure central d k) as [[name fig]|x].
    + rewrite IH by exact Hb. reflexivity.
    + destruct s. reflexivity.
Qed.

(** The daily cell, run on a state where the names are bound. *)
Lemma daily_plots_run (lons : loc) (e : era5_env) (d : era5_data V) s
    (lo : array) :
  heap s !! lons = Some (OArray lo) ->
  era5_bound s e d ->
  daily_plots lons e s =
  match mercator (np_mean (cells (to_float lo))) with
  | Raise x => (Raise x, s)
  | Ok _ =>
      let r := render_days (np_mean (cells (to_float lo))) d
                 (seq 0 (length (time (d_IVT d)))) (disk s) (shown s) in
      (fst r, mk_state (heap s) (fst (snd r)) (snd (snd r)))
  end.
Proof.
  intros Hlo Hb. pose proof Hb as (H1 & _).
  unfold daily_plots, load_array, load_dataset, load, lift, ret, raise, bind.
  cbv beta. rewrite Hlo. cbn [heap disk shown].
  destruct (mercator _); [|reflexivity].
  rewrite H1. cbn [heap disk shown].
  apply (for_each_plot_day_run _ e d _ s Hb).
Qed.

(** The mean of a grid with a cell, all of whose cells are finite, is a
    number, and the projection is built on it. *)
Lemma np_mean_finite (l : list npfloat) :
  l <> [] -> Forall (fun x => isfinite x = true) l ->
  exists c, np_mean l = Num c.
Proof.
  intros Hne Hall. unfold np_mean.
  assert (Hq : exists qs, finite_values l = Some qs /\ length qs = length l).
  { clear Hne. induction Hall as [|x l Hx _ (qs & Hqs & Hlen)].
    - exists []. split; reflexivity.
    - destruct x as [q|]; [|discriminate]. exists (q :: qs).
      cbn [finite_values length]. rewrite Hqs, Hlen. split; reflexivity. }
  destruct Hq as (qs & -> & Hlen).
  destruct (Nat.eqb_spec (length qs) 0) as [H0|_].
  - destruct l; [contradiction|]. cbn [length] in Hlen. lia.
  - eexists. reflexivity.
Qed.

Lemma mercator_finite (l : list npfloat) :
  np_mean l <> NaN -> mercator (np_mean l) = Ok tt.
Proof.
  intros Hc. unfold mercator. destruct (np_mean l); [reflexivity|contradiction].
Qed.

Lemma finite_mesh_mean (lo la : array) :
  finite_mesh lo la -> np_mean (cells (to_float lo)) <> NaN.
Proof.
  intros (Hne & Hlo & _).
  destruct (np_mean_finite _ Hne Hlo) as [c ->]. discriminate.
Qed.

Lemma all_finite_Forall (a : ndarray npfloat) :
  Forall (fun x => isfinite x = true) (cells a) -> all_finite a = true.
Proof.
  intros Hall. unfold all_finite. apply forallb_forall. intros x Hx.
  rewrite Forall_forall in Hall. apply Hall. apply list_elem_of_In. exact Hx.
Qed.

Lemma all_finite_nan (a : ndarray npfloat) :
  NaN ∈ cells a -> all_finite a = false.
Proof.
  intros Hin. unfold all_finite. apply not_true_is_false. intros Hall.
  rewrite forallb_forall in Hall. apply list_elem_of_In in Hin.
  specialize (Hall _ Hin). discriminate Hall.
Qed.

Lemma contour_check_fits (ds : Dataset V) (a : ndarray V) :
  fits ds a -> contour_check (longitude ds) (latitude ds) a = Ok tt.
Proof.
  intros (Hr & Hc & Hla & Hlo). unfold contour_check.
  destruct (Nat.ltb_spec (nrows a) 2) as [|_]; [lia|].
  destruct (Nat.ltb_spec (ncols a) 2) as [|_]; [lia|]. cbn [orb].
  rewrite <- Hlo, <- Hla, !Nat.eqb_refl. reflexivity.
Qed.

Lemma contour_check_Ok (x y : list V) (a : ndarray V) :
  contour_check x y a = Ok tt <->
  2 <= nrows a /\ 2 <= ncols a /\ nrows a = length y /\ ncols a = length x.
Proof.
  unfold contour_check.
  destruct (Nat.ltb_spec (nrows a) 2), (Nat.ltb_spec (ncols a) 2); cbn [orb];
    try (split; [discriminate|lia]).
  destruct (Nat.eqb_spec (length x) (ncols a)); cbn [negb];
    [|split; [discriminate|lia]].
  destruct (Nat.eqb_spec (length y) (nrows a)); cbn [negb];
    [|split; [discriminate|lia]].
  split; [lia|reflexivity].
Qed.

Lemma contour_check_raises (x y : list V) (a : ndarray V) (exc : exn) :
  contour_check x y a = Raise exc -> exc = TypeError.
Proof.
  unfold contour_check.
  destruct ((nrows a <? 2) || (ncols a <? 2)); [congruence|].
  destruct (negb (length x =? ncols a)); [congruence|].
  destruct (negb (length y =? nrows a)); [congruence|discriminate].
Qed.

Lemma barbs_check_Ok (x y : list V) (u v : ndarray V) :
  barbs_check x y u v = Ok tt <->
  shape u = (length y, length x) /\ shape v = (length y, length x).
Proof.
  unfold barbs_check.
  destruct (shape_eqb (shape u) (length y, length x)) eqn:E1;
    [apply shape_eqb_eq in E1|apply shape_eqb_neq in E1]; cbn [andb].
  - destruct (shape_eqb (shape v) (length y, length x)) eqn:E2;
      [apply shape_eqb_eq in E2|apply shape_eqb_neq in E2].
    + split; [intros _; split; assumption|reflexivity].
    + split; [discriminate|intros [_ ?]; contradiction].
  - split; [discriminate|intros [? _]; contradiction].
Qed.

Lemma barbs_check_raises (x y : list V) (u v : ndarray V) (exc : exn) :
  barbs_check x y u v = Raise exc -> exc = ValueError.
Proof.
  unfold barbs_check. destruct (_ && _); [discriminate|congruence].
Qed.

(** The thinned winds of a frame with one row per latitude and one column
    per longitude go with the thinned coordinates. *)
Lemma to_knots_shape (a : ndarray V) (lat lon : list V) :
  nrows a = length lat -> ncols a = length lon ->
  shape (to_knots a) = (length (every 5 lat), length (every 5 lon)).
Proof.
  intros Hr Hc. unfold shape, to_knots, map_array, every2. cbn [nrows ncols].
  rewrite !length_every by lia.
  rewrite length_rows_of, length_seq, Hr, Hc. reflexivity.
Qed.

(** The loop body at a position where every variable has a frame: the
    checks of the drawing calls, then the figure. *)
Lemma day_figure_frames (central : npfloat) (d : era5_data V)
    (f : era5_frames V) (k : nat) (fr : six_frames V) :
  vars_named d f -> frames_at f k = Some fr ->
  day_figure central d k =
  match day_check d fr with
  | Raise x => Raise x
  | Ok _ =>
      match time (d_IVT d) !! k with
      | Some t =>
          Ok (daily_path (datetime_as_string_D t), figure_of central d fr t)
      | None => Raise IndexError
      end
  end.
Proof.
  intros (H1 & H2 & H3 & H4 & H5 & H6) Hfr. unfold frames_at in Hfr.
  destruct (f_IVT f !! k) as [a1|] eqn:E1; [|discriminate].
  destruct (f_hgt f !! k) as [a2|] eqn:E2; [|discriminate].
  destruct (f_precip f !! k) as [a3|] eqn:E3; [|discriminate].
  destruct (f_uwnd f !! k) as [a4|] eqn:E4; [|discriminate].
  destruct (f_vwnd f !! k) as [a5|] eqn:E5; [|discriminate].
  destruct (f_temp f !! k) as [a6|] eqn:E6; [|discriminate].
  injection Hfr as <-.
  unfold day_figure, day_check, panel, knots, frame_at, time_at, figure_of.
  rewrite H1, H2, H3, H4, H5, H6, E1, E2, E3, E4, E5, E6.
  destruct (contour_check _ _ a1) as [[]|]; [|reflexivity].
  destruct (contour_check _ _ a2) as [[]|]; [|reflexivity].
  destruct (contour_check _ _ a3) as [[]|]; [|reflexivity].
  destruct (contour_check _ _ a4) as [[]|]; [|reflexivity].
  destruct (contour_check _ _ a5) as [[]|]; [|reflexivity].
  destruct (contour_check _ _ a6) as [[]|]; [|reflexivity].
  destruct (barbs_check _ _ _ _) as [[]|]; [|reflexivity].
  destruct (time (d_IVT d) !! k); reflexivity.
Qed.

(** The loop body at a position where some variable has no frame: the
    indexing raises IndexError, unless a drawing call has refused an
    earlier frame. *)
Lemma day_figure_no_frames (central : npfloat) (d : era5_data V)
    (f : era5_frames V) (k : nat) :
  vars_named d f -> frames_at f k = None ->
  exists x, day_figure central d k = Raise x /\
            (x = IndexError \/ x = TypeError).
Proof.
  intros (H1 & H2 & H3 & H4 & H5 & H6) Hfr. unfold frames_at in Hfr.
  unfold day_figure, panel, knots, frame_at.
  rewrite H1, H2, H3, H4, H5, H6.
  destruct (f_IVT f !! k) as [a1|]; [|exists IndexError; auto].
  destruct (contour_check _ _ a1) as [[]|x] eqn:C1;
    [|apply contour_check_raises in C1; exists x; auto].
  destruct (f_hgt f !! k) as [a2|]; [|exists IndexError; auto].
  destruct (contour_check _ _ a2) as [[]|x] eqn:C2;
    [|apply contour_check_raises in C2; exists x; auto].
  destruct (f_precip f !! k) as [a3|]; [|exists IndexError; auto].
  destruct (contour_check _ _ a3) as [[]|x] eqn:C3;
    [|apply contour_check_raises in C3; exists x; auto].
  destruct (f_uwnd f !! k) as [a4|]; [|exists IndexError; auto].
  destruct (contour_check _ _ a4) as [[]|x] eqn:C4;
    [|apply contour_check_raises in C4; exists x; auto].
  destruct (f_vwnd f !! k) as [a5|]; [|exists IndexError; auto].
  destruct (contour_check _ _ a5) as [[]|x] eqn:C5;
    [|apply contour_check_raises in C5; exists x; auto].
  destruct (f_temp f !! k) as [a6|]; [discriminate|exists IndexError; auto].
Qed.

(** On drawable datasets the drawing calls accept the frames of every
    position. *)
Lemma drawable_day_check (d : era5_data V) (f : era5_frames V) (k : nat)
    (fr : six_frames V) :
  drawable d f -> frames_at f k = Some fr -> day_check d fr = Ok tt.
Proof.
  intros (D1 & D2 & D3 & D4 & D5 & D6 & Dla & Dlo) Hfr.
  unfold frames_at in Hfr.
  destruct (f_IVT f !! k) as [a1|] eqn:E1; [|discriminate].
  destruct (f_hgt f !! k) as [a2|] eqn:E2; [|discriminate].
  destruct (f_precip f !! k) as [a3|] eqn:E3; [|discriminate].
  destruct (f_uwnd f !! k) as [a4|] eqn:E4; [|discriminate].
  destruct (f_vwnd f !! k) as [a5|] eqn:E5; [|discriminate].
  destruct (f_temp f !! k) as [a6|] eqn:E6; [|discriminate].
  injection Hfr as <-. unfold day_check.
  pose proof (Forall_lookup_1 _ _ _ _ D4 E4) as F4.
  pose proof (Forall_lookup_1 _ _ _ _ D5 E5) as F5.
  rewrite (contour_check_fits _ _ (Forall_lookup_1 _ _ _ _ D1 E1)).
  rewrite (contour_check_fits _ _ (Forall_lookup_1 _ _ _ _ D2 E2)).
  rewrite (contour_check_fits _ _ (Forall_lookup_1 _ _ _ _ D3 E3)).
  rewrite (contour_check_fits _ _ F4), (contour_check_fits _ _ F5).
  rewrite (contour_check_fits _ _ (Forall_lookup_1 _ _ _ _ D6 E6)).
  destruct F4 as (_ & _ & R4 & C4). destruct F5 as (_ & _ & R5 & C5).
  apply barbs_check_Ok. split; apply to_knots_shape; congruence.
Qed.

(** The loop body on drawable datasets: the figure, or IndexError where
    a variable or the time axis ends. *)
Lemma day_figure_drawable (central : npfloat) (d : era5_data V)
    (f : era5_frames V) (k : nat) :
  vars_named d f -> drawable d f ->
  day_figure central d k =
  match frames_at f k, time (d_IVT d) !! k with
  | Some fr, Some t =>
      Ok (daily_path (datetime_as_string_D t), figure_of central d fr t)
  | _, _ => Raise IndexError
  end.
Proof.
  intros Hv Hd. destruct (frames_at f k) as [fr|] eqn:Hfr.
  - rewrite (day_figure_frames central d f k fr Hv Hfr).
    rewrite (drawable_day_check d f k fr Hd Hfr). reflexivity.
  - pose proof Hv as (H1 & H2 & H3 & H4 & H5 & H6).
    destruct Hd as (D1 & D2 & D3 & D4 & D5 & D6 & _).
    unfold frames_at in Hfr. unfold day_figure, panel, knots, frame_at.
    rewrite H1, H2, H3, H4, H5, H6.
    destruct (f_IVT f !! k) as [a1|] eqn:E1; [|reflexivity].
    rewrite (contour_check_fits _ _ (Forall_lookup_1 _ _ _ _ D1 E1)).
    destruct (f_hgt f !! k) as [a2|] eqn:E2; [|reflexivity].
    rewrite (contour_check_fits _ _ (Forall_lookup_1 _ _ _ _ D2 E2)).
    destruct (f_precip f !! k) as [a3|] eqn:E3; [|reflexivity].
    rewrite (contour_check_fits _ _ (Forall_lookup_1 _ _ _ _ D3 E3)).
    destruct (f_uwnd f !! k) as [a4|] eqn:E4; [|reflexivity].
    rewrite (contour_check_fits _ _ (Forall_lookup_1 _ _ _ _ D4 E4)).
    destruct (f_vwnd f !! k) as [a5|] eqn:E5; [|reflexivity].
    rewrite (contour_check_fits _ _ (Forall_lookup_1 _ _ _ _ D5 E5)).
    destruct (f_temp f !! k) as [a6|] eqn:E6; [discriminate|reflexivity].
Qed.

Lemma frames_at_is_Some (f : era5_frames V) (k : nat) :
  is_Some (frames_at f k) <->
  k < length (f_IVT f) /\ k < length (f_hgt f) /\ k < length (f_precip f) /\
  k < length (f_uwnd f) /\ k < length (f_vwnd f) /\ k < length (f_temp f).
Proof.
  unfold frames_at. rewrite <- !lookup_lt_is_Some.
  destruct (f_IVT f !! k), (f_hgt f !! k), (f_precip f !! k),
    (f_uwnd f !! k), (f_vwnd f !! k), (f_temp f !! k);
    rewrite !is_Some_alt; tauto.
Qed.

Lemma render_days_all (central : npfloat) (d : era5_data V) (ks : list nat)
    (outs : list (string * figure V)) :
  Forall2 (fun k nf => day_figure central d k = Ok nf) ks outs ->
  forall dk sh,
    render_days central d ks dk sh =
    (Ok tt, (write_all outs dk, sh ++ map snd outs)).
Proof.
  induction 1 as [|k nf ks outs Hk _ IH]; intros dk sh.
  - simpl. rewrite app_nil_r. reflexivity.
  - cbn [render_days]. rewrite Hk. destruct nf as [name fig].
    rewrite IH. cbn [write_all foldl map fst snd].
    rewrite <- app_assoc. reflexivity.
Qed.

Lemma render_days_stops (central : npfloat) (d : era5_data V) (x : exn)
    (ks : list nat) :
  Forall (fun k => forall y, day_figure central d k = Raise y -> y = x) ks ->
  Exists (fun k => is_ok (day_figure central d k) = false) ks ->
  forall dk sh, fst (render_days central d ks dk sh) = Raise x.
Proof.
  induction 1 as [|k ks Hk _ IH]; intros Hex dk sh.
  - inversion Hex.
  - cbn [render_days]. destruct (day_figure central d k) as [[name fig]|y] eqn:E.
    + apply IH. inversion Hex as [? ? Hh|]; subst; [|assumption].
      rewrite E in Hh. discriminate Hh.
    + simpl. f_equal. apply Hk. reflexivity.
Qed.


End Runs.

(** ** Sorted search and the label slice *)

Lemma increasing_tail (x : Z) (a : list Z) :
  increasing (x :: a) -> increasing a.
Proof.
  intros H i j u v Hij Hi Hj. apply (H (S i) (S j) u v); [lia|exact Hi|exact Hj].
Qed.

Lemma nondecreasing_spec (a : list Z) :
  nondecreasing a = true -> increasing a.
Proof.
  induction a as [|x a IH]; intros Hm i j u v Hij Hi Hj.
  - rewrite lookup_nil in Hi. discriminate.
  - destruct a as [|y a'].
    + destruct i, j; simpl in *; try discriminate.
      injection Hi as <-. injection Hj as <-. lia.
    + cbn [nondecreasing] in Hm.
      apply andb_true_iff in Hm as [Hxy Hm]. apply Z.leb_le in Hxy.
      specialize (IH Hm).
      destruct i as [|i]; destruct j as [|j]; cbn [lookup list_lookup] in *.
      * injection Hi as <-. injection Hj as <-. lia.
      * injection Hi as <-.
        assert (y <= v)%Z; [|lia].
        apply (IH 0 j y v); [lia|reflexivity|exact Hj].
      * lia.
      * apply (IH i j u v); [lia|exact Hi|exact Hj].
Qed.

Lemma is_monotonic_increasing_spec (a : list Z) :
  is_monotonic_increasing a = true -> increasing a.
Proof.
  unfold is_monotonic_increasing. intros H.
  apply andb_true_iff in H as [_ H]. apply nondecreasing_spec. exact H.
Qed.

Lemma is_monotonic_increasing_no_NaT (a : list Z) :
  is_monotonic_increasing a = true -> NaT ∉ a.
Proof.
  unfold is_monotonic_increasing. intros H Hin.
  apply andb_true_iff in H as [H _]. rewrite forallb_forall in H.
  apply list_elem_of_In in Hin. specialize (H _ Hin).
  rewrite Z.eqb_refl in H. discriminate H.
Qed.

(** The binary search returns the boundary of a predicate that holds on a
    prefix of the cells: the fuel [length a] suffices. *)
Lemma bisect_boundary (p : Z -> bool) (a : list Z) :
  increasing a ->
  (forall x y, (x <= y)%Z -> p y = true -> p x = true) ->
  forall fuel lo hi,
    lo <= hi <= length a -> hi - lo <= fuel ->
    Forall (fun x => p x = true) (take lo a) ->
    Forall (fun x => p x = false) (drop hi a) ->
    Forall (fun x => p x = true) (take (bisect p a lo hi fuel) a) /\
    Forall (fun x => p x = false) (drop (bisect p a lo hi fuel) a).
Proof.
  intros Hinc Hp. induction fuel as [|fuel IH]; intros lo hi Hb Hf Hlo Hhi.
  - cbn [bisect]. assert (lo = hi) as -> by lia. split; assumption.
  - cbn [bisect]. destruct (Nat.ltb_spec lo hi) as [Hlt|Hge].
    2:{ assert (lo = hi) as -> by lia. split; assumption. }
    pose proof (Nat.div_mod_eq (lo + hi) 2) as Hdm.
    pose proof (Nat.mod_upper_bound (lo + hi) 2 ltac:(lia)) as Hmod.
    set (mid := (lo + hi) / 2) in *.
    assert (Hmid : lo <= mid < hi) by lia.
    destruct (a !! mid) as [x|] eqn:Hx.
    2:{ apply lookup_ge_None in Hx. lia. }
    destruct (p x) eqn:Hpx.
    + apply IH; [lia|lia| |exact Hhi].
      apply Forall_lookup. intros i y Hy.
      apply lookup_take_Some in Hy as [Hy Hi].
      apply (Hp y x); [|exact Hpx].
      apply (Hinc i mid y x); [lia|exact Hy|exact Hx].
    + apply IH; [lia|lia|exact Hlo|].
      apply Forall_lookup. intros i y Hy. rewrite lookup_drop in Hy.
      destruct (p y) eqn:Hpy; [|reflexivity].
      rewrite (Hp x y) in Hpx; [discriminate| |exact Hpy].
      apply (Hinc mid (mid + i) x y); [lia|exact Hx|exact Hy].
Qed.

Lemma searchsorted_left_boundary (a : list Z) (v : Z) :
  increasing a ->
  Forall (fun x => (x <? v)%Z = true) (take (searchsorted_left a v) a) /\
  Forall (fun x => (x <? v)%Z = false) (drop (searchsorted_left a v) a).
Proof.
  intros Hinc. unfold searchsorted_left.
  apply (bisect_boundary (fun x => (x <? v)%Z));
    [ exact Hinc
    | intros x y Hxy Hy; apply Z.ltb_lt in Hy; apply Z.ltb_lt; lia
    | lia | lia
    | rewrite take_0; constructor
    | rewrite drop_all; constructor ].
Qed.

Lemma searchsorted_right_boundary (a : list Z) (v : Z) :
  increasing a ->
  Forall (fun x => (x <=? v)%Z = true) (take (searchsorted_right a v) a) /\
  Forall (fun x => (x <=? v)%Z = false) (drop (searchsorted_right a v) a).
Proof.
  intros Hinc. unfold searchsorted_right.
  apply (bisect_boundary (fun x => (x <=? v)%Z));
    [ exact Hinc
    | intros x y Hxy Hy; apply Z.leb_le in Hy; apply Z.leb_le; lia
    | lia | lia
    | rewrite take_0; constructor
    | rewrite drop_all; constructor ].
Qed.

Lemma filter_none (lower upper : Z) (a : list Z) :
  Forall (fun x => ~ within lower upper x) a ->
  filter (within lower upper) a = [].
Proof.
  induction 1 as [|x a Hx _ IH]; [reflexivity|].
  rewrite filter_cons, decide_False by exact Hx. exact IH.
Qed.

(** Between the two boundaries lie exactly the cells within the interval. *)
Lemma slice_between (lower upper : Z) (a : list Z) :
  forall i j,
    Forall (fun x => (x <? lower)%Z = true) (take i a) ->
    Forall (fun x => (x <? lower)%Z = false) (drop i a) ->
    Forall (fun x => (x <=? upper)%Z = true) (take j a) ->
    Forall (fun x => (x <=? upper)%Z = false) (drop j a) ->
    slice i j a = filter (within lower upper) a.
Proof.
  unfold slice.
  induction a as [|x a IH]; intros i j Hi1 Hi2 Hj1 Hj2.
  - rewrite take_nil, drop_nil. reflexivity.
  - destruct i as [|i], j as [|j]; cbn [take drop] in *.
    + symmetry. apply filter_none.
      eapply Forall_impl; [exact Hj2|]. intros y Hy [_ Hw].
      apply Z.leb_gt in Hy. lia.
    + apply Forall_cons in Hi2 as [Hx1 Hi2]. apply Forall_cons in Hj1 as [Hx2 Hj1].
      apply Z.ltb_ge in Hx1. apply Z.leb_le in Hx2.
      rewrite filter_cons, decide_True by (split; lia).
      f_equal. apply (IH 0 j); [constructor|exact Hi2|exact Hj1|exact Hj2].
    + symmetry. apply filter_none.
      eapply Forall_impl; [exact Hj2|]. intros y Hy [_ Hw].
      apply Z.leb_gt in Hy. lia.
    + apply Forall_cons in Hi1 as [Hx1 Hi1]. apply Forall_cons in Hj1 as [Hx2 Hj1].
      apply Z.ltb_lt in Hx1.
      rewrite filter_cons, decide_False by (intros [? ?]; lia).
      apply (IH i j); assumption.
Qed.

Lemma day_bounds (start stop : date) (t : Z) :
  within (day_lower start) (day_upper stop) t <->
  (days_from_civil start <= day_of t <= days_from_civil stop)%Z.
Proof.
  unfold within, day_lower, day_upper, day_of, NS_PER_DAY.
  generalize (days_from_civil start) (days_from_civil stop). intros a b.
  Z.div_mod_to_equations. lia.
Qed.

(** ** The calendar *)

Section Calendar.

Local Open Scope Z_scope.

Lemma era_parts (z : Z) :
  let z' := z + 719468 in
  let era := z' / 146097 in
  let doe := z' - era * 146097 in
  0 <= doe < 146097.
Proof. cbv zeta. Z.div_mod_to_equations. lia. Qed.

Lemma yoe_bounds (doe : Z) : 0 <= doe < 146097 ->
  let yoe := (doe - doe / 1460 + doe / 36524 - doe / 146096) / 365 in
  0 <= yoe <= 399 /\ 0 <= doe - (365 * yoe + yoe / 4 - yoe / 100) <= 365.
Proof. intros H. cbv zeta. Z.div_mod_to_equations. lia. Qed.

Lemma days_from_civil_from_days (z : Z) : days_from_civil (civil_from_days z) = z.
Proof.
  unfold civil_from_days, days_from_civil. cbv zeta. cbn [year month day].
  pose proof (era_parts z) as He. cbv zeta in He.
  set (era := (z + 719468) / 146097) in *.
  set (doe := z + 719468 - era * 146097) in *.
  pose proof (yoe_bounds doe He) as [Hy Hd]. 
  set (yoe := (doe - doe / 1460 + doe / 36524 - doe / 146096) / 365) in *.
  set (doy := doe - (365 * yoe + yoe / 4 - yoe / 100)) in *.
  assert (Hmp : 0 <= (5 * doy + 2) / 153 <= 11) by (Z.div_mod_to_equations; lia).
  set (mp := (5 * doy + 2) / 153) in *.
  destruct (Z.ltb_spec mp 10) as [Hlt|Hge].
  - destruct (Z.leb_spec (mp + 3) 2); [lia|].
    destruct (Z.gtb_spec (mp + 3) 2); [|lia].
    replace (mp + 3 - 3) with mp by lia.
    assert (Hera : (yoe + era * 400) / 400 = era) by (Z.div_mod_to_equations; lia).
    rewrite Hera.
    replace (yoe + era * 400 - era * 400) with yoe by lia.
    unfold doy, doe. lia.
  - destruct (Z.leb_spec (mp - 9) 2); [|lia].
    destruct (Z.gtb_spec (mp - 9) 2); [lia|].
    replace (mp - 9 + 9) with mp by lia.
    replace (yoe + era * 400 + 1 - 1) with (yoe + era * 400) by lia.
    assert (Hera : (yoe + era * 400) / 400 = era) by (Z.div_mod_to_equations; lia).
    rewrite Hera.
    replace (yoe + era * 400 - era * 400) with yoe by lia.
    unfold doy, doe. lia.
Qed.

Lemma civil_bounds (z : Z) : -106752 <= z <= 106751 ->
  1600 <= year (civil_from_days z) <= 2401 /\ 1 <= month (civil_from_days z) <= 12 /\ 1 <= day (civil_from_days z) <= 31.
Proof.
  intros Hz.
  unfold civil_from_days. cbv zeta. cbn [year month day].
  pose proof (era_parts z) as He. cbv zeta in He.
  assert (Hera: 4 <= (z + 719468) / 146097 <= 5) by (Z.div_mod_to_equations; lia).
  set (era := (z + 719468) / 146097) in *.
  set (doe := z + 719468 - era * 146097) in *.
  pose proof (yoe_bounds doe He) as [Hy Hd]. 
  set (yoe := (doe - doe / 1460 + doe / 36524 - doe / 146096) / 365) in *.
  set (doy := doe - (365 * yoe + yoe / 4 - yoe / 100)) in *.
  assert (Hmp : 0 <= (5 * doy + 2) / 153 <= 11) by (Z.div_mod_to_equations; lia).
  assert (Hdd : 1 <= doy - (153 * ((5 * doy + 2) / 153) + 2) / 5 + 1 <= 31) by (Z.div_mod_to_equations; lia).
  set (mp := (5 * doy + 2) / 153) in *.
  destruct (Z.ltb_spec mp 10); [destruct (Z.leb_spec (mp + 3) 2)|destruct (Z.leb_spec (mp - 9) 2)]; lia.
Qed.

Lemma digit_value_digit (n : Z) : digit_value (digit n) = Some (n mod 10).
Proof.
  unfold digit. pose proof (Z.mod_pos_bound n 10 ltac:(lia)) as H.
  destruct (n mod 10) as [|p|p]; [reflexivity| |lia].
  do 4 (destruct p as [p|p|]; try reflexivity; try lia).
Qed.

Lemma parse_iso_string (d : date) :
  0 <= year d <= 9999 -> 0 <= month d <= 99 -> 0 <= day d <= 99 ->
  parse_iso (iso_string d) = Some d.
Proof.
  intros Hy Hm Hd. destruct d as [y m dd]. cbn [year month day] in *.
  unfold parse_iso, iso_string, digits4, digits2.
  cbv [String.append list_ascii_of_string number_of].
  rewrite !digit_value_digit. cbn -[Z.div Z.mul Z.add Z.modulo].
  f_equal. f_equal; Z.div_mod_to_equations; lia.
Qed.

Lemma daily_path_iso_inj (d1 d2 : date) :
  daily_path (iso_string d1) = daily_path (iso_string d2) ->
  iso_string d1 = iso_string d2.
Proof.
  unfold daily_path, iso_string, digits4, digits2.
  cbv [String.append]. intros H. injection H. intros. congruence.
Qed.

Lemma day_of_valid (t : Z) : valid_datetime64 t -> -106752 <= day_of t <= 106751.
Proof.
  unfold valid_datetime64, day_of, NS_PER_DAY. intros H.
  change (2 ^ 63) with 9223372036854775808 in H.
  Z.div_mod_to_equations. lia.
Qed.

Lemma daily_path_day_inj (t1 t2 : Z) :
  valid_datetime64 t1 -> valid_datetime64 t2 ->
  daily_path (datetime_as_string_D t1) = daily_path (datetime_as_string_D t2) ->
  day_of t1 = day_of t2.
Proof.
  intros H1 H2 Hp. unfold datetime_as_string_D in Hp.
  apply day_of_valid in H1, H2.
  pose proof (civil_bounds _ H1) as (? & ? & ?).
  pose proof (civil_bounds _ H2) as (? & ? & ?).
  rewrite <- (days_from_civil_from_days (day_of t1)).
  rewrite <- (days_from_civil_from_days (day_of t2)).
  remember (civil_from_days (day_of t1)) as c1.
  remember (civil_from_days (day_of t2)) as c2.
  apply daily_path_iso_inj in Hp.
  assert (Some c1 = Some c2) as Hc.
  { rewrite <- (parse_iso_string c1) by lia.
    rewrite <- (parse_iso_string c2) by lia. rewrite Hp. reflexivity. }
  injection Hc as ->. reflexivity.
Qed.

End Calendar.

(** ** The median *)

Lemma count_if_insert_sorted p x l :
  count_if p (insert_sorted x l) = count_if p (x :: l).
Proof.
  induction l as [|y l IH]; [reflexivity|].
  cbn [insert_sorted]. destruct (Qle_bool x y); [reflexivity|].
  cbn [count_if] in *. rewrite IH. lia.
Qed.

Lemma count_if_sort p l : count_if p (sort l) = count_if p l.
Proof.
  induction l as [|x l IH]; [reflexivity|].
  cbn [sort]. rewrite count_if_insert_sorted. cbn [count_if]. rewrite IH. reflexivity.
Qed.

Lemma length_insert_sorted x l : length (insert_sorted x l) = S (length l).
Proof.
  induction l as [|y l IH]; [reflexivity|].
  cbn [insert_sorted]. destruct (Qle_bool x y); cbn [length]; [reflexivity|]. rewrite IH. reflexivity.
Qed.

Lemma length_sort l : length (sort l) = length l.
Proof.
  induction l as [|x l IH]; [reflexivity|].
  cbn [sort]. rewrite length_insert_sorted, IH. reflexivity.
Qed.

Lemma insert_sorted_Forall (P : Q -> Prop) x l :
  P x -> Forall P l -> Forall P (insert_sorted x l).
Proof.
  intros Hx. induction 1 as [|y l Hy Hl IH]; cbn [insert_sorted].
  - repeat constructor. exact Hx.
  - destruct (Qle_bool x y); repeat constructor; assumption.
Qed.

Lemma insert_sorted_sorted x l :
  StronglySorted Qle l -> StronglySorted Qle (insert_sorted x l).
Proof.
  induction 1 as [|y l Hs IH Hy]; cbn [insert_sorted].
  - repeat constructor.
  - destruct (Qle_bool x y) eqn:E.
    + apply Qle_bool_iff in E. constructor; [constructor; assumption|].
      constructor; [exact E|].
      eapply Forall_impl; [exact Hy|]. intros z Hz. cbv beta in *. lra.
    + constructor; [exact IH|].
      apply insert_sorted_Forall; [|exact Hy].
      destruct (Qlt_le_dec y x) as [Hlt|Hle]; [lra|].
      apply Qle_bool_iff in Hle. congruence.
Qed.

Lemma sort_sorted l : StronglySorted Qle (sort l).
Proof.
  induction l as [|x l IH]; [constructor|]. apply insert_sorted_sorted, IH.
Qed.

Lemma sorted_lookup (s : list Q) :
  StronglySorted Qle s ->
  forall i j x y, i <= j -> s !! i = Some x -> s !! j = Some y -> Qle x y.
Proof.
  induction 1 as [|z s Hs IH Hz]; intros i j x y Hij Hi Hj.
  - rewrite lookup_nil in Hi. discriminate.
  - destruct i as [|i], j as [|j]; cbn [lookup list_lookup] in *.
    + injection Hi as <-. injection Hj as <-. apply Qle_refl.
    + injection Hi as <-. rewrite Forall_lookup in Hz. apply (Hz j y Hj).
    + lia.
    + apply (IH i j); [lia|assumption|assumption].
Qed.

Lemma count_if_app p l1 l2 : count_if p (l1 ++ l2) = count_if p l1 + count_if p l2.
Proof.
  induction l1 as [|x l1 IH]; [reflexivity|]. cbn [app count_if]. rewrite IH. lia.
Qed.

Lemma count_if_all p l : Forall (fun x => p x = true) l -> count_if p l = length l.
Proof.
  induction 1 as [|x l Hx _ IH]; [reflexivity|]. cbn [count_if length]. rewrite Hx, IH. reflexivity.
Qed.

Lemma count_if_prefix p l k :
  Forall (fun x => p x = true) (take k l) -> k <= length l -> k <= count_if p l.
Proof.
  intros H Hk. rewrite <- (take_drop k l), count_if_app, (count_if_all _ _ H).
  rewrite length_take. lia.
Qed.

Lemma count_if_suffix p l k :
  Forall (fun x => p x = true) (drop k l) -> length l - k <= count_if p l.
Proof.
  intros H. rewrite <- (take_drop k l) at 2. rewrite count_if_app, (count_if_all _ _ H).
  rewrite length_drop. lia.
Qed.

Lemma sorted_below (s : list Q) k x m :
  StronglySorted Qle s -> s !! k = Some x -> Qle x m ->
  Forall (fun y => Qle_bool y m = true) (take (S k) s).
Proof.
  intros Hs Hk Hxm. apply Forall_lookup. intros i y Hy.
  apply lookup_take_Some in Hy as [Hy Hi]. apply Qle_bool_iff.
  apply Qle_trans with x; [|exact Hxm].
  apply (sorted_lookup s Hs i k); [lia|exact Hy|exact Hk].
Qed.

Lemma sorted_above (s : list Q) k x m :
  StronglySorted Qle s -> s !! k = Some x -> Qle m x ->
  Forall (fun y => Qle_bool m y = true) (drop k s).
Proof.
  intros Hs Hk Hxm. apply Forall_lookup. intros i y Hy.
  rewrite lookup_drop in Hy. apply Qle_bool_iff.
  apply Qle_trans with x; [exact Hxm|].
  apply (sorted_lookup s Hs k (k + i)); [lia|exact Hk|exact Hy].
Qed.

Lemma np_median_is_median (l : list npfloat) (qs : list Q) :
  finite_values l = Some qs -> qs <> [] ->
  exists m, np_median l = Num m /\ is_median m qs.
Proof.
  intros Hf Hne. unfold np_median. rewrite Hf. cbv zeta.
  pose proof (sort_sorted qs) as Hs.
  pose proof (length_sort qs) as Hlen.
  assert (Hpos : 0 < length qs) by (destruct qs; [congruence|simpl; lia]).
  unfold is_median. 
  setoid_rewrite <- (count_if_sort _ qs).
  rewrite <- Hlen in Hpos |- *. clear Hlen.
  set (s := sort qs) in *. clearbody s. remember (length s) as n eqn:Hn.
  destruct (Nat.eqb_spec n 0) as [|_]; [lia|].
  pose proof (Nat.div_mod_eq n 2) as Hdm.
  pose proof (Nat.mod_upper_bound n 2 ltac:(lia)) as Hmod.
  destruct (Nat.even n) eqn:Hev.
  - apply Nat.even_spec in Hev. destruct Hev as [h Hh].
    assert (Hh2 : n / 2 = h) by lia.
    assert (Hi1 : n / 2 - 1 < length s) by lia.
    destruct (lookup_lt_is_Some_2 s _ Hi1) as [a Ha].
    assert (Hi2 : n / 2 < length s) by lia.
    destruct (lookup_lt_is_Some_2 s _ Hi2) as [b Hb].
    rewrite (nth_lookup_Some _ _ _ _ Ha), (nth_lookup_Some _ _ _ _ Hb).
    assert (Hle : n / 2 - 1 <= n / 2) by lia.
    pose proof (sorted_lookup s Hs _ _ _ _ Hle Ha Hb) as Hab.
    eexists. split; [reflexivity|]. split.
    + pose proof (count_if_prefix (fun x => Qle_bool x ((a + b) / 2)%Q) s (S (n / 2 - 1))) as Hc.
      assert (S (n / 2 - 1) <= count_if (fun x => Qle_bool x ((a + b) / 2)%Q) s); [|lia].
      apply Hc; [|lia].
      apply (sorted_below s _ a); [exact Hs|exact Ha|].
      apply Qle_shift_div_l; lra.
    + pose proof (count_if_suffix (fun x => Qle_bool ((a + b) / 2)%Q x) s (n / 2)) as Hc.
      assert (length s - n / 2 <= count_if (fun x => Qle_bool ((a + b) / 2)%Q x) s); [|lia].
      apply Hc. apply (sorted_above s _ b); [exact Hs|exact Hb|].
      apply Qle_shift_div_r; lra.
  - assert (Hi2 : n / 2 < length s) by lia.
    destruct (lookup_lt_is_Some_2 s _ Hi2) as [b Hb].
    rewrite (nth_lookup_Some _ _ _ _ Hb).
    eexists. split; [reflexivity|]. split.
    + assert (S (n / 2) <= count_if (fun x => Qle_bool x b) s); [|lia].
      apply count_if_prefix; [|lia].
      apply (sorted_below s _ b); [exact Hs|exact Hb|]. apply Qle_refl.
    + assert (length s - n / 2 <= count_if (fun x => Qle_bool b x) s); [|lia].
      apply count_if_suffix. apply (sorted_above s _ b); [exact Hs|exact Hb|]. apply Qle_refl.
Qed.

(** ** Boolean-mask selection *)

Lemma omap_seq_S {A} (g : nat -> option A) (n : nat) :
  forall a, omap g (seq (S a) n) = omap (fun k => g (S k)) (seq a n).
Proof.
  induction n as [|n IH]; intros a; [reflexivity|].
  cbn. rewrite IH. reflexivity.
Qed.

Lemma omap_none {A B} (g : A -> option B) (l : list A) :
  (forall x, g x = None) -> omap g l = [].
Proof.
  intros Hg. induction l as [|x l IH]; [reflexivity|].
  cbn. rewrite Hg. exact IH.
Qed.

Lemma select_lookup {A} (p : npfloat -> bool) (fs : list npfloat) :
  forall xs : list A,
    select xs (map p fs) =
    omap (fun k =>
            match fs !! k with
            | Some f => if p f then xs !! k else None
            | None => None
            end)
         (seq 0 (length fs)).
Proof.
  induction fs as [|f fs IH]; intros xs.
  - destruct xs; reflexivity.
  - destruct xs as [|x xs].
    + cbn [select]. symmetry. apply omap_none. intros k.
      destruct ((f :: fs) !! k) as [f'|]; [|reflexivity].
      destruct (p f'); reflexivity.
    + cbn [map select length seq]. rewrite (IH xs).
      change (omap ?g (0 :: ?l)) with
        (match g 0 with Some y => y :: omap g l | None => omap g l end).
      rewrite omap_seq_S. cbn [lookup list_lookup].
      destruct (p f); reflexivity.
Qed.

Lemma bool_index_values_where (F : Z) (fa vals : array) :
  array_shape vals = array_shape fa ->
  bool_index (to_float vals) (eq_scalar fa F) = Ok (values_where F fa vals).
Proof.
  intros Hs. unfold bool_index, eq_scalar, values_where.
  change (shape (map_array _ (to_float fa))) with (array_shape fa).
  change (shape (to_float vals)) with (array_shape vals).
  rewrite Hs, shape_eqb_refl. cbn [cells map_array].
  rewrite select_lookup. reflexivity.
Qed.

Lemma bool_index_mismatch (F : Z) (fa vals : array) :
  array_shape vals <> array_shape fa ->
  bool_index (to_float vals) (eq_scalar fa F) = Raise IndexError.
Proof.
  intros Hs. unfold bool_index, eq_scalar.
  change (shape (map_array _ (to_float fa))) with (array_shape fa).
  change (shape (to_float vals)) with (array_shape vals).
  apply shape_eqb_neq in Hs. rewrite Hs. reflexivity.
Qed.

Lemma values_where_occurs (F : Z) (fa vals : array) :
  occurs F fa ->
  length (cells (to_float fa)) <= length (cells (to_float vals)) ->
  values_where F fa vals <> [].
Proof.
  intros (k & f & Hk & Hf) Hlen. unfold values_where.
  assert (Hkl : k < length (cells (to_float fa))).
  { apply lookup_lt_is_Some. eauto. }
  assert (Hv : k < length (cells (to_float vals))) by lia.
  apply lookup_lt_is_Some in Hv as [v Hv].
  intros Hnil.
  assert (Hin : v ∈ ([] : list npfloat)); [|inversion Hin].
  rewrite <- Hnil. apply list_elem_of_omap. exists k. split.
  - apply elem_of_seq. lia.
  - rewrite Hk, Hf. exact Hv.
Qed.

Lemma values_where_absent (F : Z) (fa vals : array) :
  ~ occurs F fa -> values_where F fa vals = [].
Proof.
  intros Hno. unfold values_where. apply omap_none. intros k.
  destruct (cells (to_float fa) !! k) as [f|] eqn:Hk; [|reflexivity].
  destruct (np_eq f (of_int F)) eqn:Hf; [|reflexivity].
  exfalso. apply Hno. exists k, f. split; assumption.
Qed.

(** ** Datasets: arithmetic and label slicing *)

Section Datasets.

Context {V : Type} `{!Scalar V}.

Implicit Types (ds : Dataset V) (f : V -> V).

Lemma lookup_var_map f (name : string) (vs : list (string * list (ndarray V))) :
  lookup_var name
    (map (fun nv => (fst nv, map (map_array f) (snd nv))) vs) =
  match lookup_var name vs with
  | Ok frames => Ok (map (map_array f) frames)
  | Raise x => Raise x
  end.
Proof.
  induction vs as [|[n frames] vs IH]; [reflexivity|].
  cbn [map lookup_var fst snd]. destruct (String.eqb name n); [reflexivity|].
  exact IH.
Qed.

Lemma value_at_ds_map f ds (name : string) (t k : nat) :
  value_at (ds_map f ds) name t k = f <$> value_at ds name t k.
Proof.
  unfold value_at, get_var, ds_map. cbn [data_vars].
  rewrite lookup_var_map.
  destruct (lookup_var name (data_vars ds)) as [frames|x]; [|reflexivity].
  rewrite list_lookup_fmap. destruct (frames !! t) as [a|]; [|reflexivity].
  cbn [option_map fmap option_fmap cells map_array].
  apply list_lookup_fmap.
Qed.

Lemma slice_map {A B} (g : A -> B) (i j : nat) (l : list A) :
  slice i j (map g l) = map g (slice i j l).
Proof.
  unfold slice. rewrite firstn_map, skipn_map. reflexivity.
Qed.

Lemma isel_time_ds_map f ds (i j : nat) :
  isel_time (ds_map f ds) i j = ds_map f (isel_time ds i j).
Proof.
  unfold isel_time, ds_map. cbn [time latitude longitude data_vars].
  f_equal. rewrite !map_map. apply map_ext. intros [n frames].
  cbn [fst snd]. rewrite slice_map. reflexivity.
Qed.

Lemma sel_time_ds_map f ds (start stop : date) :
  sel_time (ds_map f ds) start stop =
  match sel_time ds start stop with
  | Ok ds' => Ok (ds_map f ds')
  | Raise x => Raise x
  end.
Proof.
  unfold sel_time. change (time (ds_map f ds)) with (time ds).
  destruct (slice_indexer (time ds) start stop) as [[i j]|x]; [|reflexivity].
  rewrite isel_time_ds_map. reflexivity.
Qed.

Lemma slice_indexer_increasing (idx : list datetime64) (start stop : date) :
  is_monotonic_increasing idx = true ->
  slice_indexer idx start stop =
  Ok (searchsorted_left idx (day_lower start),
      searchsorted_right idx (day_upper stop)).
Proof.
  intros H. unfold slice_indexer. rewrite H. reflexivity.
Qed.

(** One line of the subsetting cell, run on a state where the name is
    bound to a dataset. *)
Lemma subset_one_run (dates : date * date) (l : loc) (s : state V) ds :
  heap s !! l = Some (ODataset ds) ->
  subset_one dates l s =
  match sel_time ds (fst dates) (snd dates) with
  | Ok ds' =>
      (Ok (length (heap s)),
       mk_state (heap s ++ [ODataset ds']) (disk s) (shown s))
  | Raise x => (Raise x, s)
  end.
Proof.
  intros Hl. unfold subset_one, load_dataset, load, lift, alloc, ret, bind.
  cbv beta. rewrite Hl.
  destruct (sel_time ds (fst dates) (snd dates)); reflexivity.
Qed.

(** C1, as the code has it.  On a time axis in increasing order that holds
    no NaT, [sel(time=slice(start, stop))] returns (no exception) the
    dataset whose time axis is the original one
    filtered to the timestamps from the first instant of [start] to the
    last instant of [stop]: a retained timestamp is one of the original
    axis whose day lies between the two days, both included; an interval
    that meets no timestamp leaves an empty axis; the other coordinates
    are kept and every variable is cut at the same positions.  The
    subsetting cell binds the name to that dataset. *)
Theorem sel_time_retains_interval ds (start stop : date) :
  is_monotonic_increasing (time ds) = true ->
  exists ds',
    sel_time ds start stop = Ok ds' /\
    time ds' = filter (within (day_lower start) (day_upper stop)) (time ds) /\
    (forall t, t ∈ time ds' <->
               t ∈ time ds /\
               (days_from_civil start <= day_of t <= days_from_civil stop)%Z) /\
    ((forall t, t ∈ time ds ->
                ~ (days_from_civil start <= day_of t <= days_from_civil stop)%Z) ->
     time ds' = []) /\
    latitude ds' = latitude ds /\ longitude ds' = longitude ds /\
    (exists i j,
      time ds' = slice i j (time ds) /\
      data_vars ds' =
      map (fun nv => (fst nv, slice i j (snd nv))) (data_vars ds)) /\
    (forall (s : state V) (l : loc),
        heap s !! l = Some (ODataset ds) ->
        subset_one (start, stop) l s =
        (Ok (length (heap s)),
         mk_state (heap s ++ [ODataset ds']) (disk s) (shown s))).
Proof.
  intros Hm.
  assert (Hsel : sel_time ds start stop =
                 Ok (isel_time ds (searchsorted_left (time ds) (day_lower start))
                       (searchsorted_right (time ds) (day_upper stop)))).
  { unfold sel_time. rewrite (slice_indexer_increasing _ _ _ Hm). reflexivity. }
  pose proof (is_monotonic_increasing_spec _ Hm) as Hinc.
  destruct (searchsorted_left_boundary (time ds) (day_lower start) Hinc)
    as [Hl1 Hl2].
  destruct (searchsorted_right_boundary (time ds) (day_upper stop) Hinc)
    as [Hr1 Hr2].
  pose proof (slice_between _ _ _ _ _ Hl1 Hl2 Hr1 Hr2) as Hs.
  eexists. split; [exact Hsel|].
  cbn [isel_time time latitude longitude data_vars].
  assert (Hmem : forall t,
             t ∈ filter (within (day_lower start) (day_upper stop)) (time ds) <->
             t ∈ time ds /\
             (days_from_civil start <= day_of t <= days_from_civil stop)%Z).
  { intros t. rewrite list_elem_of_filter, day_bounds. tauto. }
  split; [exact Hs|].
  split; [intros t; rewrite Hs; apply Hmem|].
  split.
  { rewrite Hs. intros Hno.
    destruct (filter _ (time ds)) as [|t l] eqn:E; [reflexivity|].
    exfalso. assert (Ht : t ∈ t :: l) by (left).
    apply Hmem in Ht as [Ht1 Ht2].
    exact (Hno t Ht1 Ht2). }
  split; [reflexivity|]. split; [reflexivity|].
  split; [eexists _, _; split; reflexivity|].
  intros s l Hl. rewrite (subset_one_run (start, stop) l s ds Hl).
  cbn [fst snd]. rewrite Hsel. reflexivity.
Qed.

(** C10.  The three unit conversions change data variables only: the
    time, latitude and longitude axes of the converted dataset are those
    of the source, so slicing by time label selects the same positions
    before and after the conversion (and raises in the same cases). *)
Theorem conversions_keep_coordinates ds (c : Q) :
  (time (ds_mul ds c) = time ds /\ latitude (ds_mul ds c) = latitude ds /\
   longitude (ds_mul ds c) = longitude ds) /\
  (time (ds_sub ds c) = time ds /\ latitude (ds_sub ds c) = latitude ds /\
   longitude (ds_sub ds c) = longitude ds) /\
  (time (ds_div ds c) = time ds /\ latitude (ds_div ds c) = latitude ds /\
   longitude (ds_div ds c) = longitude ds) /\
  (forall start stop,
      sel_time (ds_mul ds c) start stop =
      match sel_time ds start stop with
      | Ok ds' => Ok (ds_mul ds' c) | Raise x => Raise x end) /\
  (forall start stop,
      sel_time (ds_sub ds c) start stop =
      match sel_time ds start stop with
      | Ok ds' => Ok (ds_sub ds' c) | Raise x => Raise x end) /\
  (forall start stop,
      sel_time (ds_div ds c) start stop =
      match sel_time ds start stop with
      | Ok ds' => Ok (ds_div ds' c) | Raise x => Raise x end).
Proof.
  repeat split; try reflexivity; intros start stop; apply sel_time_ds_map.
Qed.

End Datasets.

(** ** The cells on loaded data *)

Section Cells.

Context {V : Type} `{!Scalar V}.

Implicit Types (s : state V) (e : facet_env).

Lemma heap_pure_ret {A} (a : A) : heap_pure (V:=V) (ret a).
Proof. intros s. reflexivity. Qed.

Lemma heap_pure_raise {A} (x : exn) : heap_pure (V:=V) (@raise V A x).
Proof. intros s. reflexivity. Qed.

Lemma heap_pure_lift {A} (o : outcome A) : heap_pure (V:=V) (lift o).
Proof. intros s. reflexivity. Qed.

Lemma heap_pure_bind {A B} (m : M V A) (k : A -> M V B) :
  heap_pure m -> (forall a, heap_pure (k a)) -> heap_pure (bind m k).
Proof.
  intros Hm Hk s. unfold bind. specialize (Hm s).
  destruct (m s) as [[a|x] s']; cbn [snd] in *.
  - rewrite Hk. exact Hm.
  - exact Hm.
Qed.

Lemma heap_pure_load (l : loc) : heap_pure (V:=V) (@load V l).
Proof. intros s. unfold load. destruct (heap s !! l); reflexivity. Qed.

Lemma heap_pure_load_array (l : loc) : heap_pure (V:=V) (@load_array V l).
Proof.
  apply heap_pure_bind; [apply heap_pure_load|].
  intros [a|df|ds]; first [apply heap_pure_ret | apply heap_pure_raise].
Qed.

Lemma heap_pure_load_frame (l : loc) : heap_pure (V:=V) (@load_frame V l).
Proof.
  apply heap_pure_bind; [apply heap_pure_load|].
  intros [a|df|ds]; first [apply heap_pure_ret | apply heap_pure_raise].
Qed.

Lemma heap_pure_load_dataset (l : loc) : heap_pure (V:=V) (@load_dataset V l).
Proof.
  apply heap_pure_bind; [apply heap_pure_load|].
  intros [a|df|ds]; first [apply heap_pure_ret | apply heap_pure_raise].
Qed.

Lemma heap_pure_savefig (p : string) (fig : figure V) :
  heap_pure (V:=V) (savefig p fig).
Proof. intros s. reflexivity. Qed.

Lemma heap_pure_show (fig : figure V) : heap_pure (V:=V) (show fig).
Proof. intros s. reflexivity. Qed.

Lemma heap_pure_for_each {A} (l : list A) (body : A -> M V unit) :
  (forall x, heap_pure (body x)) -> heap_pure (for_each l body).
Proof.
  intros Hb. induction l as [|x l IH]; cbn [for_each].
  - apply heap_pure_ret.
  - apply heap_pure_bind; [apply Hb|]. intros _. exact IH.
Qed.

Ltac heap_pure_step :=
  first
    [ apply heap_pure_ret | apply heap_pure_raise | apply heap_pure_lift
    | apply heap_pure_load_array | apply heap_pure_load_frame
    | apply heap_pure_load_dataset | apply heap_pure_savefig
    | apply heap_pure_show
    | apply heap_pure_bind; [|intros ?]
    | match goal with
      | |- @heap_pure _ _ (if ?b then _ else _) => destruct b
      end ].

Lemma heap_pure_timeseries_plot (strptime_ymd : string -> option date)
    (col : string) e :
  heap_pure (V:=V) (timeseries_plot strptime_ymd col e).
Proof.
  unfold timeseries_plot. cbv zeta. repeat heap_pure_step.
Qed.

Lemma heap_pure_plot_day (central : npfloat) (e5 : era5_env) (dayx : nat) :
  heap_pure (V:=V) (@plot_day V _ central e5 dayx).
Proof.
  unfold plot_day. cbv zeta. repeat heap_pure_step.
Qed.

Lemma heap_pure_daily_plots (lons : loc) (e5 : era5_env) :
  heap_pure (V:=V) (@daily_plots V _ lons e5).
Proof.
  unfold daily_plots. cbv zeta. repeat heap_pure_step.
  apply heap_pure_for_each. intros k. apply heap_pure_plot_day.
Qed.

(** The heap after the overview cell: the masked copy is a new object,
    and nothing else differs. *)
Lemma overview_map_heap (F : Z) e s :
  heap (snd (overview_map F e s)) =
  match heap s !! orientation e with
  | Some (OArray o) => heap s ++ [OArray (FloatArr (masked_grid o))]
  | _ => heap s
  end.
Proof.
  unfold overview_map. unfold bind at 1. unfold load_array at 1.
  unfold bind at 1. unfold load at 1.
  destruct (heap s !! orientation e) as [[o|df|ds]|]; try reflexivity.
  cbn [ret]. unfold bind at 1. unfold alloc at 1.
  unfold bind at 1. unfold load_array at 1. unfold bind at 1.
  unfold load at 1. cbn [heap disk shown].
  rewrite heap_lookup_fresh. cbn [ret].
  unfold bind at 1. unfold lift at 1.
  pose proof (mask_flat_masked_grid o) as Hm. unfold mask_flat in Hm.
  rewrite Hm. unfold bind at 1. unfold store at 1. cbn [heap disk shown].
  rewrite heap_store_fresh.
  match goal with
  | |- heap (snd (?m ?s1)) = _ =>
      assert (Hp : heap_pure m); [|exact (Hp s1)]
  end.
  cbv zeta. repeat heap_pure_step.
Qed.

(** C8.  None of the three rendering cells changes an object that was on
    the heap before it ran: the time-series cell and the daily loop leave
    the heap as it was, and the overview cell only adds one object, the
    masked float copy made by [astype('float')], at a location that did
    not exist before, so the loaded orientation layer is not the array
    that is masked. *)
Theorem rendering_keeps_loaded_arrays
    (strptime_ymd : string -> option date)
    (F : Z) (col : string) (lons : loc) e (e5 : era5_env) s :
  (forall l x, heap s !! l = Some x ->
     heap (snd (overview_map F e s)) !! l = Some x /\
     heap (snd (timeseries_plot strptime_ymd col e s)) !! l = Some x /\
     heap (snd (daily_plots lons e5 s)) !! l = Some x) /\
  heap (snd (timeseries_plot strptime_ymd col e s)) = heap s /\
  heap (snd (daily_plots lons e5 s)) = heap s /\
  (forall o, heap s !! orientation e = Some (OArray o) ->
     heap (snd (overview_map F e s)) =
       heap s ++ [OArray (FloatArr (masked_grid o))] /\
     orientation e <> length (heap s) /\
     heap (snd (overview_map F e s)) !! orientation e = Some (OArray o)).
Proof.
  pose proof (heap_pure_timeseries_plot strptime_ymd col e s) as H2.
  pose proof (heap_pure_daily_plots lons e5 s) as H3.
  pose proof (overview_map_heap F e s) as H1.
  split; [|split; [exact H2|split; [exact H3|]]].
  - intros l x Hl. rewrite H1, H2, H3. split; [|split; exact Hl].
    destruct (heap s !! orientation e) as [[o|df|ds]|]; try exact Hl.
    apply heap_lookup_alloc. exact Hl.
  - intros o Ho. rewrite H1, Ho. split; [reflexivity|]. split.
    + apply lookup_lt_Some in Ho. lia.
    + apply heap_lookup_alloc. exact Ho.
Qed.

Lemma repeat_xy_same (sh : nat * nat) : repeat_xy sh sh = (sh, sh).
Proof.
  destruct sh as [r c]. unfold repeat_xy. cbn [fst snd].
  destruct (Nat.eqb r 1), (Nat.eqb c 1); reflexivity.
Qed.

Lemma pcolormesh_check_raises (X Y C : ndarray npfloat) (x : exn) :
  pcolormesh_check X Y C = Raise x -> x = ValueError \/ x = TypeError.
Proof.
  unfold pcolormesh_check. cbv zeta.
  destruct (negb (all_finite X && all_finite Y)); [intros [= <-]; auto|].
  destruct (negb _); [intros [= <-]; auto|].
  destruct (shape_eqb _ _); [discriminate|intros [= <-]; auto].
Qed.

(** [pcolormesh] on longitudes and latitudes of one shape: it takes them
    when they are all finite and the orientation grid counts, along each
    axis, as many cells as they do or one less. *)
Lemma pcolormesh_check_same_shape (lo la o : array) :
  array_shape lo = array_shape la ->
  pcolormesh_check (to_float lo) (to_float la) (masked_grid o) = Ok tt <->
  all_finite (to_float lo) = true /\ all_finite (to_float la) = true /\
  orientation_fits lo o.
Proof.
  intros Hsh. unfold orientation_fits, array_shape, shape in *.
  injection Hsh as Hr Hc.
  unfold pcolormesh_check, shape. rewrite <- Hr, <- Hc.
  change (nrows (masked_grid o)) with (nrows (to_float o)).
  change (ncols (masked_grid o)) with (ncols (to_float o)).
  cbn [fst snd].
  set (r := nrows (to_float lo)). set (c := ncols (to_float lo)).
  set (ro := nrows (to_float o)). set (co := ncols (to_float o)).
  rewrite repeat_xy_same. cbn [fst snd].
  rewrite repeat_xy_same. cbn [fst snd]. rewrite shape_eqb_refl.
  cbn [negb].
  destruct (all_finite (to_float lo)), (all_finite (to_float la));
    cbn [andb negb];
    try (split; [discriminate|intros (? & ? & _); discriminate]).
  unfold shape_eqb. cbn [fst snd].
  destruct (Nat.eqb_spec ro r), (Nat.eqb_spec co c);
    destruct (Nat.eqb_spec (r + 1) (S ro)), (Nat.eqb_spec (r + 0) (S ro)),
             (Nat.eqb_spec (c + 1) (S co)), (Nat.eqb_spec (c + 0) (S co));
    cbn [andb]; split; try discriminate; try lia;
    try (intros _; repeat split; lia);
    try (intros (_ & _ & Hf); exfalso; lia).
Qed.

Lemma mesh_accepts_fits (lo la o : array) :
  mesh_accepts lo la o -> orientation_fits lo o.
Proof.
  intros [_ [H|H]]; unfold orientation_fits; rewrite H; cbn [fst snd];
    split; auto.
Qed.

(** The two outcomes of the overview cell on a state where the four names
    are bound: an exception of one of the calls, with nothing written or
    shown, or the figure, written and shown. *)
Lemma overview_map_cases (F : Z) e s (lo la fa o : array) :
  grids_bound s e lo la fa o ->
  let s1 := mk_state (heap s ++ [OArray (FloatArr (masked_grid o))])
                     (disk s) (shown s) in
  (exists x,
      (x = CRSError \/ x = ValueError \/ x = TypeError \/ x = IndexError) /\
      overview_map F e s = (Raise x, s1)) \/
  (np_mean (cells (to_float lo)) <> NaN /\
   pcolormesh_check (to_float lo) (to_float la) (masked_grid o) = Ok tt /\
   mask_fits lo la fa /\
   overview_map F e s =
   let fig := overview_figure F lo la fa o
                (values_where F fa lo) (values_where F fa la) in
   (Ok tt,
    mk_state (heap s1) (<[overview_path := Png fig]> (disk s))
             (shown s ++ [fig]))).
Proof.
  intros (Hlo & Hla & Hfa & Ho) s1.
  rewrite (overview_map_run F e s lo la fa o Hlo Hla Hfa Ho). cbv zeta.
  fold s1.
  destruct (np_mean (cells (to_float lo))) as [c|] eqn:Hc; cbn [mercator].
  2:{ left. exists CRSError. split; [auto|reflexivity]. }
  destruct (pcolormesh_check _ _ _) as [[]|x] eqn:Hp.
  2:{ left. exists x. split; [|reflexivity].
      destruct (pcolormesh_check_raises _ _ _ _ Hp) as [-> | ->]; auto. }
  destruct (decide (array_shape lo = array_shape fa)) as [Hf1|Hf1].
  2:{ rewrite (bool_index_mismatch F fa lo Hf1).
      left. exists IndexError. split; [auto|reflexivity]. }
  rewrite (bool_index_values_where F fa lo Hf1).
  destruct (decide (array_shape la = array_shape fa)) as [Hf2|Hf2].
  2:{ rewrite (bool_index_mismatch F fa la Hf2).
      left. exists IndexError. split; [auto|reflexivity]. }
  rewrite (bool_index_values_where F fa la Hf2).
  right. split; [discriminate|]. split; [reflexivity|].
  split; [split; assumption|reflexivity].
Qed.

(** The overview cell on grids it can draw: it returns, having written
    and shown the figure. *)
Lemma overview_map_accepted (F : Z) e s (lo la fa o : array) :
  grids_bound s e lo la fa o ->
  finite_mesh lo la -> mesh_accepts lo la o -> mask_fits lo la fa ->
  overview_map F e s =
  let fig := overview_figure F lo la fa o
               (values_where F fa lo) (values_where F fa la) in
  (Ok tt,
   mk_state (heap s ++ [OArray (FloatArr (masked_grid o))])
            (<[overview_path := Png fig]> (disk s)) (shown s ++ [fig])).
Proof.
  intros (Hlo & Hla & Hfa & Ho) Hfin Hmesh [Hf1 Hf2].
  rewrite (overview_map_run F e s lo la fa o Hlo Hla Hfa Ho). cbv zeta.
  rewrite (mercator_finite _ (finite_mesh_mean lo la Hfin)).
  destruct Hfin as (_ & Hflo & Hfla).
  assert (Hp : pcolormesh_check (to_float lo) (to_float la) (masked_grid o)
               = Ok tt).
  { apply pcolormesh_check_same_shape; [apply Hmesh|].
    split; [apply all_finite_Forall; assumption|].
    split; [apply all_finite_Forall; assumption|].
    apply (mesh_accepts_fits lo la o Hmesh). }
  rewrite Hp.
  rewrite (bool_index_values_where F fa lo Hf1).
  rewrite (bool_index_values_where F fa la Hf2).
  reflexivity.
Qed.

(** The overview cell on grids whose shapes a call refuses: an exception,
    with no image written and nothing shown. *)
Lemma overview_map_refused (F : Z) e s (lo la fa o : array) :
  grids_bound s e lo la fa o ->
  ~ (mask_fits lo la fa /\ orientation_fits lo o) ->
  exists x,
    (x = CRSError \/ x = ValueError \/ x = TypeError \/ x = IndexError) /\
    overview_map F e s =
    (Raise x,
     mk_state (heap s ++ [OArray (FloatArr (masked_grid o))])
              (disk s) (shown s)).
Proof.
  intros Hb Hno.
  destruct (overview_map_cases F e s lo la fa o Hb)
    as [Hraise|(_ & Hp & Hfit & _)]; [exact Hraise|].
  exfalso. apply Hno. split; [exact Hfit|].
  destruct Hfit as [Hf1 Hf2].
  apply (pcolormesh_check_same_shape lo la o) in Hp; [apply Hp|congruence].
Qed.

Lemma finite_values_nil (l : list npfloat) :
  finite_values l = Some [] -> l = [].
Proof.
  destruct l as [|[q|] l]; cbn [finite_values]; [reflexivity| |discriminate].
  destruct (finite_values l); discriminate.
Qed.

Lemma same_shape_same_size (a b : array) :
  wf_ndarray (to_float a) -> wf_ndarray (to_float b) ->
  array_shape a = array_shape b ->
  length (cells (to_float a)) = length (cells (to_float b)).
Proof.
  unfold wf_ndarray, array_shape, shape. intros Ha Hb [= Hr Hc].
  rewrite Ha, Hb, Hr, Hc. reflexivity.
Qed.

(** C4.  When the facet id [F] occurs in the facet grid, the label of the
    image the overview cell writes is placed at (median of the longitudes
    at the cells where facets == F, median of the latitudes at those
    cells), with the text [str(F)]: whenever the cell returns, both
    selections are non-empty, the image it has written and shown carries
    that label, and a selection whose values are all finite has the
    computed value as a median in the usual sense; and the cell does
    return on grids it can draw (finite coordinates, conforming
    shapes). *)
Theorem overview_label_is_median (F : Z) e s (lo la fa o : array) :
  grids_bound s e lo la fa o ->
  wf_ndarray (to_float lo) -> wf_ndarray (to_float la) ->
  wf_ndarray (to_float fa) ->
  occurs F fa ->
  (fst (overview_map F e s) = Ok tt ->
   values_where F fa lo <> [] /\ values_where F fa la <> [] /\
   (exists central X Y C,
      disk (snd (overview_map F e s)) !! overview_path =
      Some (Png (OverviewFig central X Y C
                   (np_median (values_where F fa lo),
                    np_median (values_where F fa la), pretty F))) /\
      shown (snd (overview_map F e s)) =
      shown s ++ [OverviewFig central X Y C
                    (np_median (values_where F fa lo),
                     np_median (values_where F fa la), pretty F)]) /\
   (forall qs, finite_values (values_where F fa lo) = Some qs ->
               exists m, np_median (values_where F fa lo) = Num m /\
                         is_median m qs) /\
   (forall qs, finite_values (values_where F fa la) = Some qs ->
               exists m, np_median (values_where F fa la) = Num m /\
                         is_median m qs)) /\
  (finite_mesh lo la -> mesh_accepts lo la o -> mask_fits lo la fa ->
   fst (overview_map F e s) = Ok tt).
Proof.
  intros Hb Wlo Wla Wfa Hocc.
  assert (Hmed : forall l qs, l <> [] -> finite_values l = Some qs ->
                   exists m, np_median l = Num m /\ is_median m qs).
  { intros l qs Hne Hq. apply np_median_is_median; [exact Hq|].
    intros ->. apply finite_values_nil in Hq. contradiction. }
  split.
  - intros Hok.
    destruct (overview_map_cases F e s lo la fa o Hb)
      as [(x & _ & Hx)|(_ & _ & Hfit & Hrun)].
    { rewrite Hx in Hok. discriminate Hok. }
    pose proof Hfit as [Hf1 Hf2].
    assert (Hx : values_where F fa lo <> []).
    { apply values_where_occurs; [exact Hocc|].
      rewrite (same_shape_same_size lo fa Wlo Wfa Hf1). reflexivity. }
    assert (Hy : values_where F fa la <> []).
    { apply values_where_occurs; [exact Hocc|].
      rewrite (same_shape_same_size la fa Wla Wfa Hf2). reflexivity. }
    split; [exact Hx|]. split; [exact Hy|]. split.
    { rewrite Hrun. cbv zeta. cbn [snd disk shown]. unfold overview_figure.
      eexists _, _, _, _. split; [apply lookup_insert_eq|reflexivity]. }
    split; intros qs Hq; apply Hmed; assumption.
  - intros Hfin Hmesh Hfit.
    rewrite (overview_map_accepted F e s lo la fa o Hb Hfin Hmesh Hfit).
    reflexivity.
Qed.

(** C7, as the code has it.  On grids the cell can draw, when the facet
    id matches no cell nothing is raised: both medians are nan, the label
    is issued at (nan, nan), and the cell goes on to write and show the
    image. *)
Theorem absent_facet_label_is_nan (F : Z) e s (lo la fa o : array) :
  grids_bound s e lo la fa o ->
  finite_mesh lo la -> mesh_accepts lo la o -> mask_fits lo la fa ->
  ~ occurs F fa ->
  np_median (values_where F fa lo) = NaN /\
  np_median (values_where F fa la) = NaN /\
  fst (overview_map F e s) = Ok tt /\
  exists central X Y C,
    disk (snd (overview_map F e s)) !! overview_path =
    Some (Png (OverviewFig central X Y C (NaN, NaN, pretty F))) /\
    shown (snd (overview_map F e s)) =
    shown s ++ [OverviewFig central X Y C (NaN, NaN, pretty F)].
Proof.
  intros Hb Hfin Hmesh Hfit Hno.
  rewrite (overview_map_accepted F e s lo la fa o Hb Hfin Hmesh Hfit).
  cbv zeta.
  unfold overview_figure. rewrite !(values_where_absent F fa _ Hno).
  cbn [fst snd disk shown].
  split; [reflexivity|]. split; [reflexivity|]. split; [reflexivity|].
  eexists _, _, _, _. split; [apply lookup_insert_eq|reflexivity].
Qed.

Lemma lookup_app_at {A} (h l : list A) (i k : nat) :
  i = length h + k -> (h ++ l) !! i = l !! k.
Proof.
  intros ->. rewrite lookup_app_r by lia. f_equal. lia.
Qed.

(** The loading cell on a disk that holds the six files. *)
Lemma load_era5_run (path : string) s (raw : era5_data V) :
  era5_files (disk s) path raw ->
  let n := length (heap s) in
  load_era5 path s =
  (Ok (mk_era5_env n (n + 1) (n + 2) (n + 3) (n + 4) (n + 5)),
   mk_state
     (heap s ++
      [ODataset (d_IVT raw);
       ODataset (ds_mul (d_precip raw) 1000);
       ODataset (ds_sub (d_temp700 raw) (27315 # 100));
       ODataset (d_uwinds700 raw);
       ODataset (d_vwinds700 raw);
       ODataset (ds_div (d_hgt500 raw) (981 # 100))])
     (disk s) (shown s)).
Proof.
  intros (H1 & H2 & H3 & H4 & H5 & H6). cbv zeta.
  unfold load_era5, open_dataset, read_file, alloc, ret, raise, bind.
  cbv beta. rewrite H1. cbn [heap disk shown].
  rewrite H2. cbn [heap disk shown].
  rewrite H3. cbn [heap disk shown].
  rewrite H4. cbn [heap disk shown].
  rewrite H5. cbn [heap disk shown].
  rewrite H6. cbn [heap disk shown].
  rewrite !length_app. cbn [length].
  rewrite <- !app_assoc. cbn [app].
  f_equal. do 2 f_equal; lia.
Qed.

(** C2.  On a disk holding the six files, the loading cell returns with
    the six names bound, whatever the files hold, to: the IVT file's
    dataset and the two wind files' datasets as read; the precipitation
    dataset with every value multiplied by 1000; the temperature dataset
    with 273.15 subtracted from every value; the geopotential dataset with
    every value divided by 9.81. *)
Theorem load_era5_converts_units (path : string) s (raw : era5_data V) :
  era5_files (disk s) path raw ->
  exists (e5 : era5_env) s',
    load_era5 path s = (Ok e5, s') /\
    heap s' !! IVT e5 = Some (ODataset (d_IVT raw)) /\
    heap s' !! precip e5 = Some (ODataset (ds_mul (d_precip raw) 1000)) /\
    heap s' !! temp700 e5
    = Some (ODataset (ds_sub (d_temp700 raw) (27315 # 100))) /\
    heap s' !! uwinds700 e5 = Some (ODataset (d_uwinds700 raw)) /\
    heap s' !! vwinds700 e5 = Some (ODataset (d_vwinds700 raw)) /\
    heap s' !! hgt500 e5
    = Some (ODataset (ds_div (d_hgt500 raw) (981 # 100))) /\
    (forall name t k,
        value_at (ds_mul (d_precip raw) 1000) name t k =
        (fun v => scalar_mul v 1000) <$> value_at (d_precip raw) name t k) /\
    (forall name t k,
        value_at (ds_sub (d_temp700 raw) (27315 # 100)) name t k =
        (fun v => scalar_sub v (27315 # 100)) <$>
          value_at (d_temp700 raw) name t k) /\
    (forall name t k,
        value_at (ds_div (d_hgt500 raw) (981 # 100)) name t k =
        (fun v => scalar_div v (981 # 100)) <$>
          value_at (d_hgt500 raw) name t k).
Proof.
  intros Hf. eexists _, _. split; [apply (load_era5_run path s raw Hf)|].
  cbn [IVT precip temp700 uwinds700 vwinds700 hgt500 heap].
  repeat split;
    first [ intros name t k; apply value_at_ds_map
          | rewrite (lookup_app_at _ _ _ 0) by lia; reflexivity
          | rewrite (lookup_app_at _ _ _ 1) by lia; reflexivity
          | rewrite (lookup_app_at _ _ _ 2) by lia; reflexivity
          | rewrite (lookup_app_at _ _ _ 3) by lia; reflexivity
          | rewrite (lookup_app_at _ _ _ 4) by lia; reflexivity
          | rewrite (lookup_app_at _ _ _ 5) by lia; reflexivity ].
Qed.

(** ** The daily loop *)


Lemma day_figure_output (central : npfloat) (d : era5_data V)
    (f : era5_frames V) (k : nat) :
  vars_named d f -> drawable d f ->
  day_figure central d k =
  match day_output central d f k with
  | Some nf => Ok nf
  | None => Raise IndexError
  end.
Proof.
  intros Hv Hd. rewrite (day_figure_drawable central d f k Hv Hd).
  unfold day_output.
  destruct (frames_at f k); [|reflexivity].
  destruct (time (d_IVT d) !! k); reflexivity.
Qed.

(** Whatever the frames, a position the loop body gets through has a
    frame of every variable, and the figure is built from them. *)
Lemma day_figure_Ok (central : npfloat) (d : era5_data V)
    (f : era5_frames V) (k : nat) (nf : string * figure V) :
  vars_named d f -> day_figure central d k = Ok nf ->
  day_output central d f k = Some nf.
Proof.
  intros Hv Hok. unfold day_output.
  destruct (frames_at f k) as [fr|] eqn:Hfr.
  - rewrite (day_figure_frames central d f k fr Hv Hfr) in Hok.
    destruct (day_check d fr) as [[]|]; [|discriminate].
    destruct (time (d_IVT d) !! k); [|discriminate].
    injection Hok as <-. reflexivity.
  - destruct (day_figure_no_frames central d f k Hv Hfr) as (x & Hx & _).
    rewrite Hx in Hok. discriminate.
Qed.

Lemma render_days_inv (central : npfloat) (d : era5_data V) (ks : list nat) :
  forall dk sh,
    fst (render_days central d ks dk sh) = Ok tt ->
    exists outs,
      Forall2 (fun k nf => day_figure central d k = Ok nf) ks outs.
Proof.
  induction ks as [|k ks IH]; intros dk sh Hok.
  - exists []. constructor.
  - cbn [render_days] in Hok.
    destruct (day_figure central d k) as [[name fig]|x] eqn:E;
      [|discriminate].
    destruct (IH _ _ Hok) as (outs & Hall).
    exists ((name, fig) :: outs). constructor; assumption.
Qed.

Lemma omap_Forall2 {A B} (g : A -> option B) (l : list A) (outs : list B) :
  Forall2 (fun x y => g x = Some y) l outs -> omap g l = outs.
Proof.
  induction 1 as [|x y l outs Hxy _ IH]; [reflexivity|].
  change (omap g (x :: l))
    with (match g x with
          | Some y => y :: omap g l
          | None => omap g l
          end).
  rewrite Hxy, IH. reflexivity.
Qed.

Lemma fits_iff_contour_check (ds : Dataset V) (a : ndarray V) :
  contour_check (longitude ds) (latitude ds) a = Ok tt <-> fits ds a.
Proof. apply contour_check_Ok. Qed.

Lemma Forall_fits_checked (ds : Dataset V) (frames : list (ndarray V)) :
  forallb (fun a => is_ok (contour_check (longitude ds) (latitude ds) a))
    frames = true ->
  Forall (fits ds) frames.
Proof.
  intros H. apply Forall_forall. intros a Ha. rewrite forallb_forall in H.
  apply list_elem_of_In in Ha. specialize (H a Ha).
  apply fits_iff_contour_check.
  destruct (contour_check _ _ a) as [[]|]; [reflexivity|discriminate].
Qed.

(** The drawing calls of one position accept the six frames exactly when
    each goes with its own coordinates and the thinned winds with each
    other; otherwise they raise TypeError ([contourf], [contour]) or
    ValueError ([barbs]). *)
Lemma day_check_Ok (d : era5_data V) (fr : six_frames V) :
  day_check d fr = Ok tt <-> frames_fit d fr.
Proof.
  destruct fr as [[[[[a1 a2] a3] a4] a5] a6]. unfold day_check, frames_fit.
  rewrite <- !fits_iff_contour_check.
  destruct (contour_check _ _ a1) as [[]|]; [|split; [|intros (? & _)]; discriminate].
  destruct (contour_check _ _ a2) as [[]|];
    [|split; [|intros (_ & ? & _)]; discriminate].
  destruct (contour_check _ _ a3) as [[]|];
    [|split; [|intros (_ & _ & ? & _)]; discriminate].
  destruct (contour_check _ _ a4) as [[]|] eqn:C4;
    [|split; [|intros (_ & _ & _ & ? & _)]; discriminate].
  destruct (contour_check _ _ a5) as [[]|];
    [|split; [|intros (_ & _ & _ & _ & ? & _)]; discriminate].
  destruct (contour_check _ _ a6) as [[]|];
    [|split; [|intros (_ & _ & _ & _ & _ & ? & _)]; discriminate].
  apply fits_iff_contour_check in C4. destruct C4 as (_ & _ & R4 & L4).
  rewrite barbs_check_Ok.
  rewrite <- (to_knots_shape a4 _ _ R4 L4).
  split.
  - intros [_ H5]. repeat split; exact H5.
  - intros (_ & _ & _ & _ & _ & _ & H5). split; [reflexivity|exact H5].
Qed.

Lemma day_check_raises (d : era5_data V) (fr : six_frames V) (x : exn) :
  day_check d fr = Raise x -> x = TypeError \/ x = ValueError.
Proof.
  destruct fr as [[[[[a1 a2] a3] a4] a5] a6]. unfold day_check.
  destruct (contour_check _ _ a1) as [[]|y] eqn:C1;
    [|intros [= <-]; left; exact (contour_check_raises _ _ _ _ C1)].
  destruct (contour_check _ _ a2) as [[]|y] eqn:C2;
    [|intros [= <-]; left; exact (contour_check_raises _ _ _ _ C2)].
  destruct (contour_check _ _ a3) as [[]|y] eqn:C3;
    [|intros [= <-]; left; exact (contour_check_raises _ _ _ _ C3)].
  destruct (contour_check _ _ a4) as [[]|y] eqn:C4;
    [|intros [= <-]; left; exact (contour_check_raises _ _ _ _ C4)].
  destruct (contour_check _ _ a5) as [[]|y] eqn:C5;
    [|intros [= <-]; left; exact (contour_check_raises _ _ _ _ C5)].
  destruct (contour_check _ _ a6) as [[]|y] eqn:C6;
    [|intros [= <-]; left; exact (contour_check_raises _ _ _ _ C6)].
  intros Hb. right. exact (barbs_check_raises _ _ _ _ _ Hb).
Qed.

Lemma day_output_is_Some (central : npfloat) (d : era5_data V)
    (f : era5_frames V) (k : nat) :
  enough_frames d f -> k < length (time (d_IVT d)) ->
  is_Some (day_output central d f k).
Proof.
  intros (H1 & H2 & H3 & H4 & H5 & H6) Hk. unfold day_output.
  destruct (frames_at f k) as [fr|] eqn:E.
  - apply lookup_lt_is_Some in Hk as [t ->]. eauto.
  - exfalso. assert (Hs : is_Some (frames_at f k)).
    { apply frames_at_is_Some. repeat split; lia. }
    rewrite E in Hs. destruct Hs as [? ?]. discriminate.
Qed.

Lemma omap_seq_total {A} (g : nat -> option A) (n : nat) :
  forall a,
    (forall k, a <= k < a + n -> is_Some (g k)) ->
    Forall2 (fun k y => g k = Some y) (seq a n) (omap g (seq a n)).
Proof.
  induction n as [|n IH]; intros a Hg; [constructor|].
  cbn [seq]. destruct (Hg a ltac:(lia)) as [y Hy].
  change (omap g (a :: seq (S a) n))
    with (match g a with
          | Some y => y :: omap g (seq (S a) n)
          | None => omap g (seq (S a) n)
          end).
  rewrite Hy. constructor; [exact Hy|]. apply IH. intros k Hk. apply Hg. lia.
Qed.

Lemma daily_outputs_total (central : npfloat) (d : era5_data V)
    (f : era5_frames V) :
  enough_frames d f ->
  Forall2 (fun k nf => day_output central d f k = Some nf)
    (seq 0 (length (time (d_IVT d)))) (daily_outputs central d f).
Proof.
  intros He. apply omap_seq_total. intros k Hk.
  apply day_output_is_Some; [exact He|lia].
Qed.

Lemma daily_outputs_lookup (central : npfloat) (d : era5_data V)
    (f : era5_frames V) (k : nat) (t : Z) :
  enough_frames d f -> time (d_IVT d) !! k = Some t ->
  exists fr,
    frames_at f k = Some fr /\
    daily_outputs central d f !! k =
    Some (daily_path (datetime_as_string_D t), figure_of central d fr t).
Proof.
  intros He Ht. pose proof (daily_outputs_total central d f He) as Hall.
  assert (Hk : k < length (time (d_IVT d))).
  { apply lookup_lt_is_Some. eauto. }
  destruct (Forall2_lookup_l _ _ _ k k Hall) as (nf & Hnf & Ho).
  { apply lookup_seq. split; [reflexivity|exact Hk]. }
  unfold day_output in Ho. rewrite Ht in Ho.
  destruct (frames_at f k) as [fr|]; [|discriminate].
  injection Ho as <-. exists fr. split; [reflexivity|exact Hnf].
Qed.

Lemma daily_outputs_length (central : npfloat) (d : era5_data V)
    (f : era5_frames V) :
  enough_frames d f ->
  length (daily_outputs central d f) = length (time (d_IVT d)).
Proof.
  intros He. pose proof (daily_outputs_total central d f He) as Hall.
  apply Forall2_length in Hall. rewrite length_seq in Hall. lia.
Qed.

Lemma daily_outputs_names (central : npfloat) (d : era5_data V)
    (f : era5_frames V) :
  enough_frames d f ->
  map fst (daily_outputs central d f) =
  map (fun t => day_file (day_of t)) (time (d_IVT d)).
Proof.
  intros He. apply list_eq. intros k.
  change (map fst (daily_outputs central d f))
    with (fst <$> daily_outputs central d f).
  change (map (fun t => day_file (day_of t)) (time (d_IVT d)))
    with ((fun t => day_file (day_of t)) <$> time (d_IVT d)).
  rewrite !list_lookup_fmap.
  destruct (time (d_IVT d) !! k) as [t|] eqn:Ht.
  - destruct (daily_outputs_lookup central d f k t He Ht) as (fr & _ & ->).
    reflexivity.
  - apply lookup_ge_None in Ht.
    rewrite <- (daily_outputs_length central d f He) in Ht.
    apply lookup_ge_None in Ht. rewrite Ht. reflexivity.
Qed.

(** The daily cell on drawable datasets when every variable has enough
    frames. *)
Lemma daily_plots_complete (lons : loc) (e5 : era5_env) s (lo : array)
    (d : era5_data V) (f : era5_frames V) :
  heap s !! lons = Some (OArray lo) ->
  era5_bound s e5 d -> vars_named d f -> enough_frames d f ->
  drawable d f -> np_mean (cells (to_float lo)) <> NaN ->
  daily_plots lons e5 s =
  let outs := daily_outputs (np_mean (cells (to_float lo))) d f in
  (Ok tt,
   mk_state (heap s) (write_all outs (disk s)) (shown s ++ map snd outs)).
Proof.
  intros Hlo Hb Hv He Hd Hc. rewrite (daily_plots_run lons e5 d s lo Hlo Hb).
  rewrite (mercator_finite _ Hc). cbv zeta.
  rewrite (render_days_all _ d _ (daily_outputs (np_mean (cells (to_float lo))) d f)).
  - reflexivity.
  - eapply Forall2_impl; [apply (daily_outputs_total _ d f He)|].
    intros k nf Hk. cbv beta in *.
    rewrite (day_figure_output _ d f k Hv Hd), Hk. reflexivity.
Qed.

(** Whatever the frames, when the daily cell returns every variable had
    enough frames, the mean longitude was a number, and the cell has
    written and shown the figures of all positions. *)
Lemma daily_plots_returns (lons : loc) (e5 : era5_env) s (lo : array)
    (d : era5_data V) (f : era5_frames V) :
  heap s !! lons = Some (OArray lo) ->
  era5_bound s e5 d -> vars_named d f ->
  fst (daily_plots lons e5 s) = Ok tt ->
  enough_frames d f /\ np_mean (cells (to_float lo)) <> NaN /\
  daily_plots lons e5 s =
  let outs := daily_outputs (np_mean (cells (to_float lo))) d f in
  (Ok tt,
   mk_state (heap s) (write_all outs (disk s)) (shown s ++ map snd outs)).
Proof.
  intros Hlo Hb Hv Hok. rewrite (daily_plots_run lons e5 d s lo Hlo Hb) in *.
  destruct (np_mean (cells (to_float lo))) as [c|] eqn:Hc; cbn [mercator] in *;
    [|discriminate].
  cbv zeta in *. cbn [fst] in Hok.
  destruct (render_days_inv _ _ _ _ _ Hok) as (outs & Hall).
  assert (Hout : Forall2 (fun k nf => day_output (Num c) d f k = Some nf)
                   (seq 0 (length (time (d_IVT d)))) outs).
  { eapply Forall2_impl; [exact Hall|]. intros k nf Hk.
    apply (day_figure_Ok _ d f k nf Hv Hk). }
  assert (He : enough_frames d f).
  { set (n := length (time (d_IVT d))) in *.
    assert (Hfr : forall k, k < n -> is_Some (frames_at f k)).
    { intros k Hk.
      destruct (Forall2_lookup_l _ _ _ k k Hout) as (nf & _ & Ho).
      { apply lookup_seq. split; [reflexivity|exact Hk]. }
      unfold day_output in Ho. destruct (frames_at f k); [eauto|discriminate]. }
    unfold enough_frames. fold n. destruct n as [|m]; [repeat split; lia|].
    specialize (Hfr m ltac:(lia)). apply frames_at_is_Some in Hfr.
    repeat split; lia. }
  split; [exact He|]. split; [discriminate|].
  rewrite (render_days_all _ d _ outs Hall).
  unfold daily_outputs. rewrite (omap_Forall2 _ _ _ Hout). reflexivity.
Qed.

(** The daily cell on drawable datasets when some variable runs out of
    frames. *)
Lemma daily_plots_short (lons : loc) (e5 : era5_env) s (lo : array)
    (d : era5_data V) (f : era5_frames V) :
  heap s !! lons = Some (OArray lo) ->
  era5_bound s e5 d -> vars_named d f -> ~ enough_frames d f ->
  drawable d f -> np_mean (cells (to_float lo)) <> NaN ->
  fst (daily_plots lons e5 s) = Raise IndexError.
Proof.
  intros Hlo Hb Hv Hno Hd Hc. rewrite (daily_plots_run lons e5 d s lo Hlo Hb).
  rewrite (mercator_finite _ Hc).
  cbv zeta. cbn [fst]. apply render_days_stops.
  - apply Forall_forall. intros k _ y.
    rewrite (day_figure_output _ d f k Hv Hd).
    destruct (day_output _ d f k); [discriminate|]. intros [= <-]. reflexivity.
  - assert (Hk : exists k, k < length (time (d_IVT d)) /\ frames_at f k = None).
    { set (n := length (time (d_IVT d))) in *.
      assert (Hsome : forall k, k < n -> frames_at f k = None \/
                                 is_Some (frames_at f k)).
      { intros k _. destruct (frames_at f k); [right; eauto|left; reflexivity]. }
      unfold enough_frames in Hno. fold n in Hno.
      destruct (le_lt_dec n (length (f_IVT f))) as [H1|H1];
      [destruct (le_lt_dec n (length (f_hgt f))) as [H2|H2];
       [destruct (le_lt_dec n (length (f_precip f))) as [H3|H3];
        [destruct (le_lt_dec n (length (f_uwnd f))) as [H4|H4];
         [destruct (le_lt_dec n (length (f_vwnd f))) as [H5|H5];
          [destruct (le_lt_dec n (length (f_temp f))) as [H6|H6];
           [tauto|exists (length (f_temp f))]
          |exists (length (f_vwnd f))]
         |exists (length (f_uwnd f))]
        |exists (length (f_precip f))]
       |exists (length (f_hgt f))]
      |exists (length (f_IVT f))];
      (split; [assumption|]);
      match goal with
      | |- frames_at f ?k = None =>
          destruct (frames_at f k) eqn:E; [|reflexivity];
          assert (Hs : is_Some (frames_at f k)) by (rewrite E; eauto);
          apply frames_at_is_Some in Hs; lia
      end. }
    destruct Hk as (k & Hk & Hnone).
    apply Exists_exists. exists k. split.
    + apply elem_of_seq. lia.
    + rewrite (day_figure_output _ d f k Hv Hd). unfold day_output.
      rewrite Hnone. reflexivity.
Qed.

Lemma write_all_lookup_other (outs : list (string * figure V))
    (dk : gmap string (file V)) (p : string) :
  p ∉ map fst outs -> write_all outs dk !! p = dk !! p.
Proof.
  revert dk. induction outs as [|[name fig] outs IH]; intros dk Hp.
  - reflexivity.
  - change (write_all ((name, fig) :: outs) dk)
      with (write_all outs (<[name := Png fig]> dk)).
    cbn [map fst] in Hp. apply not_elem_of_cons in Hp as [Hne Hp].
    rewrite (IH _ Hp). apply lookup_insert_ne. congruence.
Qed.

Lemma write_all_lookup_written (outs : list (string * figure V))
    (dk : gmap string (file V)) (p : string) :
  p ∈ map fst outs ->
  exists fig, write_all outs dk !! p = Some (Png fig) /\ (p, fig) ∈ outs.
Proof.
  revert dk. induction outs as [|[name fig] outs IH]; intros dk Hp.
  - cbn [map] in Hp. inversion Hp.
  - change (write_all ((name, fig) :: outs) dk)
      with (write_all outs (<[name := Png fig]> dk)).
    destruct (decide (p ∈ map fst outs)) as [Hin|Hout].
    + destruct (IH (<[name := Png fig]> dk) Hin) as (fig' & H1 & H2).
      exists fig'. split; [exact H1|]. right. exact H2.
    + cbn [map fst] in Hp. apply elem_of_cons in Hp as [->|Hp]; [|contradiction].
      exists fig. rewrite (write_all_lookup_other _ _ _ Hout).
      split; [apply lookup_insert_eq|left].
Qed.



(** C9.  The daily cell runs its body once per entry of IVT's time axis,
    in order, and each run reads every one of the six variables at that
    same position: whenever it returns, each of the other five time axes
    is at least as long as IVT's and it has shown one figure per entry,
    the k-th built from frame k of each variable and entry k of IVT's
    time axis; so with a shorter axis it never returns.  On drawable
    datasets, with a mean longitude that is a number, it returns exactly
    when the five axes are that long; otherwise the positional indexing
    raises IndexError. *)
Theorem daily_plots_follows_IVT_axis (lons : loc) (e5 : era5_env) s
    (lo : array) (d : era5_data V) (f : era5_frames V) :
  heap s !! lons = Some (OArray lo) ->
  era5_bound s e5 d -> vars_named d f -> frames_along_time d f ->
  let long_enough :=
    length (time (d_IVT d)) <= length (time (d_hgt500 d)) /\
    length (time (d_IVT d)) <= length (time (d_precip d)) /\
    length (time (d_IVT d)) <= length (time (d_uwinds700 d)) /\
    length (time (d_IVT d)) <= length (time (d_vwinds700 d)) /\
    length (time (d_IVT d)) <= length (time (d_temp700 d)) in
  (fst (daily_plots lons e5 s) = Ok tt ->
   long_enough /\
   exists figs,
     shown (snd (daily_plots lons e5 s)) = shown s ++ figs /\
     length figs = length (time (d_IVT d)) /\
     forall k t, time (d_IVT d) !! k = Some t ->
       exists fr,
         frames_at f k = Some fr /\
         figs !! k =
         Some (figure_of (np_mean (cells (to_float lo))) d fr t)) /\
  (~ long_enough -> exists x, fst (daily_plots lons e5 s) = Raise x) /\
  (drawable d f -> np_mean (cells (to_float lo)) <> NaN ->
   (fst (daily_plots lons e5 s) = Ok tt <-> long_enough) /\
   (fst (daily_plots lons e5 s) = Ok tt \/
    fst (daily_plots lons e5 s) = Raise IndexError)).
Proof.
  intros Hlo Hb Hv (W1 & W2 & W3 & W4 & W5 & W6) long_enough.
  assert (Hen : enough_frames d f <-> long_enough).
  { unfold enough_frames, long_enough.
    rewrite W1, W2, W3, W4, W5, W6. intuition lia. }
  assert (Hret : fst (daily_plots lons e5 s) = Ok tt ->
   long_enough /\
   exists figs,
     shown (snd (daily_plots lons e5 s)) = shown s ++ figs /\
     length figs = length (time (d_IVT d)) /\
     forall k t, time (d_IVT d) !! k = Some t ->
       exists fr,
         frames_at f k = Some fr /\
         figs !! k =
         Some (figure_of (np_mean (cells (to_float lo))) d fr t)).
  { intros Hok.
    destruct (daily_plots_returns lons e5 s lo d f Hlo Hb Hv Hok)
      as (He & _ & Hrun).
    split; [apply Hen, He|]. rewrite Hrun. cbv zeta. cbn [snd shown].
    eexists. split; [reflexivity|]. split.
    + rewrite length_map. apply daily_outputs_length, He.
    + intros k t Ht.
      destruct (daily_outputs_lookup (np_mean (cells (to_float lo))) d f k t
                  He Ht) as (fr & Hfr & Hout).
      exists fr. split; [exact Hfr|].
      change (map snd ?l) with (snd <$> l). rewrite list_lookup_fmap, Hout.
      reflexivity. }
  split; [exact Hret|]. split.
  - intros Hno. destruct (fst (daily_plots lons e5 s)) as [[]|x] eqn:E.
    + exfalso. apply Hno. apply Hret. reflexivity.
    + exists x. reflexivity.
  - intros Hd Hc.
    assert (Hdec : enough_frames d f \/ ~ enough_frames d f).
    { rewrite Hen. unfold long_enough. lia. }
    destruct Hdec as [He|Hno].
    + rewrite (daily_plots_complete lons e5 s lo d f Hlo Hb Hv He Hd Hc).
      cbv zeta. cbn [fst].
      split; [split; [intros _; apply Hen, He|reflexivity]|left; reflexivity].
    + rewrite (daily_plots_short lons e5 s lo d f Hlo Hb Hv Hno Hd Hc).
      split; [split; [discriminate|]|right; reflexivity].
      intros H. exfalso. apply Hno, Hen, H.
Qed.

(** C6, as the code has it.  No cell compares shapes itself; a mismatch
    stops a cell, before its image is written or shown, only where a
    drawing or indexing call refuses its arguments.  The overview cell is
    stopped when the facet-id grid has not the shape of longitude and of
    latitude (the boolean-mask selections) or when, along some axis, the
    orientation grid counts neither as many cells as they do nor one less
    ([pcolormesh]); it writes its image on finite coordinates of one
    shape, which is also the facet-id grid's and is the orientation
    grid's or one more along both axes; the elevation grid takes no part:
    whatever is bound to [elev], the cell does the same.  The body of the
    daily loop is stopped at a position where a field does not go with
    the coordinates of its own dataset ([contourf], [contour]) or the two
    thinned wind fields differ in shape ([barbs]), and writes the day's
    image otherwise: two fields of different datasets are never
    compared. *)
Theorem shape_mismatch_stops_only_drawing_calls (F : Z) e (e5 : era5_env) s
    (lo la fa o : array) (d : era5_data V) (f : era5_frames V)
    (central : npfloat) :
  grids_bound s e lo la fa o ->
  era5_bound s e5 d -> vars_named d f ->
  (~ (mask_fits lo la fa /\ orientation_fits lo o) ->
   (exists x, fst (overview_map F e s) = Raise x /\
              (x = CRSError \/ x = ValueError \/
               x = TypeError \/ x = IndexError)) /\
   disk (snd (overview_map F e s)) = disk s /\
   shown (snd (overview_map F e s)) = shown s) /\
  (finite_mesh lo la -> mesh_accepts lo la o -> mask_fits lo la fa ->
   fst (overview_map F e s) = Ok tt /\
   is_Some (disk (snd (overview_map F e s)) !! overview_path)) /\
  (forall l : loc,
     overview_map F
       (mk_facet_env l (facets e) (lats e) (lons e) (orientation e) (opg e)) s
     = overview_map F e s) /\
  (forall k fr, frames_at f k = Some fr -> ~ frames_fit d fr ->
     (fst (plot_day central e5 k s) = Raise TypeError \/
      fst (plot_day central e5 k s) = Raise ValueError) /\
     snd (plot_day central e5 k s) = s) /\
  (forall k fr t, frames_at f k = Some fr -> time (d_IVT d) !! k = Some t ->
     frames_fit d fr ->
     fst (plot_day central e5 k s) = Ok tt /\
     disk (snd (plot_day central e5 k s))
       !! daily_path (datetime_as_string_D t)
     = Some (Png (figure_of central d fr t))).
Proof.
  intros Hg Hb Hv. split; [|split; [|split; [|split]]].
  - intros Hno.
    destruct (overview_map_refused F e s lo la fa o Hg Hno) as (x & Hx & ->).
    cbn [fst snd disk shown]. split; [|split; reflexivity].
    exists x. split; [reflexivity|exact Hx].
  - intros Hfin Hmesh Hfit.
    rewrite (overview_map_accepted F e s lo la fa o Hg Hfin Hmesh Hfit).
    cbv zeta. cbn [fst snd disk]. split; [reflexivity|].
    rewrite lookup_insert_eq. eauto.
  - intros l. destruct e. reflexivity.
  - intros k fr Hfr Hno.
    rewrite (plot_day_run central e5 d k s Hb).
    rewrite (day_figure_frames central d f k fr Hv Hfr).
    destruct (day_check d fr) as [[]|x] eqn:E.
    { exfalso. apply Hno. apply day_check_Ok. exact E. }
    cbn [fst snd]. split; [|reflexivity].
    destruct (day_check_raises d fr x E) as [-> | ->]; auto.
  - intros k fr t Hfr Ht Hfit.
    rewrite (plot_day_run central e5 d k s Hb).
    rewrite (day_figure_frames central d f k fr Hv Hfr).
    apply day_check_Ok in Hfit. rewrite Hfit, Ht.
    cbn [fst snd disk]. split; [reflexivity|apply lookup_insert_eq].
Qed.

(** ** Further properties of the cells *)

(** X1.  Two valid timestamps give the daily cell the same file name
    exactly when they fall on the same calendar day. *)
Theorem daily_file_name_by_day (t1 t2 : Z) :
  valid_datetime64 t1 -> valid_datetime64 t2 ->
  (daily_path (datetime_as_string_D t1) = daily_path (datetime_as_string_D t2)
   <-> day_of t1 = day_of t2).
Proof.
  intros H1 H2. split.
  - apply daily_path_day_inj; assumption.
  - intros Hd. unfold datetime_as_string_D. rewrite Hd. reflexivity.
Qed.

End Cells.

(** ** What the cells read and write *)

Section Footprints.

Context {V : Type} `{!Scalar V}.

Implicit Types (s : state V) (e : facet_env).

Lemma writes_only_bind {A B} (P : string -> Prop) (m : M V A)
    (k : A -> M V B) :
  writes_only P m -> (forall a, writes_only P (k a)) ->
  writes_only P (bind m k).
Proof.
  intros Hm Hk s p Hp. unfold bind.
  specialize (Hm s p Hp).
  destruct (m s) as [[a|x] s'] eqn:E; cbn [snd] in *.
  - rewrite Hk by assumption. exact Hm.
  - exact Hm.
Qed.

Lemma writes_only_keeps_disk {A} (P : string -> Prop) (m : M V A) :
  (forall s, disk (snd (m s)) = disk s) -> writes_only P m.
Proof. intros Hm s p _. rewrite Hm. reflexivity. Qed.

Lemma writes_only_savefig (P : string -> Prop) (p : string) (fig : figure V) :
  P p -> writes_only P (savefig p fig).
Proof.
  intros HP s q Hq. unfold savefig. cbn [snd disk].
  apply lookup_insert_ne. intros ->. contradiction.
Qed.

Lemma writes_only_for_each {A} (P : string -> Prop) (l : list A)
    (body : A -> M V unit) :
  (forall x, writes_only P (body x)) -> writes_only P (for_each l body).
Proof.
  intros Hb. induction l as [|x l IH]; cbn [for_each].
  - apply writes_only_keeps_disk. reflexivity.
  - apply writes_only_bind; [apply Hb|intros _; exact IH].
Qed.

Ltac writes_only_step :=
  first
    [ apply writes_only_keeps_disk; intros ?;
      solve [ reflexivity
            | unfold load; destruct (heap _ !! _); reflexivity ]
    | apply writes_only_bind; [|intros ?]
    | match goal with
      | |- @writes_only _ _ _ (match ?o with _ => _ end) => destruct o
      end ].

Lemma writes_only_overview_map (F : Z) (e : facet_env) :
  writes_only (V:=V) (fun p => p = overview_path) (overview_map F e).
Proof.
  unfold overview_map, load_array.
  repeat first [ apply writes_only_savefig; reflexivity | writes_only_step ].
Qed.

Lemma writes_only_timeseries_plot (strptime_ymd : string -> option date)
    (col : string) (e : facet_env) :
  writes_only (V:=V) (fun p => p = series_path)
    (timeseries_plot strptime_ymd col e).
Proof.
  unfold timeseries_plot, load_frame.
  repeat first [ apply writes_only_savefig; reflexivity | writes_only_step ].
Qed.

Lemma writes_only_plot_day (central : npfloat) (e5 : era5_env) (dayx : nat) :
  writes_only (V:=V) (fun p => exists datex, p = daily_path datex)
    (plot_day central e5 dayx).
Proof.
  unfold plot_day, load_dataset.
  repeat first [ apply writes_only_savefig; eexists; reflexivity
               | writes_only_step ].
Qed.

Lemma writes_only_daily_plots (lons : loc) (e5 : era5_env) :
  writes_only (V:=V) (fun p => exists datex, p = daily_path datex)
    (daily_plots lons e5).
Proof.
  unfold daily_plots, load_array.
  repeat first [ apply writes_only_for_each; intros ?;
                 apply writes_only_plot_day
               | writes_only_step ].
Qed.

Lemma only_allocates_bind {A B} (m : M V A) (k : A -> M V B) :
  only_allocates m -> (forall a, only_allocates (k a)) ->
  only_allocates (bind m k).
Proof.
  intros Hm Hk s. unfold bind.
  destruct (Hm s) as (Hd & Hs & new & Hh).
  destruct (m s) as [[a|x] s'] eqn:E; cbn [snd] in *.
  - destruct (Hk a s') as (Hd' & Hs' & new' & Hh').
    split; [congruence|]. split; [congruence|].
    exists (new ++ new'). rewrite Hh', Hh, <- app_assoc. reflexivity.
  - split; [assumption|]. split; [assumption|]. exists new. assumption.
Qed.

Lemma only_allocates_pure {A} (m : M V A) :
  (forall s, snd (m s) = s) -> only_allocates m.
Proof.
  intros Hm s. rewrite Hm. split; [reflexivity|]. split; [reflexivity|].
  exists []. rewrite app_nil_r. reflexivity.
Qed.

Lemma only_allocates_alloc (o : obj V) : only_allocates (alloc o).
Proof.
  intros s. unfold alloc. cbn [snd disk shown heap].
  split; [reflexivity|]. split; [reflexivity|]. exists [o]. reflexivity.
Qed.

Lemma only_allocates_read_file (p : string) :
  only_allocates (V:=V) (read_file p).
Proof.
  apply only_allocates_pure. intros s. unfold read_file.
  destruct (disk s !! p); reflexivity.
Qed.

Lemma only_allocates_load (l : loc) : only_allocates (V:=V) (load l).
Proof.
  apply only_allocates_pure. intros s. unfold load.
  destruct (heap s !! l); reflexivity.
Qed.

Ltac only_allocates_step :=
  first
    [ apply only_allocates_alloc | apply only_allocates_read_file
    | apply only_allocates_load
    | apply only_allocates_pure; intros ?; reflexivity
    | apply only_allocates_bind; [|intros ?]
    | match goal with
      | |- @only_allocates _ _ (match ?o with _ => _ end) => destruct o
      end ].

Lemma only_allocates_load_facets (path : string) :
  only_allocates (V:=V) (load_facets path).
Proof.
  unfold load_facets, read_grid, read_csv. repeat only_allocates_step.
Qed.

Lemma only_allocates_load_era5 (path : string) :
  only_allocates (V:=V) (load_era5 path).
Proof.
  unfold load_era5, open_dataset. repeat only_allocates_step.
Qed.

Lemma only_allocates_subset_era5 (dates : date * date) (e5 : era5_env) :
  only_allocates (V:=V) (subset_era5 dates e5).
Proof.
  unfold subset_era5, subset_one, load_dataset. repeat only_allocates_step.
Qed.

(** The facet cell on a disk that holds the six tables. *)
Lemma load_facets_run (path : string) s (t : facet_tables) :
  facet_csvs (disk s) path t ->
  let n := length (heap s) in
  load_facets path s =
  (Ok (mk_facet_env n (n + 1) (n + 2) (n + 3) (n + 4) (n + 5)),
   mk_state
     (heap s ++
      [OArray (df_values (t_elev t));
       OArray (df_values (t_facets t));
       OArray (df_values (t_lats t));
       OArray (df_values (t_lons t));
       OArray (df_values (t_orientation t));
       OFrame (t_opg t)])
     (disk s) (shown s)).
Proof.
  intros (F1 & F2 & F3 & F4 & F5 & F6) n.
  unfold load_facets, read_grid, read_csv, read_file, alloc, ret, bind.
  cbv beta. rewrite F1. cbn [heap disk shown].
  rewrite F2. cbn [heap disk shown].
  rewrite F3. cbn [heap disk shown].
  rewrite F4. cbn [heap disk shown].
  rewrite F5. cbn [heap disk shown].
  rewrite F6. cbn [heap disk shown].
  rewrite !length_app. cbn [length]. fold n.
  rewrite <- !app_assoc. cbn [app].
  f_equal. f_equal. f_equal; lia.
Qed.

(** X4.  On a disk holding the six CSV files, the facet loading cell
    returns with the five grid names bound to the values of their tables
    as arrays (the dtype is the table's: integer codes stay integers) and
    [opg] bound to its table as a data frame; the six names are distinct
    and none of them was bound before. *)
Theorem load_facets_binds_tables (path : string) s (t : facet_tables) :
  facet_csvs (disk s) path t ->
  exists e s',
    load_facets path s = (Ok e, s') /\
    heap s' !! elev e = Some (OArray (df_values (t_elev t))) /\
    heap s' !! facets e = Some (OArray (df_values (t_facets t))) /\
    heap s' !! lats e = Some (OArray (df_values (t_lats t))) /\
    heap s' !! lons e = Some (OArray (df_values (t_lons t))) /\
    heap s' !! orientation e
    = Some (OArray (df_values (t_orientation t))) /\
    heap s' !! opg e = Some (OFrame (t_opg t)) /\
    NoDup [elev e; facets e; lats e; lons e; orientation e; opg e] /\
    Forall (fun l => length (heap s) <= l)
      [elev e; facets e; lats e; lons e; orientation e; opg e].
Proof.
  intros Hf. eexists _, _. split; [apply (load_facets_run path s t Hf)|].
  cbn [heap elev facets lats lons orientation opg].
  set (n := length (heap s)).
  split; [rewrite (lookup_app_at _ _ n 0) by (unfold n; lia); reflexivity|].
  split; [rewrite (lookup_app_at _ _ (n + 1) 1) by (unfold n; lia);
          reflexivity|].
  split; [rewrite (lookup_app_at _ _ (n + 2) 2) by (unfold n; lia);
          reflexivity|].
  split; [rewrite (lookup_app_at _ _ (n + 3) 3) by (unfold n; lia);
          reflexivity|].
  split; [rewrite (lookup_app_at _ _ (n + 4) 4) by (unfold n; lia);
          reflexivity|].
  split; [rewrite (lookup_app_at _ _ (n + 5) 5) by (unfold n; lia);
          reflexivity|].
  split.
  - repeat (constructor; [rewrite ?elem_of_cons, elem_of_nil; lia|]).
    constructor.
  - repeat (constructor; [lia|]). constructor.
Qed.

(** X6.  The two loading cells and the subsetting cell, whatever their
    outcome, write no file and show no figure, and every object bound
    before them is still bound, unchanged, after them: they only add
    objects. *)
Theorem loading_cells_only_allocate (path : string) (dates : date * date)
    (e5 : era5_env) s :
  (disk (snd (load_facets path s)) = disk s /\
   disk (snd (load_era5 path s)) = disk s /\
   disk (snd (subset_era5 dates e5 s)) = disk s) /\
  (shown (snd (load_facets path s)) = shown s /\
   shown (snd (load_era5 path s)) = shown s /\
   shown (snd (subset_era5 dates e5 s)) = shown s) /\
  (forall (l : loc) (o : obj V), heap s !! l = Some o ->
     heap (snd (load_facets path s)) !! l = Some o /\
     heap (snd (load_era5 path s)) !! l = Some o /\
     heap (snd (subset_era5 dates e5 s)) !! l = Some o).
Proof.
  destruct (only_allocates_load_facets path s) as (D1 & S1 & n1 & H1).
  destruct (only_allocates_load_era5 path s) as (D2 & S2 & n2 & H2).
  destruct (only_allocates_subset_era5 dates e5 s) as (D3 & S3 & n3 & H3).
  split; [auto|]. split; [auto|].
  intros l o Hl. rewrite H1, H2, H3.
  repeat split; apply lookup_app_l_Some; exact Hl.
Qed.

(** X7.  Whatever their outcome, the overview cell changes no file but
    [facet_orientations.png], the time-series cell none but
    [opg_timeseries_facet2131.png], and the daily loop none but files
    named [atmos_<something>.png]; so no rendering cell touches a file
    outside [../figures/], the input data in particular. *)
Theorem rendering_cells_write_own_files
    (strptime_ymd : string -> option date) (F : Z) (col : string)
    (lons : loc) (e : facet_env) (e5 : era5_env) s :
  (forall p, p <> overview_path ->
     disk (snd (overview_map F e s)) !! p = disk s !! p) /\
  (forall p, p <> series_path ->
     disk (snd (timeseries_plot strptime_ymd col e s)) !! p = disk s !! p) /\
  (forall p, (forall datex, p <> daily_path datex) ->
     disk (snd (daily_plots lons e5 s)) !! p = disk s !! p) /\
  (forall p, (forall x, p <> "../figures/" +:+ x) ->
     disk (snd (overview_map F e s)) !! p = disk s !! p /\
     disk (snd (timeseries_plot strptime_ymd col e s)) !! p = disk s !! p /\
     disk (snd (daily_plots lons e5 s)) !! p = disk s !! p).
Proof.
  assert (H1 : forall p, p <> overview_path ->
     disk (snd (overview_map F e s)) !! p = disk s !! p).
  { intros p Hp. apply (writes_only_overview_map F e s p). exact Hp. }
  assert (H2 : forall p, p <> series_path ->
     disk (snd (timeseries_plot strptime_ymd col e s)) !! p = disk s !! p).
  { intros p Hp.
    apply (writes_only_timeseries_plot strptime_ymd col e s p). exact Hp. }
  assert (H3 : forall p, (forall datex, p <> daily_path datex) ->
     disk (snd (daily_plots lons e5 s)) !! p = disk s !! p).
  { intros p Hp. apply (writes_only_daily_plots lons e5 s p).
    intros [datex ->]. apply (Hp datex). reflexivity. }
  split; [exact H1|]. split; [exact H2|]. split; [exact H3|].
  intros p Hp. split; [|split].
  - apply H1. intros ->. apply (Hp "facet_orientations.png"). reflexivity.
  - apply H2. intros ->.
    apply (Hp "opg_timeseries_facet2131.png"). reflexivity.
  - apply H3. intros datex ->.
    apply (Hp ("atmos_" +:+ datex +:+ ".png")). reflexivity.
Qed.

End Footprints.

(** ** The OPG table and the time-series cell *)

Lemma rows_of_lookup {A} (n c : nat) :
  forall (l : list A) (i : nat),
    i < n -> rows_of n c l !! i = Some (take c (drop (i * c) l)).
Proof.
  induction n as [|n IH]; intros l i Hi; [lia|].
  cbn [rows_of]. destruct i as [|i].
  - reflexivity.
  - cbn [lookup list_lookup]. change (rows_of n c (drop c l) !! i =
      Some (take c (drop (S i * c) l))).
    rewrite IH by lia. rewrite drop_drop. reflexivity.
Qed.

Lemma rows_of_cell {A} (c : nat) (l : list A) (i k : nat) :
  k < c -> take c (drop (i * c) l) !! k = l !! (i * c + k).
Proof.
  intros Hk. rewrite lookup_take_lt by assumption.
  apply lookup_drop.
Qed.

Lemma column_rows {A} (k c : nat) :
  k < c ->
  forall (n : nat) (l : list A),
    length l = n * c ->
    length (omap (fun r => r !! k) (rows_of n c l)) = n /\
    forall i, i < n ->
      omap (fun r => r !! k) (rows_of n c l) !! i = l !! (i * c + k).
Proof.
  intros Hk. induction n as [|n IH]; intros l Hl.
  - split; [reflexivity|]. intros i Hi. lia.
  - cbn [rows_of omap list_omap].
    assert (Hx : is_Some (take c l !! k)).
    { apply lookup_lt_is_Some. rewrite length_take. lia. }
    destruct Hx as [x Hx]. rewrite Hx.
    destruct (IH (drop c l)) as [IHlen IHcell].
    { rewrite length_drop. lia. }
    split; [cbn [length]; rewrite IHlen; reflexivity|].
    intros [|i] Hi.
    + cbn [lookup list_lookup]. rewrite <- Hx.
      apply lookup_take_lt. assumption.
    + change ((omap (fun r => r !! k) (rows_of n c (drop c l))) !! i
              = l !! (S i * c + k)).
      rewrite IHcell by lia. rewrite lookup_drop. f_equal. lia.
Qed.

Lemma column_lookup {A} (a : ndarray A) (k i : nat) :
  wf_ndarray a -> k < ncols a -> i < nrows a ->
  column k a !! i = cells a !! (i * ncols a + k).
Proof.
  intros Hwf Hk Hi. unfold column.
  apply (column_rows k (ncols a) Hk (nrows a) (cells a) Hwf). assumption.
Qed.

Lemma length_column {A} (a : ndarray A) (k : nat) :
  wf_ndarray a -> k < ncols a -> length (column k a) = nrows a.
Proof.
  intros Hwf Hk. unfold column.
  apply (column_rows k (ncols a) Hk (nrows a) (cells a) Hwf).
Qed.

Lemma index_of_Some (x : string) (l : list string) (k : nat) :
  index_of x l = Some k -> l !! k = Some x.
Proof.
  revert k. induction l as [|y l IH]; intros k; cbn [index_of].
  - discriminate.
  - destruct (String.eqb x y) eqn:E.
    + intros [= <-]. apply String.eqb_eq in E. subst. reflexivity.
    + destruct (index_of x l) as [j|]; [|discriminate].
      intros [= <-]. apply IH. reflexivity.
Qed.

Lemma index_of_None (x : string) (l : list string) :
  index_of x l = None <-> x ∉ l.
Proof.
  induction l as [|y l IH]; cbn [index_of].
  - split; [intros _; apply not_elem_of_nil|reflexivity].
  - destruct (String.eqb x y) eqn:E.
    + apply String.eqb_eq in E. subst. split; [discriminate|].
      intros Hn. exfalso. apply Hn. left.
    + apply String.eqb_neq in E. rewrite not_elem_of_cons.
      destruct (index_of x l) as [j|].
      * split; [discriminate|]. intros [_ Hn].
        apply IH in Hn. discriminate.
      * split; [|reflexivity]. intros _. split; [assumption|].
        apply IH. reflexivity.
Qed.

Section Series.

Context {V : Type} `{!Scalar V}.

Variable strptime_ymd : string -> option date.

Implicit Types (s : state V) (e : facet_env).

Lemma parse_dates_ok (l : list string) :
  Forall (fun label => is_Some (strptime_ymd label)) l ->
  exists xs,
    parse_dates strptime_ymd l = Ok xs /\
    Forall2 (fun label d => strptime_ymd label = Some d) l xs.
Proof.
  induction 1 as [|label l [d Hd] _ (xs & Hxs & Hall)]; cbn [parse_dates].
  - exists []. split; [reflexivity|constructor].
  - rewrite Hd, Hxs. exists (d :: xs). split; [reflexivity|].
    constructor; assumption.
Qed.

Lemma parse_dates_raises (l : list string) :
  ~ Forall (fun label => is_Some (strptime_ymd label)) l ->
  parse_dates strptime_ymd l = Raise ValueError.
Proof.
  induction l as [|label l IH]; intros Hn; cbn [parse_dates].
  - exfalso. apply Hn. constructor.
  - destruct (strptime_ymd label) as [d|] eqn:Hd; [|reflexivity].
    rewrite IH; [reflexivity|].
    intros Hall. apply Hn. constructor; [rewrite Hd; eauto|assumption].
Qed.

(** The time-series cell when every step succeeds. *)
Lemma timeseries_plot_run (col : string) e s (df : DataFrame)
    (xs : list date) (ys : list npfloat) :
  heap s !! opg e = Some (OFrame df) ->
  parse_dates strptime_ymd (df_index df) = Ok xs ->
  df_getitem df col = Ok ys ->
  length xs = length ys ->
  timeseries_plot strptime_ymd col e s =
  (Ok tt,
   mk_state (heap s) (<[series_path := Png (SeriesFig xs ys)]> (disk s))
            (shown s ++ [SeriesFig xs ys])).
Proof.
  intros Hdf Hx Hy Hlen.
  unfold timeseries_plot, load_frame, load, lift, ret, raise, savefig, show,
    bind.
  cbv beta. rewrite Hdf, Hx, Hy. cbn [heap disk shown].
  rewrite Hlen, Nat.eqb_refl. reflexivity.
Qed.

(** X2.  On a well-formed table that has the column and whose row labels
    all parse as dates, the time-series cell returns, and the figure it
    writes and shows has one point per row of the table: point [i] is the
    parsed label of row [i] against the cell of row [i] in that column,
    as it stands in the table (a missing value stays nan; nothing is
    filled in or dropped). *)
Theorem timeseries_plot_rows (col : string) e s (df : DataFrame) (k : nat) :
  heap s !! opg e = Some (OFrame df) ->
  wf_DataFrame df ->
  index_of col (df_columns df) = Some k ->
  Forall (fun label => is_Some (strptime_ymd label)) (df_index df) ->
  exists xs ys,
    timeseries_plot strptime_ymd col e s =
    (Ok tt,
     mk_state (heap s) (<[series_path := Png (SeriesFig xs ys)]> (disk s))
              (shown s ++ [SeriesFig xs ys])) /\
    length xs = length (df_index df) /\
    length ys = length (df_index df) /\
    forall i label, df_index df !! i = Some label ->
      xs !! i = strptime_ymd label /\
      ys !! i =
      cells (to_float (df_values df)) !! (i * length (df_columns df) + k).
Proof.
  intros Hdf (Hwf & Hrows & Hcols) Hk Hlabels.
  destruct (parse_dates_ok _ Hlabels) as (xs & Hxs & Hall).
  assert (Hkc : k < ncols (to_float (df_values df))).
  { rewrite Hcols. apply lookup_lt_is_Some.
    rewrite (index_of_Some _ _ _ Hk). eauto. }
  set (ys := column k (to_float (df_values df))).
  assert (Hys : df_getitem df col = Ok ys).
  { unfold df_getitem. rewrite Hk. reflexivity. }
  assert (Hlx : length xs = length (df_index df)).
  { symmetry. eapply Forall2_length. exact Hall. }
  assert (Hly : length ys = length (df_index df)).
  { unfold ys. rewrite length_column by assumption. exact Hrows. }
  exists xs, ys. split.
  { apply (timeseries_plot_run col e s df xs ys Hdf Hxs Hys). congruence. }
  split; [assumption|]. split; [assumption|].
  intros i label Hi. split.
  - destruct (Forall2_lookup_l _ _ _ _ _ Hall Hi) as (d & Hd & Hp).
    rewrite Hd, Hp. reflexivity.
  - unfold ys. rewrite column_lookup; [rewrite Hcols; reflexivity|assumption..|].
    rewrite Hrows. apply lookup_lt_is_Some. eauto.
Qed.

End Series.

Section SeriesFailures.

Context {V : Type} `{!Scalar V}.

Implicit Types (s : state V) (e : facet_env).

(** X3.  The time-series cell does not return when some row label is no
    date, and fails with KeyError when all labels are dates and the table
    has no such column; whenever the cell raises, it has written no file
    and shown no figure: the state is the one it started in. *)
Theorem timeseries_plot_failures (strptime_ymd : string -> option date)
    (col : string) e s (df : DataFrame) :
  heap s !! opg e = Some (OFrame df) ->
  (~ Forall (fun label => is_Some (strptime_ymd label)) (df_index df) ->
   exists x, timeseries_plot strptime_ymd col e s = (Raise x, s)) /\
  (Forall (fun label => is_Some (strptime_ymd label)) (df_index df) ->
   col ∉ df_columns df ->
   timeseries_plot strptime_ymd col e s = (Raise KeyError, s)) /\
  (forall s' x, fst (timeseries_plot strptime_ymd col e s') = Raise x ->
                snd (timeseries_plot strptime_ymd col e s') = s').
Proof.
  intros Hdf. split; [|split].
  - intros Hn. unfold timeseries_plot, load_frame, load, lift, ret, raise,
      savefig, show, bind. cbv beta. rewrite Hdf.
    rewrite (parse_dates_raises _ _ Hn). eexists. reflexivity.
  - intros Hall Hcol. unfold timeseries_plot, load_frame, load, lift, ret,
      raise, savefig, show, bind. cbv beta. rewrite Hdf.
    destruct (parse_dates_ok _ _ Hall) as (xs & -> & _).
    unfold df_getitem. apply index_of_None in Hcol. rewrite Hcol.
    reflexivity.
  - intros s' x. unfold timeseries_plot, load_frame, load, lift, ret, raise,
      savefig, show, bind. cbv beta.
    destruct (heap s' !! opg e) as [[a|df'|ds]|]; cbn [fst snd];
      try reflexivity.
    destruct (parse_dates strptime_ymd (df_index df')) as [xs|y];
      cbn [fst snd]; [|reflexivity].
    destruct (df_getitem df' col) as [ys|y]; cbn [fst snd]; [|reflexivity].
    destruct (length xs =? length ys); cbn [fst snd]; [discriminate|].
    reflexivity.
Qed.

End SeriesFailures.

(** ** Median, mean and the overview label *)

Lemma count_if_positive (p : Q -> bool) (l : list Q) :
  0 < count_if p l -> exists x, x ∈ l /\ p x = true.
Proof.
  induction l as [|y l IH]; cbn [count_if]; [lia|].
  destruct (p y) eqn:E.
  - intros _. exists y. split; [left|assumption].
  - intros Hpos. destruct IH as (x & Hx & Hp); [lia|].
    exists x. split; [right; assumption|assumption].
Qed.

Lemma finite_between_values (lo hi : Q) (l : list npfloat) :
  finite_between lo hi l ->
  exists qs, finite_values l = Some qs /\ length qs = length l /\
             Forall (fun q => (lo <= q)%Q /\ (q <= hi)%Q) qs.
Proof.
  induction 1 as [|x l (q & -> & Hq) _ (qs & Hqs & Hlen & Hall)].
  - exists []. repeat split. constructor.
  - exists (q :: qs). cbn [finite_values]. rewrite Hqs.
    split; [reflexivity|]. split; [cbn [length]; congruence|].
    constructor; assumption.
Qed.

Lemma finite_values_nan (l : list npfloat) :
  NaN ∈ l -> finite_values l = None.
Proof.
  induction l as [|x l IH]; intros Hin.
  - apply elem_of_nil in Hin. contradiction.
  - cbn [finite_values]. destruct x as [q|]; [|reflexivity].
    apply elem_of_cons in Hin as [Hin|Hin]; [discriminate|].
    rewrite IH by assumption. reflexivity.
Qed.

Lemma np_median_between (lo hi : Q) (l : list npfloat) :
  l <> [] -> finite_between lo hi l ->
  exists m, np_median l = Num m /\ (lo <= m)%Q /\ (m <= hi)%Q.
Proof.
  intros Hne Hb.
  destruct (finite_between_values lo hi l Hb) as (qs & Hqs & Hlen & Hall).
  assert (Hqne : qs <> []).
  { intros ->. destruct l; [contradiction|discriminate]. }
  destruct (np_median_is_median l qs Hqs Hqne) as (m & Hm & Hle & Hge).
  exists m. split; [assumption|].
  assert (Hpos : 0 < length qs) by (destruct qs; [contradiction|cbn; lia]).
  rewrite Forall_forall in Hall.
  split.
  - destruct (count_if_positive (fun x => Qle_bool x m) qs) as (x & Hx & Hp);
      [lia|].
    apply Qle_bool_iff in Hp. apply Qle_trans with x; [|assumption].
    apply (Hall x Hx).
  - destruct (count_if_positive (fun x => Qle_bool m x) qs) as (x & Hx & Hp);
      [lia|].
    apply Qle_bool_iff in Hp. apply Qle_trans with x; [assumption|].
    apply (Hall x Hx).
Qed.

(** One nan among the values makes the median and the mean nan. *)
Lemma np_median_mean_nan (l : list npfloat) :
  NaN ∈ l -> np_median l = NaN /\ np_mean l = NaN.
Proof.
  intros Hin. unfold np_median, np_mean.
  rewrite (finite_values_nan l Hin). split; reflexivity.
Qed.

Lemma values_where_cells (F : Z) (fa vals : array) (x : npfloat) :
  x ∈ values_where F fa vals -> x ∈ cells (to_float vals).
Proof.
  unfold values_where. intros Hin.
  apply list_elem_of_omap in Hin as (k & _ & Hk).
  destruct (cells (to_float fa) !! k) as [f|]; [|discriminate].
  destruct (np_eq f (of_int F)); [|discriminate].
  eapply list_elem_of_lookup_2. exact Hk.
Qed.

Lemma finite_between_values_where (lo hi : Q) (F : Z) (fa vals : array) :
  finite_between lo hi (cells (to_float vals)) ->
  finite_between lo hi (values_where F fa vals).
Proof.
  unfold finite_between. rewrite !Forall_forall. intros Hall x Hx.
  apply Hall. eapply values_where_cells. exact Hx.
Qed.

Section Label.

Context {V : Type} `{!Scalar V}.

Implicit Types (s : state V) (e : facet_env).

Lemma finite_between_isfinite (lo hi : Q) (l : list npfloat) :
  finite_between lo hi l -> Forall (fun x => isfinite x = true) l.
Proof.
  unfold finite_between. intros H. eapply Forall_impl; [exact H|].
  intros x (q & -> & _). reflexivity.
Qed.

(** X8.  On conforming grids in which facet [F] occurs, if every
    longitude is a finite value between [west] and [east] and every
    latitude one between [south] and [north], then the cell returns and
    the label of the image is inside the box: its x between [west] and
    [east], its y between [south] and [north]. *)
Theorem overview_label_within_range (F : Z) e s (lo la fa o : array)
    (west east south north : Q) :
  grids_bound s e lo la fa o ->
  mesh_accepts lo la o -> mask_fits lo la fa ->
  wf_ndarray (to_float lo) -> wf_ndarray (to_float la) ->
  wf_ndarray (to_float fa) ->
  occurs F fa ->
  finite_between west east (cells (to_float lo)) ->
  finite_between south north (cells (to_float la)) ->
  fst (overview_map F e s) = Ok tt /\
  exists (x y : Q) central X Y C,
    disk (snd (overview_map F e s)) !! overview_path =
    Some (Png (OverviewFig central X Y C (Num x, Num y, pretty F))) /\
    (west <= x)%Q /\ (x <= east)%Q /\
    (south <= y)%Q /\ (y <= north)%Q.
Proof.
  intros Hb Hmesh Hfit Hwlo Hwla Hwfa Hocc Hlo Hla.
  destruct Hfit as [Hf1 Hf2].
  assert (Hxs : values_where F fa lo <> []).
  { apply values_where_occurs; [assumption|].
    rewrite (same_shape_same_size lo fa) by assumption. lia. }
  assert (Hys : values_where F fa la <> []).
  { apply values_where_occurs; [assumption|].
    rewrite (same_shape_same_size la fa) by assumption. lia. }
  assert (Hcells : cells (to_float lo) <> []).
  { intros Hnil. apply Hxs.
    destruct (values_where F fa lo) as [|x xs] eqn:E; [reflexivity|].
    assert (Hin : x ∈ cells (to_float lo)).
    { eapply values_where_cells. rewrite E. left. }
    rewrite Hnil in Hin. apply elem_of_nil in Hin. contradiction. }
  assert (Hfin : finite_mesh lo la).
  { split; [exact Hcells|].
    split; eapply finite_between_isfinite; eassumption. }
  destruct (np_median_between west east _ Hxs
              (finite_between_values_where _ _ F fa lo Hlo))
    as (x & Hx & Hx1 & Hx2).
  destruct (np_median_between south north _ Hys
              (finite_between_values_where _ _ F fa la Hla))
    as (y & Hy & Hy1 & Hy2).
  rewrite (overview_map_accepted F e s lo la fa o Hb Hfin Hmesh
             (conj Hf1 Hf2)).
  cbv zeta. cbn [fst snd disk]. split; [reflexivity|].
  exists x, y. eexists _, (to_float lo), (to_float la), (masked_grid o).
  rewrite lookup_insert_eq.
  unfold overview_figure. rewrite Hx, Hy.
  repeat split; assumption.
Qed.

(** X9.  A nan among the longitudes stops the overview cell at the
    projection: [np.mean(lons)] is nan and CRSError is raised before
    anything is drawn.  When the mean longitude is a number, a nan among
    the latitudes stops it at [pcolormesh], with ValueError.  Either way
    no image is written and nothing is shown; the masked copy of the
    orientation grid has been made by then. *)
Theorem overview_nan_coordinate_stops (F : Z) e s (lo la fa o : array) :
  grids_bound s e lo la fa o ->
  let s1 := mk_state (heap s ++ [OArray (FloatArr (masked_grid o))])
                     (disk s) (shown s) in
  (NaN ∈ cells (to_float lo) -> overview_map F e s = (Raise CRSError, s1)) /\
  (np_mean (cells (to_float lo)) <> NaN -> NaN ∈ cells (to_float la) ->
   overview_map F e s = (Raise ValueError, s1)).
Proof.
  intros (Hlo & Hla & Hfa & Ho) s1.
  rewrite (overview_map_run F e s lo la fa o Hlo Hla Hfa Ho). cbv zeta.
  fold s1. split.
  - intros Hnan. destruct (np_median_mean_nan _ Hnan) as [_ ->].
    reflexivity.
  - intros Hc Hnan. rewrite (mercator_finite _ Hc).
    unfold pcolormesh_check. cbv zeta.
    rewrite (all_finite_nan (to_float la) Hnan), andb_false_r.
    reflexivity.
Qed.

Lemma grids_bound_alloc s e (lo la fa o : array) (x : obj V) :
  grids_bound s e lo la fa o ->
  grids_bound (mk_state (heap s ++ [x]) (disk s) (shown s)) e lo la fa o.
Proof.
  intros (H1 & H2 & H3 & H4). unfold grids_bound. cbn [heap].
  repeat split; apply lookup_app_l_Some; assumption.
Qed.

(** X10.  On grids the cell can draw, running the overview cell a second
    time returns again, leaves the disk as the first run left it (the
    same image under the same name) and shows the same figure once more;
    each run adds one masked float copy of the orientation grid to the
    heap, and the orientation grid itself is read afresh, unchanged, each
    time. *)
Theorem overview_map_twice (F : Z) e s (lo la fa o : array) :
  grids_bound s e lo la fa o ->
  finite_mesh lo la -> mesh_accepts lo la o -> mask_fits lo la fa ->
  let s1 := snd (overview_map F e s) in
  let s2 := snd (overview_map F e s1) in
  fst (overview_map F e s1) = Ok tt /\
  disk s2 = disk s1 /\
  exists fig,
    disk s1 !! overview_path = Some (Png fig) /\
    shown s2 = shown s ++ [fig; fig] /\
    heap s2 = heap s ++ [OArray (FloatArr (masked_grid o));
                         OArray (FloatArr (masked_grid o))].
Proof.
  intros Hb Hfin Hmesh Hfit s1 s2. unfold s2, s1.
  rewrite (overview_map_accepted F e s lo la fa o Hb Hfin Hmesh Hfit).
  cbv zeta. cbn [snd].
  set (fig := overview_figure F lo la fa o (values_where F fa lo)
                (values_where F fa la)).
  rewrite (overview_map_accepted F e _ lo la fa o).
  - cbv zeta. cbn [fst snd heap disk shown]. fold fig.
    split; [reflexivity|]. split; [apply insert_insert_eq|].
    exists fig. split; [apply lookup_insert_eq|].
    rewrite <- !app_assoc. split; reflexivity.
  - apply (grids_bound_alloc s e lo la fa o
             (OArray (FloatArr (masked_grid o))) Hb).
  - exact Hfin.
  - exact Hmesh.
  - exact Hfit.
Qed.

End Label.

(** ** Subsetting again, and time axes out of order *)

Lemma bisect_bounds (p : Z -> bool) (a : list Z) :
  forall fuel lo hi, lo <= hi -> lo <= bisect p a lo hi fuel <= hi.
Proof.
  induction fuel as [|fuel IH]; intros lo hi Hle; cbn [bisect]; [lia|].
  destruct (Nat.ltb_spec lo hi) as [Hlt|Hge]; [|lia].
  pose proof (Nat.div_mod_eq (lo + hi) 2) as Hdm.
  pose proof (Nat.mod_upper_bound (lo + hi) 2 ltac:(lia)) as Hmod.
  set (mid := (lo + hi) / 2) in *.
  destruct (a !! mid) as [x|]; [|lia].
  destruct (p x).
  - specialize (IH (mid + 1) hi ltac:(lia)). lia.
  - specialize (IH lo mid ltac:(lia)). lia.
Qed.

Lemma increasing_nondecreasing (a : list Z) :
  increasing a -> nondecreasing a = true.
Proof.
  induction a as [|x a IH]; intros Hinc; [reflexivity|].
  destruct a as [|y a']; [reflexivity|].
  cbn [nondecreasing]. apply andb_true_iff. split.
  - apply Z.leb_le. apply (Hinc 0 1 x y); [lia|reflexivity|reflexivity].
  - apply IH. eapply increasing_tail. exact Hinc.
Qed.

Lemma increasing_is_monotonic (a : list Z) :
  increasing a -> NaT ∉ a -> is_monotonic_increasing a = true.
Proof.
  intros Hinc Hno. unfold is_monotonic_increasing.
  rewrite (increasing_nondecreasing a Hinc), andb_true_r.
  apply forallb_forall. intros t Ht. apply list_elem_of_In in Ht.
  destruct (Z.eqb_spec t NaT) as [->|_]; [contradiction|reflexivity].
Qed.

Lemma slice_elem_of {A} (i j : nat) (l : list A) (x : A) :
  x ∈ slice i j l -> x ∈ l.
Proof.
  unfold slice. intros Hx. apply list_elem_of_lookup_1 in Hx as [k Hk].
  rewrite lookup_drop in Hk. apply lookup_take_Some in Hk as [Hk _].
  eapply list_elem_of_lookup_2. exact Hk.
Qed.

Lemma increasing_slice (i j : nat) (a : list Z) :
  increasing a -> increasing (slice i j a).
Proof.
  intros Hinc u v x y Huv Hu Hv. unfold slice in Hu, Hv.
  rewrite lookup_drop in Hu, Hv.
  apply lookup_take_Some in Hu as [Hu _].
  apply lookup_take_Some in Hv as [Hv _].
  apply (Hinc (i + u) (i + v) x y); [lia|assumption|assumption].
Qed.

(** On an interval's own cells the two searches return the two ends. *)
Lemma searchsorted_all_within (lower upper : Z) (a : list Z) :
  increasing a -> Forall (within lower upper) a ->
  searchsorted_left a lower = 0 /\ searchsorted_right a upper = length a.
Proof.
  intros Hinc Hall.
  destruct (searchsorted_left_boundary a lower Hinc) as [Hl _].
  destruct (searchsorted_right_boundary a upper Hinc) as [_ Hr].
  pose proof (bisect_bounds (fun x => (x <? lower)%Z) a (length a) 0
                (length a) ltac:(lia)) as Hbl.
  pose proof (bisect_bounds (fun x => (x <=? upper)%Z) a (length a) 0
                (length a) ltac:(lia)) as Hbr.
  fold (searchsorted_left a lower) in Hbl.
  fold (searchsorted_right a upper) in Hbr.
  split.
  - destruct (searchsorted_left a lower) as [|i]; [reflexivity|].
    destruct a as [|x a]; [cbn in Hbl; lia|].
    cbn [take] in Hl. apply Forall_cons in Hl as [Hx _].
    apply Forall_cons in Hall as [[Hw _] _]. apply Z.ltb_lt in Hx. lia.
  - destruct (le_lt_dec (length a) (searchsorted_right a upper)) as [|Hlt];
      [lia|].
    destruct (drop (searchsorted_right a upper) a) as [|x r] eqn:E.
    + apply (f_equal length) in E. rewrite length_drop in E. cbn in E. lia.
    + apply Forall_cons in Hr as [Hx _]. apply Z.leb_gt in Hx.
      assert (Hin : a !! (searchsorted_right a upper + 0) = Some x).
      { rewrite <- lookup_drop, E. reflexivity. }
      destruct (Forall_lookup_1 _ _ _ _ Hall Hin). lia.
Qed.

Section Subsets.

Context {V : Type} `{!Scalar V}.

Implicit Types (ds : Dataset V) (s : state V).

(** On an increasing time axis [sel] is the positional slice between the
    two boundaries, which holds the timestamps within the interval. *)
Lemma sel_time_increasing ds (start stop : date) :
  is_monotonic_increasing (time ds) = true ->
  let i := searchsorted_left (time ds) (day_lower start) in
  let j := searchsorted_right (time ds) (day_upper stop) in
  sel_time ds start stop = Ok (isel_time ds i j) /\
  j <= length (time ds) /\
  slice i j (time ds)
  = filter (within (day_lower start) (day_upper stop)) (time ds).
Proof.
  intros Hm i j. pose proof (is_monotonic_increasing_spec _ Hm) as Hinc.
  split.
  { unfold sel_time. rewrite slice_indexer_increasing by assumption.
    reflexivity. }
  split.
  { apply (bisect_bounds _ (time ds) (length (time ds)) 0 (length (time ds))).
    lia. }
  destruct (searchsorted_left_boundary (time ds) (day_lower start) Hinc).
  destruct (searchsorted_right_boundary (time ds) (day_upper stop) Hinc).
  apply slice_between; assumption.
Qed.

Lemma slice_whole {A} (n : nat) (l : list A) :
  length l <= n -> slice 0 n l = l.
Proof.
  intros Hn. unfold slice. rewrite drop_0. apply take_ge. assumption.
Qed.

Lemma length_slice_le {A} (i j : nat) (l : list A) :
  length (slice i j l) <= j - i.
Proof. unfold slice. rewrite length_drop, length_take. lia. Qed.

Lemma length_slice {A} (i j : nat) (l : list A) :
  j <= length l -> length (slice i j l) = j - i.
Proof. intros Hj. unfold slice. rewrite length_drop, length_take. lia. Qed.

(** X11.  On an increasing time axis, subsetting the result of a
    subsetting to the same dates returns it unchanged (running the
    subsetting cell twice is harmless), and subsetting it to other dates
    keeps exactly the timestamps of the original axis whose day lies in
    both intervals. *)
Theorem sel_time_twice ds ds1 (a b c d : date) :
  is_monotonic_increasing (time ds) = true ->
  sel_time ds a b = Ok ds1 ->
  sel_time ds1 a b = Ok ds1 /\
  exists ds2,
    sel_time ds1 c d = Ok ds2 /\
    forall t, t ∈ time ds2 <->
      t ∈ time ds /\
      (days_from_civil a <= day_of t <= days_from_civil b)%Z /\
      (days_from_civil c <= day_of t <= days_from_civil d)%Z.
Proof.
  intros Hm Hsel.
  destruct (sel_time_increasing ds a b Hm) as (Hs & Hj & Hslice).
  rewrite Hs in Hsel. injection Hsel as <-.
  set (i := searchsorted_left (time ds) (day_lower a)) in *.
  set (j := searchsorted_right (time ds) (day_upper b)) in *.
  assert (Hinc1 : increasing (time (isel_time ds i j))).
  { cbn [isel_time time]. apply increasing_slice.
    apply is_monotonic_increasing_spec. assumption. }
  assert (Hm1 : is_monotonic_increasing (time (isel_time ds i j)) = true).
  { apply increasing_is_monotonic; [assumption|].
    cbn [isel_time time]. intros Hin. apply slice_elem_of in Hin.
    exact (is_monotonic_increasing_no_NaT _ Hm Hin). }
  split.
  - destruct (sel_time_increasing (isel_time ds i j) a b Hm1) as (Hs1 & _ & _).
    rewrite Hs1.
    assert (Hall : Forall (within (day_lower a) (day_upper b))
                     (time (isel_time ds i j))).
    { cbn [isel_time time]. rewrite Hslice. apply Forall_forall.
      intros t Ht. apply list_elem_of_filter in Ht. apply Ht. }
    destruct (searchsorted_all_within _ _ _ Hinc1 Hall) as [-> ->].
    cbn [isel_time time]. rewrite (length_slice i j) by assumption.
    f_equal. unfold isel_time. cbn [time latitude longitude data_vars].
    rewrite slice_whole by (rewrite length_slice; [lia|assumption]).
    f_equal. rewrite map_map. apply map_ext. intros [name frames]. cbn [fst snd].
    f_equal. apply slice_whole. apply length_slice_le.
  - destruct (sel_time_increasing (isel_time ds i j) c d Hm1) as (Hs2 & _ & Hsl2).
    eexists. split; [exact Hs2|].
    intros t. cbn [isel_time time] in *. rewrite Hsl2, Hslice.
    rewrite !list_elem_of_filter, !day_bounds. tauto.
Qed.

Lemma existsb_eqb_false (v : Z) (l : list Z) :
  v ∉ l -> existsb (Z.eqb v) l = false.
Proof.
  induction l as [|x l IH]; intros Hn; cbn [existsb]; [reflexivity|].
  apply not_elem_of_cons in Hn as [Hne Hn].
  rewrite IH by assumption. apply Z.eqb_neq in Hne. rewrite Hne. reflexivity.
Qed.

(** X12.  On a time axis that is not in increasing order, the subsetting
    raises KeyError as soon as some timestamp lies outside the interval,
    and also, whatever the dates, when every timestamp is at midnight
    (the end of the interval, the last nanosecond of a day, is then no
    entry of the axis); the cell then binds nothing and leaves the state
    as it was. *)
Theorem sel_time_unsorted_raises ds (start stop : date) :
  is_monotonic_increasing (time ds) = false ->
  ((exists t, t ∈ time ds /\ ~ within (day_lower start) (day_upper stop) t) ->
   sel_time ds start stop = Raise KeyError) /\
  (Forall (fun t => (t mod NS_PER_DAY = 0)%Z) (time ds) ->
   sel_time ds start stop = Raise KeyError) /\
  (forall s (l : loc), heap s !! l = Some (ODataset ds) ->
     sel_time ds start stop = Raise KeyError ->
     subset_one (start, stop) l s = (Raise KeyError, s)).
Proof.
  intros Hm. split; [|split].
  - intros (t & Hin & Hout). unfold sel_time, slice_indexer. rewrite Hm.
    assert (Hf : forallb (fun t => negb (t =? NaT)%Z
                                   && (day_lower start <=? t)%Z
                                   && (t <=? day_upper stop)%Z) (time ds)
                 = false).
    { apply not_true_is_false. intros Hall.
      rewrite forallb_forall in Hall.
      apply Hout. apply list_elem_of_In in Hin. specialize (Hall t Hin).
      apply andb_true_iff in Hall as [H1 H2].
      apply andb_true_iff in H1 as [_ H1].
      apply Z.leb_le in H1. apply Z.leb_le in H2. split; assumption. }
    rewrite Hf, andb_false_r. reflexivity.
  - intros Hmid. unfold sel_time, slice_indexer. rewrite Hm.
    rewrite (existsb_eqb_false (day_upper stop)).
    + rewrite andb_false_r. reflexivity.
    + intros Hin. rewrite Forall_forall in Hmid. specialize (Hmid _ Hin).
      revert Hmid. unfold day_upper, NS_PER_DAY.
      generalize (days_from_civil stop). intros z.
      Z.div_mod_to_equations. lia.
  - intros s l Hl Hsel.
    rewrite (subset_one_run (start, stop) l s ds Hl). cbn [fst snd].
    rewrite Hsel. reflexivity.
Qed.

End Subsets.

(** ** Calendar dates, slice bounds and file names *)

Section Dates.

Local Open Scope Z_scope.

Lemma yoe_recovered (yoe doy : Z) :
  0 <= yoe <= 399 -> 0 <= doy <= 365 ->
  (doy = 365 -> (yoe + 1) mod 4 = 0 /\
                ((yoe + 1) mod 100 <> 0 \/ (yoe + 1) mod 400 = 0)) ->
  let doe := yoe * 365 + yoe / 4 - yoe / 100 + doy in
  0 <= doe < 146097 /\
  (doe - doe / 1460 + doe / 36524 - doe / 146096) / 365 = yoe.
Proof.
  intros Hy Hd Hleap. cbv zeta. split.
  - Z.div_mod_to_equations. lia.
  - Z.div_mod_to_equations. lia.
Qed.

Lemma is_leap_spec (y : Z) :
  is_leap y = true ->
  y mod 4 = 0 /\ (y mod 100 <> 0 \/ y mod 400 = 0).
Proof.
  unfold is_leap. intros H. apply andb_true_iff in H as [H4 H].
  apply Z.eqb_eq in H4. split; [exact H4|].
  apply orb_true_iff in H as [H|H].
  - left. apply negb_true_iff in H. apply Z.eqb_neq in H. exact H.
  - right. apply Z.eqb_eq in H. exact H.
Qed.

(** The day number of a calendar date is that date's, and no other's. *)
Lemma civil_from_days_from_civil (d : date) :
  valid_date d -> civil_from_days (days_from_civil d) = d.
Proof.
  destruct d as [y m dd]. unfold valid_date. cbn [year month day].
  intros [Hm Hd].
  unfold days_from_civil. cbn [year month day]. cbv zeta.
  set (y' := if m <=? 2 then y - 1 else y).
  set (mp := if m >? 2 then m - 3 else m + 9).
  set (era := y' / 400). set (yoe := y' - era * 400).
  set (doy := (153 * mp + 2) / 5 + dd - 1).
  assert (Hyoe : 0 <= yoe <= 399).
  { unfold yoe, era. Z.div_mod_to_equations. lia. }
  assert (Hdoy : 0 <= doy <= 365 /\
                 (doy = 365 -> (yoe + 1) mod 4 = 0 /\
                    ((yoe + 1) mod 100 <> 0 \/ (yoe + 1) mod 400 = 0)) /\
                 (5 * doy + 2) / 153 = mp /\
                 doy - (153 * mp + 2) / 5 + 1 = dd /\
                 0 <= mp <= 11).
  { unfold days_in_month in Hd. unfold doy, mp, yoe, era, y'.
    assert (Hcases : m = 1 \/ m = 2 \/ m = 3 \/ m = 4 \/ m = 5 \/ m = 6 \/
                     m = 7 \/ m = 8 \/ m = 9 \/ m = 10 \/ m = 11 \/ m = 12)
      by lia.
    clear Hyoe.
    destruct Hcases as [->|[->|[->|[->|[->|[->|[->|[->|[->|[->|[->| ->]]]]]]]]]]];
      simpl (_ =? _) in Hd; simpl (_ || _)%bool in Hd; cbv iota in Hd;
      cbv beta iota delta [Z.gtb Z.leb Z.compare Pos.compare Pos.compare_cont];
      (destruct (is_leap y) eqn:Hleap; [apply is_leap_spec in Hleap|]);
      cbv iota in Hd;
      repeat match goal with
             | |- _ /\ _ => split
             | |- _ -> _ => intro
             end;
      Z.div_mod_to_equations; lia. }
  destruct Hdoy as (Hdb & Hl & Hmp & Hdd & Hmpb).
  destruct (yoe_recovered yoe doy Hyoe Hdb Hl) as [Hdoe Hrec].
  cbv zeta in Hdoe, Hrec.
  set (doe := yoe * 365 + yoe / 4 - yoe / 100 + doy) in *.
  unfold civil_from_days. cbv zeta.
  replace (era * 146097 + doe - 719468 + 719468) with (era * 146097 + doe)
    by lia.
  assert (Hera : (era * 146097 + doe) / 146097 = era).
  { Z.div_mod_to_equations. lia. }
  rewrite Hera.
  replace (era * 146097 + doe - era * 146097) with doe by lia.
  rewrite Hrec.
  replace (doe - (365 * yoe + yoe / 4 - yoe / 100)) with doy
    by (unfold doe; lia).
  rewrite Hmp, Hdd.
  assert (Hm' : (if mp <? 10 then mp + 3 else mp - 9) = m).
  { unfold mp. destruct (Z.gtb_spec m 2).
    - destruct (Z.ltb_spec (m - 3) 10); lia.
    - destruct (Z.ltb_spec (m + 9) 10); lia. }
  rewrite Hm'.
  assert (Hy' : (if m <=? 2 then yoe + era * 400 + 1 else yoe + era * 400)
                = y).
  { unfold yoe, y'. destruct (Z.leb_spec m 2); lia. }
  rewrite Hy'. reflexivity.
Qed.

End Dates.

Lemma days_in_month_le (y m : Z) : (days_in_month y m <= 31)%Z.
Proof.
  unfold days_in_month.
  destruct (m =? 2)%Z; [destruct (is_leap y); lia|].
  destruct ((m =? 4) || (m =? 6) || (m =? 9) || (m =? 11))%Z; lia.
Qed.

(** X14.  For a timestamp int64 can hold, the day-resolution string of
    [np.datetime_as_string] has ten characters and reads back, as
    [YYYY-MM-DD], to the calendar date of the timestamp's day, whose day
    number is that day again. *)
Theorem date_string_round_trip (t : Z) :
  valid_datetime64 t ->
  parse_iso (datetime_as_string_D t) = Some (civil_from_days (day_of t)) /\
  days_from_civil (civil_from_days (day_of t)) = day_of t /\
  String.length (datetime_as_string_D t) = 10.
Proof.
  intros Ht. apply day_of_valid in Ht.
  destruct (civil_bounds _ Ht) as (Hy & Hm & Hd).
  split; [|split].
  - unfold datetime_as_string_D. apply parse_iso_string; lia.
  - apply days_from_civil_from_days.
  - reflexivity.
Qed.

(** A timestamp lies within the slice bounds of a date exactly when the
    daily loop names its image by that date. *)
Lemma within_day_iff_name (d : date) (t : Z) :
  valid_date d -> (0 <= year d <= 9999)%Z -> valid_datetime64 t ->
  within (day_lower d) (day_upper d) t <->
  daily_path (datetime_as_string_D t) = daily_path (iso_string d).
Proof.
  intros Hd Hy Ht. rewrite day_bounds. split.
  - intros Hday. assert (Heq : day_of t = days_from_civil d) by lia.
    unfold datetime_as_string_D. rewrite Heq.
    rewrite civil_from_days_from_civil by exact Hd. reflexivity.
  - intros Hname. unfold datetime_as_string_D in Hname.
    apply daily_path_iso_inj in Hname.
    apply day_of_valid in Ht.
    destruct (civil_bounds _ Ht) as (Hcy & Hcm & Hcd).
    destruct Hd as [Hm Hdd].
    pose proof (days_in_month_le (year d) (month d)).
    assert (Hc : Some (civil_from_days (day_of t)) = Some d).
    { rewrite <- (parse_iso_string (civil_from_days (day_of t))) by lia.
      rewrite <- (parse_iso_string d) by lia.
      rewrite Hname. reflexivity. }
    injection Hc as Hc.
    rewrite <- (days_from_civil_from_days (day_of t)), Hc. lia.
Qed.

Section SingleDay.

Context {V : Type} `{!Scalar V}.

Implicit Types (ds : Dataset V) (s : state V).

(** X13.  On an increasing time axis of valid timestamps, subsetting to
    the single calendar date [d] (as start and as end) keeps exactly the
    records that the daily loop saves under the name [atmos_<d>.png]:
    the date string of the slice and the date string of the file name
    denote the same day. *)
Theorem sel_time_one_day_names_file ds (d : date) :
  valid_date d -> (0 <= year d <= 9999)%Z ->
  is_monotonic_increasing (time ds) = true ->
  Forall valid_datetime64 (time ds) ->
  exists ds',
    sel_time ds d d = Ok ds' /\
    forall t, t ∈ time ds' <->
      t ∈ time ds /\
      daily_path (datetime_as_string_D t) = daily_path (iso_string d).
Proof.
  intros Hd Hy Hm Hvalid.
  destruct (sel_time_increasing ds d d Hm) as (Hs & _ & Hsl).
  eexists. split; [exact Hs|].
  intros t. cbn [isel_time time]. rewrite Hsl, list_elem_of_filter.
  rewrite Forall_forall in Hvalid.
  split.
  - intros [Hw Hin]. split; [exact Hin|].
    apply within_day_iff_name; auto.
  - intros [Hin Hname]. split; [|exact Hin].
    apply within_day_iff_name; auto.
Qed.

End SingleDay.

(** ** Strided slices and the wind barbs *)

Lemma concat_lookup_uniform {A} (c : nat) (rows : list (list A)) :
  Forall (fun r => length r = c) rows ->
  forall i j, j < c ->
    concat rows !! (i * c + j) = rows !! i ≫= (fun r => r !! j).
Proof.
  induction 1 as [|r rows Hr _ IH]; intros i j Hj.
  - cbn [concat]. rewrite !lookup_nil. reflexivity.
  - cbn [concat]. destruct i as [|i].
    + cbn [lookup list_lookup mbind option_bind Nat.mul Nat.add].
      apply lookup_app_l. lia.
    + rewrite lookup_app_r by lia.
      replace (S i * c + j - length r) with (i * c + j) by lia.
      apply IH. assumption.
Qed.

Lemma length_concat_uniform {A} (c : nat) (rows : list (list A)) :
  Forall (fun r => length r = c) rows ->
  length (concat rows) = length rows * c.
Proof.
  induction 1 as [|r rows Hr _ IH]; cbn [concat length]; [reflexivity|].
  rewrite length_app, IH, Hr. reflexivity.
Qed.

Lemma rows_of_uniform {A} (n c : nat) (l : list A) :
  length l = n * c -> Forall (fun r => length r = c) (rows_of n c l).
Proof.
  intros Hl. apply Forall_lookup. intros i r Hi.
  assert (Hin : i < n).
  { rewrite <- (length_rows_of n c l). apply lookup_lt_is_Some. eauto. }
  rewrite rows_of_lookup in Hi by assumption. injection Hi as <-.
  rewrite length_take, length_drop. nia.
Qed.

Section Barbs.

Context {V : Type} `{!Scalar V}.

(** X15.  [values[dayx, ::5, ::5] * 1.94384] of a well-formed frame with
    [r] rows and [c] columns has [(r + 4) / 5] rows and [(c + 4) / 5]
    columns; its cell [(i, j)] is the frame's cell [(5 i, 5 j)]
    multiplied by 1.94384; and [coord[::5]] has [(n + 4) / 5] entries, the
    [i]-th being entry [5 i] of the coordinate: the barbs sit on every
    fifth grid point, each with the wind of its own point. *)
Theorem barbs_every_fifth (a : ndarray V) :
  wf_ndarray a ->
  nrows (to_knots a) = (nrows a + 4) / 5 /\
  ncols (to_knots a) = (ncols a + 4) / 5 /\
  wf_ndarray (to_knots a) /\
  (forall i j, 5 * i < nrows a -> 5 * j < ncols a ->
     cells (to_knots a) !! (i * ncols (to_knots a) + j) =
     (fun v => scalar_mul v (194384 # 100000)) <$>
       cells a !! (5 * i * ncols a + 5 * j)) /\
  (forall coord : list V,
     length (every 5 coord) = (length coord + 4) / 5 /\
     forall i, every 5 coord !! i = coord !! (5 * i)).
Proof.
  intros Hwf. unfold wf_ndarray in Hwf.
  set (rows := rows_of (nrows a) (ncols a) (cells a)).
  set (c' := length (every 5 (seq 0 (ncols a)))).
  assert (Hc' : c' = (ncols a + 4) / 5).
  { unfold c'. rewrite length_every by lia. rewrite length_seq.
    f_equal; lia. }
  assert (Hrows : Forall (fun r => length r = ncols a) rows).
  { apply rows_of_uniform. assumption. }
  assert (Hsub : Forall (fun r => length r = ncols a) (every 5 rows)).
  { apply Forall_lookup. intros i r Hi.
    rewrite every_lookup in Hi by lia.
    eapply Forall_lookup_1 in Hrows; [exact Hrows|exact Hi]. }
  assert (Hcut : Forall (fun r => length r = c') (map (every 5) (every 5 rows))).
  { apply Forall_map. eapply Forall_impl; [exact Hsub|].
    intros r Hr. cbn beta. rewrite length_every by lia. rewrite Hr.
    rewrite Hc'. f_equal; lia. }
  assert (Hn : length (every 5 rows) = (nrows a + 4) / 5).
  { rewrite length_every by lia. unfold rows. rewrite length_rows_of.
    f_equal; lia. }
  split; [exact Hn|]. split; [exact Hc'|]. split.
  { unfold wf_ndarray, to_knots, map_array, every2.
    cbn [cells nrows ncols]. fold rows. fold c'.
    rewrite length_map, (length_concat_uniform c') by assumption.
    rewrite length_map. reflexivity. }
  split.
  - intros i j Hi Hj.
    unfold to_knots, map_array, every2. cbn [cells nrows ncols].
    fold rows. fold c'.
    rewrite list_lookup_fmap. f_equal.
    assert (Hjc : j < c').
    { unfold c'. apply lookup_lt_is_Some.
      rewrite every_lookup by lia. apply lookup_lt_is_Some.
      rewrite length_seq. lia. }
    rewrite (concat_lookup_uniform c') by assumption.
    rewrite list_lookup_fmap, every_lookup by lia.
    unfold rows. rewrite rows_of_lookup by lia.
    cbn [fmap option_fmap option_map mbind option_bind].
    rewrite every_lookup by lia.
    rewrite lookup_take_lt by lia. rewrite lookup_drop. f_equal. lia.
  - intros coord. split.
    + rewrite length_every by lia. f_equal; lia.
    + intros i. rewrite every_lookup by lia. f_equal. lia.
Qed.

End Barbs.

(** ** The daily loop: partial output, overwriting, titles *)

Section Loop.

Context {V : Type} `{!Scalar V}.

Implicit Types (s : state V) (d : era5_data V) (f : era5_frames V)
  (ds : Dataset V).




Lemma write_all_cons (name : string) (fig : figure V)
    (outs : list (string * figure V)) (dk : gmap string (file V)) :
  write_all ((name, fig) :: outs) dk
  = write_all outs (<[name := Png fig]> dk).
Proof. reflexivity. Qed.

(** The file of a name holds the last figure written under it. *)
Lemma write_all_last (outs : list (string * figure V)) :
  forall (dk : gmap string (file V)) (k : nat) (p : string) (fig : figure V),
    outs !! k = Some (p, fig) ->
    (forall k' nf, k < k' -> outs !! k' = Some nf -> fst nf <> p) ->
    write_all outs dk !! p = Some (Png fig).
Proof.
  induction outs as [|[name g] outs IH]; intros dk k p fig Hk Hlater.
  - rewrite lookup_nil in Hk. discriminate.
  - rewrite write_all_cons. destruct k as [|k].
    + injection Hk as -> ->.
      rewrite write_all_lookup_other.
      * apply lookup_insert_eq.
      * intros Hin. apply list_elem_of_fmap in Hin as ([q h] & Hq & Hin).
        apply list_elem_of_lookup_1 in Hin as [k' Hk'].
        apply (Hlater (S k') (q, h)); [lia|exact Hk'|]. symmetry. exact Hq.
    + apply (IH _ k); [exact Hk|].
      intros k' nf Hlt Hnf. apply (Hlater (S k') nf); [lia|exact Hnf].
Qed.

(** X17.  When several timestamps fall on one day, their figures are
    saved under the same name, one over the other: after a complete run
    of the loop (drawable datasets with enough frames, a mean longitude
    that is a number) the file of a day holds the figure of the last
    position of that day. *)
Theorem daily_plots_last_of_day (lons : loc) (e5 : era5_env) s (lo : array)
    d f (k : nat) (t : Z) :
  heap s !! lons = Some (OArray lo) ->
  era5_bound s e5 d -> vars_named d f -> enough_frames d f ->
  drawable d f -> np_mean (cells (to_float lo)) <> NaN ->
  Forall valid_datetime64 (time (d_IVT d)) ->
  time (d_IVT d) !! k = Some t ->
  (forall k' t', k < k' -> time (d_IVT d) !! k' = Some t' ->
                 day_of t' <> day_of t) ->
  exists fr,
    frames_at f k = Some fr /\
    disk (snd (daily_plots lons e5 s)) !! daily_path (datetime_as_string_D t)
    = Some (Png (figure_of (np_mean (cells (to_float lo))) d fr t)).
Proof.
  intros Hlo Hb Hv He Hd Hc Hvalid Ht Hlast.
  rewrite (daily_plots_complete lons e5 s lo d f Hlo Hb Hv He Hd Hc).
  cbv zeta. cbn [snd disk].
  destruct (daily_outputs_lookup (np_mean (cells (to_float lo))) d f k t He Ht)
    as (fr & Hfr & Hout).
  exists fr. split; [exact Hfr|].
  apply (write_all_last _ _ k); [exact Hout|].
  intros k' nf Hlt Hnf Hname.
  assert (Hk' : is_Some (time (d_IVT d) !! k')).
  { apply lookup_lt_is_Some.
    rewrite <- (daily_outputs_length (np_mean (cells (to_float lo))) d f He).
    apply lookup_lt_is_Some. eauto. }
  destruct Hk' as [t' Ht'].
  destruct (daily_outputs_lookup (np_mean (cells (to_float lo))) d f k' t'
              He Ht') as (fr' & _ & Hout').
  rewrite Hout' in Hnf. injection Hnf as <-. cbn [fst] in Hname.
  apply (Hlast k' t' Hlt Ht').
  rewrite Forall_forall in Hvalid.
  apply daily_path_day_inj; [apply Hvalid..|exact Hname];
    eapply list_elem_of_lookup_2; eassumption.
Qed.

(** X18.  After a complete run of the daily loop (drawable datasets with
    enough frames, a mean longitude that is a number), the image of every
    timestamp's day is a daily figure that was also shown, whose title is
    the date in the file's name, drawn on the projection centred on the
    mean longitude of the facet grid. *)
Theorem daily_files_titled_by_date (lons : loc) (e5 : era5_env) s
    (lo : array) d f (t : Z) :
  heap s !! lons = Some (OArray lo) ->
  era5_bound s e5 d -> vars_named d f -> enough_frames d f ->
  drawable d f -> np_mean (cells (to_float lo)) <> NaN ->
  Forall valid_datetime64 (time (d_IVT d)) ->
  t ∈ time (d_IVT d) ->
  exists fg,
    disk (snd (daily_plots lons e5 s)) !! daily_path (datetime_as_string_D t)
    = Some (Png (DailyFig fg)) /\
    DailyFig fg ∈ shown (snd (daily_plots lons e5 s)) /\
    suptitle fg = datetime_as_string_D t /\
    central_longitude fg = np_mean (cells (to_float lo)).
Proof.
  intros Hlo Hb Hv He Hd Hc Hvalid Ht.
  rewrite (daily_plots_complete lons e5 s lo d f Hlo Hb Hv He Hd Hc).
  cbv zeta. cbn [snd disk shown].
  set (central := np_mean (cells (to_float lo))).
  set (outs := daily_outputs central d f).
  assert (Hin : daily_path (datetime_as_string_D t) ∈ map fst outs).
  { unfold outs. rewrite daily_outputs_names by exact He.
    apply (list_elem_of_fmap_2 (fun t => day_file (day_of t)) _ t Ht). }
  destruct (write_all_lookup_written outs (disk s) _ Hin)
    as (fig & Hfile & Hout).
  apply list_elem_of_lookup_1 in Hout as [k Hk].
  assert (Hkt : is_Some (time (d_IVT d) !! k)).
  { apply lookup_lt_is_Some.
    rewrite <- (daily_outputs_length central d f He).
    apply lookup_lt_is_Some. eauto. }
  destruct Hkt as [t' Ht'].
  destruct (daily_outputs_lookup central d f k t' He Ht')
    as (fr & _ & Hk').
  fold outs in Hk'.
  assert (Heq : (daily_path (datetime_as_string_D t), fig)
                = (daily_path (datetime_as_string_D t'),
                   figure_of central d fr t')) by congruence.
  apply pair_equal_spec in Heq as [Hname ->].
  rewrite Forall_forall in Hvalid.
  assert (Hday : day_of t = day_of t').
  { apply daily_path_day_inj; [apply Hvalid; exact Ht| |exact Hname].
    apply Hvalid. eapply list_elem_of_lookup_2. exact Ht'. }
  destruct fr as [[[[[a1 a2] a3] a4] a5] a6]. cbn [figure_of] in *.
  eexists. split; [exact Hfile|]. split.
  - apply elem_of_app. right.
    apply (list_elem_of_fmap_2 snd outs _ (list_elem_of_lookup_2 _ _ _ Hk)).
  - cbn [suptitle central_longitude]. split; [|reflexivity].
    unfold datetime_as_string_D. rewrite Hday. reflexivity.
Qed.

End Loop.

(** ** The daily loop pairs frames by position *)

Section Position.

Context {V : Type} `{!Scalar V}.

Implicit Types (s : state V) (d : era5_data V) (ds : Dataset V).

Lemma panel_same_but_time ds ds' (name : string) (k : nat) :
  same_but_time ds ds' -> panel ds' name k = panel ds name k.
Proof.
  intros (Hla & Hlo & Hv). unfold panel, get_var. rewrite Hla, Hlo, Hv.
  reflexivity.
Qed.

Lemma knots_same_but_time ds ds' (name : string) (k : nat) :
  same_but_time ds ds' -> knots ds' name k = knots ds name k.
Proof.
  intros (_ & _ & Hv). unfold knots, get_var. rewrite Hv. reflexivity.
Qed.

Lemma render_days_ext (central : npfloat) d d' (ks : list nat) :
  (forall k, day_figure central d' k = day_figure central d k) ->
  forall dk sh,
    render_days central d' ks dk sh = render_days central d ks dk sh.
Proof.
  intros Hext. induction ks as [|k ks IH]; intros dk sh; cbn [render_days].
  - reflexivity.
  - rewrite Hext. destruct (day_figure central d k) as [[name fig]|x];
      [apply IH|reflexivity].
Qed.

(** X21.  The daily loop pairs the frames of the six variables by their
    position along IVT's time axis and never reads the time axis of the
    other five datasets: two runs on datasets that differ only in those
    five time axes have the same outcome, write the same files and show
    the same figures, whatever dates the other records carry. *)
Theorem daily_plots_pairs_by_position (lons : loc) (e5 : era5_env) s s'
    (lo : array) d d' :
  heap s !! lons = Some (OArray lo) -> heap s' !! lons = Some (OArray lo) ->
  era5_bound s e5 d -> era5_bound s' e5 d' ->
  disk s' = disk s -> shown s' = shown s ->
  d_IVT d' = d_IVT d ->
  same_but_time (d_precip d) (d_precip d') ->
  same_but_time (d_temp700 d) (d_temp700 d') ->
  same_but_time (d_uwinds700 d) (d_uwinds700 d') ->
  same_but_time (d_vwinds700 d) (d_vwinds700 d') ->
  same_but_time (d_hgt500 d) (d_hgt500 d') ->
  fst (daily_plots lons e5 s') = fst (daily_plots lons e5 s) /\
  disk (snd (daily_plots lons e5 s')) = disk (snd (daily_plots lons e5 s)) /\
  shown (snd (daily_plots lons e5 s')) = shown (snd (daily_plots lons e5 s)).
Proof.
  intros Hlo Hlo' Hb Hb' Hdisk Hshown Hivt Hp Ht Hu Hv Hh.
  rewrite (daily_plots_run lons e5 d s lo Hlo Hb).
  rewrite (daily_plots_run lons e5 d' s' lo Hlo' Hb').
  destruct (mercator _).
  2:{ cbn [fst snd]. rewrite Hdisk, Hshown. repeat split; reflexivity. }
  cbv zeta. cbn [fst snd disk shown]. rewrite Hivt, Hdisk, Hshown.
  rewrite (render_days_ext _ d d').
  - repeat split; reflexivity.
  - intros k. unfold day_figure. rewrite Hivt.
    rewrite (panel_same_but_time _ _ "hgt" k Hh).
    rewrite (panel_same_but_time _ _ "precip" k Hp).
    rewrite (panel_same_but_time _ _ "uwnd" k Hu).
    rewrite (panel_same_but_time _ _ "vwnd" k Hv).
    rewrite (panel_same_but_time _ _ "temp" k Ht).
    rewrite (knots_same_but_time _ _ "uwnd" k Hu).
    rewrite (knots_same_but_time _ _ "vwnd" k Hv).
    destruct Hu as (Hula & Hulo & _). rewrite Hula, Hulo. reflexivity.
Qed.

End Position.

(** ** The three atmospheric cells in sequence *)

Section Pipeline.

Context {V : Type} `{!Scalar V}.

Implicit Types (s : state V) (d raw : era5_data V) (f : era5_frames V)
  (ds : Dataset V).











End Pipeline.

(** ** The colours of the overview map *)

Lemma Qfloor_between (x : Q) (m : Z) :
  (inject_Z m <= x)%Q -> (x < inject_Z (m + 1))%Q -> Qfloor x = m.
Proof.
  intros Hlo Hhi.
  pose proof (Qfloor_le x) as H1. pose proof (Qlt_floor x) as H2.
  assert (Ha : (inject_Z m < inject_Z (Qfloor x + 1))%Q)
    by (eapply Qle_lt_trans; eassumption).
  assert (Hb : (inject_Z (Qfloor x) < inject_Z (m + 1))%Q)
    by (eapply Qle_lt_trans; eassumption).
  rewrite <- Zlt_Qlt in Ha, Hb. lia.
Qed.

(** With limits [0.5] and [N + 0.5], the integer code [k] of [1..N] takes
    the colour number [k - 1]. *)
Lemma lut_index_code (N : nat) (k : Z) :
  (1 <= k <= Z.of_nat N)%Z ->
  lut_index N (normalize (1 # 2) (inject_Z (Z.of_nat N) + (1 # 2)) (of_int k))
  = Listed (Z.to_nat (k - 1)).
Proof.
  intros Hk. unfold lut_index, normalize, of_int.
  set (n := inject_Z (Z.of_nat N)).
  assert (Hn : (0 < n)%Q).
  { unfold n. change 0%Q with (inject_Z 0). rewrite <- Zlt_Qlt. lia. }
  assert (Hk1 : (1 <= inject_Z k)%Q).
  { change 1%Q with (inject_Z 1). rewrite <- Zle_Qle. lia. }
  assert (Hk2 : (inject_Z k <= n)%Q).
  { unfold n. rewrite <- Zle_Qle. lia. }
  clearbody n.
  assert (Hxa : ((inject_Z k - (1 # 2)) / (n + (1 # 2) - (1 # 2)) * n
                 == inject_Z k - (1 # 2))%Q).
  { field. lra. }
  set (xa := ((inject_Z k - (1 # 2)) / (n + (1 # 2) - (1 # 2)) * n)%Q) in *.
  destruct (Qeq_bool xa n) eqn:E1.
  { apply Qeq_bool_iff in E1. rewrite Hxa in E1. exfalso. lra. }
  destruct (Qle_bool 0 xa) eqn:E2; cbn [negb].
  2:{ assert (Hge : (0 <= xa)%Q) by (rewrite Hxa; lra).
      apply Qle_bool_iff in Hge. congruence. }
  destruct (Qle_bool n xa) eqn:E3.
  { apply Qle_bool_iff in E3. rewrite Hxa in E3. exfalso. lra. }
  f_equal. f_equal. apply Qfloor_between.
  - rewrite Hxa. unfold Z.sub. rewrite inject_Z_plus, inject_Z_opp.
    change (inject_Z 1) with 1%Q. lra.
  - rewrite Hxa. replace (k - 1 + 1)%Z with k by lia. lra.
Qed.

(** X20.  Through [cmap_fi] and the limits 0.5 and 8.5, each orientation
    code from 1 to 8 is painted, code [k] in the [k]-th listed grey, and
    the eight greys differ; a nan cell is not painted, so the flat cells
    the masking turned into nan are left out of the map; unmasked, the
    flat code 9 would be painted like code 8, and a code of 0 or less
    like code 1. *)
Theorem orientation_codes_painted :
  (forall k : Z, (1 <= k <= 8)%Z ->
     facet_paint (of_int k) = cmap_fi !! Z.to_nat (k - 1) /\
     is_Some (facet_paint (of_int k))) /\
  NoDup cmap_fi /\
  facet_paint NaN = None /\
  (forall (G : array) (i : nat) (x : npfloat),
     cells (to_float G) !! i = Some x -> np_eq x (of_int 9) = true ->
     facet_paint <$> cells (masked_grid G) !! i = Some None) /\
  facet_paint (of_int 9) = facet_paint (of_int 8) /\
  (forall k : Z, (k <= 0)%Z -> facet_paint (of_int k) = facet_paint (of_int 1)).
Proof.
  split; [|split; [|split; [|split; [|split]]]].
  - intros k Hk. unfold facet_paint, to_rgba.
    change (length cmap_fi) with 8.
    change (17 # 2)%Q with (inject_Z (Z.of_nat 8) + (1 # 2))%Q.
    rewrite (lut_index_code 8 k) by lia. split; [reflexivity|].
    apply lookup_lt_is_Some. cbn [length cmap_fi]. lia.
  - unfold cmap_fi, grey.
    repeat (constructor;
            [rewrite ?elem_of_cons, elem_of_nil; intuition discriminate|]).
    constructor.
  - reflexivity.
  - intros G i x Hx H9. unfold masked_grid. cbn [cells].
    change (map mask_cell (cells (to_float G)))
      with (mask_cell <$> cells (to_float G)).
    rewrite list_lookup_fmap, Hx. cbn [fmap option_fmap option_map].
    unfold mask_cell. rewrite H9. reflexivity.
  - reflexivity.
  - intros k Hk. unfold facet_paint, to_rgba.
    change (length cmap_fi) with 8.
    assert (Hu : lut_index 8 (normalize (1 # 2) (17 # 2) (of_int k)) = Under).
    { unfold lut_index, normalize, of_int.
      assert (Hk0 : (inject_Z k <= 0)%Q).
      { change 0%Q with (inject_Z 0). rewrite <- Zle_Qle. lia. }
      assert (Hxa : ((inject_Z k - (1 # 2)) / ((17 # 2) - (1 # 2))
                     * inject_Z (Z.of_nat 8)
                     == inject_Z k - (1 # 2))%Q).
      { change (inject_Z (Z.of_nat 8)) with 8%Q. field. }
      set (xa := ((inject_Z k - (1 # 2)) / ((17 # 2) - (1 # 2))
                  * inject_Z (Z.of_nat 8))%Q) in *.
      destruct (Qeq_bool xa (inject_Z (Z.of_nat 8))) eqn:E1.
      { apply Qeq_bool_iff in E1. rewrite Hxa in E1.
        change (inject_Z (Z.of_nat 8)) with 8%Q in E1. exfalso. lra. }
      destruct (Qle_bool 0 xa) eqn:E2; cbn [negb]; [|reflexivity].
      apply Qle_bool_iff in E2. rewrite Hxa in E2. exfalso. lra. }
    rewrite Hu. reflexivity.
Qed.

(** ** The properties on the small instance *)

Example load_facets_sample :
  load_facets facets_dir (fresh sample_disk) =
  (Ok loaded_env,
   mk_state [OArray sample_elev; OArray sample_facets; OArray sample_lats;
             OArray sample_lons; OArray sample_orientation;
             OFrame sample_opg]
            sample_disk []).
Proof. vm_compute. reflexivity. Qed.

Example notebook_prefix_sample :
  fst (notebook_prefix (fresh sample_disk)) = Ok (loaded_env, subset_env).
Proof. vm_compute. reflexivity. Qed.

(** The interval of the notebook on daily records of January 2017: the
    six days 2017-01-07 .. 2017-01-12 are retained. *)
Lemma sel_time_january :
  is_monotonic_increasing (time (d_IVT sample_raw)) = true /\
  exists ds',
    sel_time (d_IVT sample_raw) (fst notebook_dates) (snd notebook_dates)
    = Ok ds' /\
    length (time ds') = 6 /\
    map datetime_as_string_D (time ds') =
    ["2017-01-07"; "2017-01-08"; "2017-01-09"; "2017-01-10"; "2017-01-11";
     "2017-01-12"].
Proof.
  assert (Hm : is_monotonic_increasing (time (d_IVT sample_raw)) = true)
    by (vm_compute; reflexivity).
  split; [exact Hm|].
  destruct (sel_time_retains_interval (d_IVT sample_raw)
              (fst notebook_dates) (snd notebook_dates) Hm)
    as (ds' & H1 & H2 & _).
  exists ds'. split; [exact H1|]. rewrite H2.
  split; vm_compute; reflexivity.
Defined.

(** Against C1.  Daily records of January 2017 stored newest first: an
    interval that overlaps none of them (7 to 12 January 2018) does not
    give an empty result but KeyError, and so does the notebook's own
    interval, six days of which are in the file. *)
Lemma sel_time_backwards_raises :
  (forall t, t ∈ time january_backwards ->
     ~ (days_from_civil (mk_date 2018 1 7) <= day_of t
        <= days_from_civil (mk_date 2018 1 12))%Z) /\
  sel_time january_backwards (mk_date 2018 1 7) (mk_date 2018 1 12)
  = Raise KeyError /\
  length (filter (within (day_lower (fst notebook_dates))
                         (day_upper (snd notebook_dates)))
            (time january_backwards)) = 6 /\
  sel_time january_backwards (fst notebook_dates) (snd notebook_dates)
  = Raise KeyError.
Proof.
  split.
  { intros t Ht. vm_compute in Ht.
    repeat (apply elem_of_cons in Ht as [->|Ht];
            [vm_compute; intros [H _]; apply H; reflexivity|]).
    inversion Ht. }
  split; [vm_compute; reflexivity|].
  split; vm_compute; reflexivity.
Qed.

(** The loading cell on the sample disk: precipitation in millimetres,
    temperature in degrees Celsius, geopotential height in metres. *)
Lemma load_era5_sample :
  era5_files (disk (fresh sample_disk)) era5_dir sample_raw /\
  exists (e5 : era5_env) s',
    load_era5 era5_dir (fresh sample_disk) = (Ok e5, s') /\
    heap s' !! precip e5 = Some (ODataset (d_precip (converted sample_raw))) /\
    value_at (d_precip sample_raw) "precip" 0 0 = Some (1 # 1000)%Q /\
    value_at (d_precip (converted sample_raw)) "precip" 0 0
    = Some ((1 # 1000) * 1000)%Q /\
    value_at (d_temp700 (converted sample_raw)) "temp" 0 0
    = Some (270 - (27315 # 100))%Q /\
    value_at (d_hgt500 (converted sample_raw)) "hgt" 0 0
    = Some (54000 / (981 # 100))%Q.
Proof.
  assert (Hf : era5_files (disk (fresh sample_disk)) era5_dir sample_raw)
    by (repeat split; vm_compute; reflexivity).
  split; [exact Hf|].
  destruct (load_era5_converts_units era5_dir (fresh sample_disk) sample_raw Hf)
    as (e5 & s' & H1 & _ & H2 & _ & _ & _ & _ & H3 & H4 & H5).
  exists e5, s'. split; [exact H1|]. split; [exact H2|].
  split; [reflexivity|]. cbn [converted d_precip d_temp700 d_hgt500].
  rewrite H3, H4, H5. repeat split; reflexivity.
Defined.

Lemma sample_grids_bound :
  grids_bound (loaded sample_disk) loaded_env
    sample_lons sample_lats sample_facets sample_orientation.
Proof. repeat split; vm_compute; reflexivity. Qed.

Lemma sample_grids_conform :
  mesh_accepts sample_lons sample_lats sample_orientation /\
  mask_fits sample_lons sample_lats sample_facets.
Proof.
  split; [split; [reflexivity|left; reflexivity]|split; reflexivity].
Qed.

Lemma sample_grids_finite : finite_mesh sample_lons sample_lats.
Proof.
  split; [discriminate|].
  split; repeat (constructor; [reflexivity|]); constructor.
Qed.

Lemma sample_lons_mean : np_mean (cells (to_float sample_lons)) <> NaN.
Proof. vm_compute. discriminate. Qed.

(** The overview cell on the sample grids: facet 2131 has the cells 0, 2
    and 3, so the label sits at the medians (-113, 42). *)
Lemma overview_label_sample :
  (grids_bound (loaded sample_disk) loaded_env
     sample_lons sample_lats sample_facets sample_orientation /\
   finite_mesh sample_lons sample_lats /\
   mesh_accepts sample_lons sample_lats sample_orientation /\
   mask_fits sample_lons sample_lats sample_facets /\
   occurs 2131 sample_facets) /\
  fst (overview_map 2131 loaded_env (loaded sample_disk)) = Ok tt /\
  values_where 2131 sample_facets sample_lons
  = [Num (-111); Num (-113); Num (-114)]%Q /\
  values_where 2131 sample_facets sample_lats = [Num 40; Num 42; Num 43]%Q /\
  exists central X Y C,
    disk (snd (overview_map 2131 loaded_env (loaded sample_disk)))
      !! overview_path
    = Some (Png (OverviewFig central X Y C
                   (Num (-113)%Q, Num 42%Q, "2131"))).
Proof.
  pose proof sample_grids_bound as Hb.
  pose proof sample_grids_conform as [Hmesh Hfit].
  pose proof sample_grids_finite as Hfin.
  assert (Hocc : occurs 2131 sample_facets).
  { exists 0, (of_int 2131). split; reflexivity. }
  split; [repeat split;
          first [apply Hb|apply Hfin|apply Hmesh|apply Hfit|exact Hocc]|].
  destruct (overview_label_is_median 2131 loaded_env (loaded sample_disk)
              sample_lons sample_lats sample_facets sample_orientation
              Hb eq_refl eq_refl eq_refl Hocc)
    as (Hlabel & Hreturns).
  pose proof (Hreturns Hfin Hmesh Hfit) as Hok.
  destruct (Hlabel Hok) as (_ & _ & (central & X & Y & C & Hfig & _) & _).
  split; [exact Hok|].
  split; [reflexivity|]. split; [reflexivity|].
  exists central, X, Y, C. exact Hfig.
Defined.

Lemma subset_state_bound :
  heap subset_state !! lons loaded_env = Some (OArray sample_lons) /\
  era5_bound subset_state subset_env six_days /\
  vars_named six_days six_days_frames.
Proof. repeat split; vm_compute; reflexivity. Qed.

Lemma six_days_frames_enough :
  enough_frames six_days six_days_frames /\
  frames_along_time six_days six_days_frames.
Proof. split; repeat split; vm_compute; lia. Qed.

Lemma six_days_drawable : drawable six_days six_days_frames.
Proof.
  repeat (split; [apply Forall_fits_checked; vm_compute; reflexivity|]).
  split; reflexivity.
Qed.

Lemma six_days_valid :
  Forall valid_datetime64 (time (d_IVT six_days)) /\
  NoDup (map day_of (time (d_IVT six_days))).
Proof.
  split.
  - apply Forall_forall. intros t Ht. vm_compute in Ht.
    repeat (apply elem_of_cons in Ht as [->|Ht]; [split; reflexivity|]).
    inversion Ht.
  - refine (bool_decide_unpack _ _). vm_compute. exact I.
Qed.


(** The same run, position by position: six figures are shown, and the
    one at position 2 holds frame 2 of every variable. *)
Lemma daily_plots_six_positions :
  (heap subset_state !! lons loaded_env = Some (OArray sample_lons) /\
   era5_bound subset_state subset_env six_days /\
   vars_named six_days six_days_frames /\
   frames_along_time six_days six_days_frames /\
   drawable six_days six_days_frames /\
   np_mean (cells (to_float sample_lons)) <> NaN) /\
  fst (daily_plots (lons loaded_env) subset_env subset_state) = Ok tt /\
  exists figs,
    shown (snd (daily_plots (lons loaded_env) subset_env subset_state))
    = shown subset_state ++ figs /\
    length figs = 6 /\
    exists fr t,
      frames_at six_days_frames 2 = Some fr /\
      time (d_IVT six_days) !! 2 = Some t /\
      figs !! 2 =
      Some (figure_of (np_mean (cells (to_float sample_lons))) six_days fr t).
Proof.
  pose proof subset_state_bound as (Hlo & Hb & Hv).
  pose proof six_days_frames_enough as (_ & Hw).
  pose proof six_days_drawable as Hd.
  pose proof sample_lons_mean as Hc.
  split; [repeat split;
          first [exact Hlo|apply Hb|apply Hv|apply Hw|apply Hd|exact Hc]|].
  destruct (daily_plots_follows_IVT_axis (lons loaded_env) subset_env
              subset_state sample_lons six_days six_days_frames
              Hlo Hb Hv Hw)
    as (Hfigs & _ & Hdrawn).
  destruct (Hdrawn Hd Hc) as (Hiff & _).
  assert (Hok : fst (daily_plots (lons loaded_env) subset_env subset_state)
                = Ok tt).
  { apply Hiff. repeat split; vm_compute; lia. }
  split; [exact Hok|].
  destruct (Hfigs Hok) as (_ & figs & Hshown & Hlen & Hat).
  exists figs. split; [exact Hshown|]. split; [exact Hlen|].
  destruct (time (d_IVT six_days) !! 2) as [t|] eqn:Ht; [|discriminate Ht].
  destruct (Hat 2 t Ht) as (fr & Hfr & Hfig).
  exists fr, t. split; [exact Hfr|]. split; [reflexivity|exact Hfig].
Defined.

(** Against C6, three times.  With a 1 x 1 elevation grid beside 2 x 2
    grids everything loads, the elevation grid is never looked at, and the
    overview cell returns with its image written.  With grids of three
    shapes (elevation 1 x 1, orientation 2 x 2, facet ids, latitude and
    longitude 3 x 3) the orientation grid is drawn over the 3 x 3 mesh as
    its cell corners, and the image is written as well.  With IVT on a
    3 x 3 grid beside the other five atmospheric fields on 2 x 2 grids
    the daily loop returns with its three images written. *)
Lemma overview_written_despite_shapes :
  (fst (load_facets facets_dir (fresh odd_elevation_disk)) = Ok loaded_env /\
   heap (loaded odd_elevation_disk) !! elev loaded_env
   = Some (OArray elev_1x1) /\
   grids_bound (loaded odd_elevation_disk) loaded_env
     sample_lons sample_lats sample_facets sample_orientation /\
   array_shape elev_1x1 <> array_shape sample_facets /\
   disk (loaded odd_elevation_disk) !! overview_path = None /\
   fst (overview_map 2131 loaded_env (loaded odd_elevation_disk)) = Ok tt /\
   is_Some (disk (snd (overview_map 2131 loaded_env
                         (loaded odd_elevation_disk)))
              !! overview_path)) /\
  (fst (load_facets facets_dir (fresh mismatched_disk)) = Ok loaded_env /\
   heap (loaded mismatched_disk) !! elev loaded_env
   = Some (OArray elev_1x1) /\
   grids_bound (loaded mismatched_disk) loaded_env
     lons_3x3 lats_3x3 facets_3x3 sample_orientation /\
   array_shape elev_1x1 <> array_shape facets_3x3 /\
   array_shape sample_orientation <> array_shape facets_3x3 /\
   array_shape sample_orientation <> array_shape lons_3x3 /\
   disk (loaded mismatched_disk) !! overview_path = None /\
   fst (overview_map 2131 loaded_env (loaded mismatched_disk)) = Ok tt /\
   is_Some (disk (snd (overview_map 2131 loaded_env (loaded mismatched_disk)))
              !! overview_path)) /\
  (era5_bound (bound_state wide_IVT) bound_env wide_IVT /\
   (shape <$> f_IVT (frames_in wide_IVT) !! 0) = Some (3, 3) /\
   (shape <$> f_precip (frames_in wide_IVT) !! 0) = Some (2, 2) /\
   disk (bound_state wide_IVT) = ∅ /\
   fst (daily_plots 0 bound_env (bound_state wide_IVT)) = Ok tt /\
   length (shown (snd (daily_plots 0 bound_env (bound_state wide_IVT)))) = 3 /\
   is_Some (disk (snd (daily_plots 0 bound_env (bound_state wide_IVT)))
              !! "../figures/atmos_2017-01-07.png")).
Proof.
  split; [|split].
  - split; [vm_compute; reflexivity|].
    split; [vm_compute; reflexivity|].
    split; [repeat split; vm_compute; reflexivity|].
    split; [vm_compute; discriminate|].
    split; [vm_compute; reflexivity|].
    split; [vm_compute; reflexivity|].
    rewrite is_Some_alt. vm_compute. exact I.
  - split; [vm_compute; reflexivity|].
    split; [vm_compute; reflexivity|].
    split; [repeat split; vm_compute; reflexivity|].
    split; [vm_compute; discriminate|].
    split; [vm_compute; discriminate|].
    split; [vm_compute; discriminate|].
    split; [vm_compute; reflexivity|].
    split; [vm_compute; reflexivity|].
    rewrite is_Some_alt. vm_compute. exact I.
  - split; [repeat split|].
    split; [reflexivity|]. split; [reflexivity|]. split; [reflexivity|].
    split; [vm_compute; reflexivity|].
    split; [vm_compute; reflexivity|].
    rewrite is_Some_alt. vm_compute. exact I.
Qed.

(** A facet-id grid of another shape than longitude beside the other
    grids, and a V-wind on another grid than the U-wind: the boolean-mask
    selection of the overview cell raises IndexError, [barbs] in the loop
    body raises ValueError, and neither writes an image. *)
Lemma shape_mismatch_sample :
  (grids_bound odd_state loaded_env
     sample_lons sample_lats facets_1x2 sample_orientation /\
   era5_bound odd_state odd_env odd_winds /\
   vars_named odd_winds (frames_in odd_winds) /\
   ~ (mask_fits sample_lons sample_lats facets_1x2 /\
      orientation_fits sample_lons sample_orientation) /\
   exists fr, frames_at (frames_in odd_winds) 0 = Some fr /\
              ~ frames_fit odd_winds fr) /\
  fst (overview_map 2131 loaded_env odd_state) = Raise IndexError /\
  disk (snd (overview_map 2131 loaded_env odd_state)) = disk odd_state /\
  shown (snd (overview_map 2131 loaded_env odd_state)) = shown odd_state /\
  fst (plot_day (Num 0) odd_env 0 odd_state) = Raise ValueError /\
  snd (plot_day (Num 0) odd_env 0 odd_state) = odd_state.
Proof.
  assert (Hg : grids_bound odd_state loaded_env
                 sample_lons sample_lats facets_1x2 sample_orientation)
    by (repeat split).
  assert (Hb : era5_bound odd_state odd_env odd_winds) by (repeat split).
  assert (Hv : vars_named odd_winds (frames_in odd_winds)) by (repeat split).
  assert (Hno : ~ (mask_fits sample_lons sample_lats facets_1x2 /\
                   orientation_fits sample_lons sample_orientation)).
  { intros [[H _] _]. vm_compute in H. discriminate H. }
  destruct (frames_at (frames_in odd_winds) 0) as [fr|] eqn:Hfr;
    [|discriminate Hfr].
  assert (Hbad : ~ frames_fit odd_winds fr).
  { injection Hfr as <-. intros (_ & _ & _ & _ & _ & _ & H).
    vm_compute in H. discriminate H. }
  split.
  { split; [exact Hg|]. split; [exact Hb|]. split; [exact Hv|].
    split; [exact Hno|]. exists fr. split; [reflexivity|exact Hbad]. }
  destruct (shape_mismatch_stops_only_drawing_calls 2131 loaded_env odd_env
              odd_state sample_lons sample_lats facets_1x2 sample_orientation
              odd_winds (frames_in odd_winds) (Num 0) Hg Hb Hv)
    as (Hrej & _ & _ & Hday & _).
  destruct (Hrej Hno) as (_ & Hdisk & Hshown).
  destruct (Hday 0 fr Hfr Hbad) as (_ & Hstate).
  split; [vm_compute; reflexivity|].
  split; [exact Hdisk|]. split; [exact Hshown|].
  split; [vm_compute; reflexivity|exact Hstate].
Defined.

Lemma absent_facets_none : ~ occurs 2131 absent_facets.
Proof.
  intros (k & f & Hk & Hf).
  destruct k as [|[|[|[|k]]]]; vm_compute in Hk; try discriminate Hk;
    injection Hk as <-; vm_compute in Hf; discriminate Hf.
Qed.

Lemma absent_grids_bound :
  grids_bound (loaded absent_disk) loaded_env
    sample_lons sample_lats absent_facets sample_orientation.
Proof. repeat split; vm_compute; reflexivity. Qed.

(** Against C7: facet 2131 matches no cell, and the run does not stop at
    the undefined centroid: no exception is raised, the label goes to
    (nan, nan) and the image is written. *)
Lemma overview_completes_without_facet :
  ~ occurs 2131 absent_facets /\
  grids_bound (loaded absent_disk) loaded_env
    sample_lons sample_lats absent_facets sample_orientation /\
  disk (loaded absent_disk) !! overview_path = None /\
  fst (overview_map 2131 loaded_env (loaded absent_disk)) = Ok tt /\
  exists central X Y C,
    disk (snd (overview_map 2131 loaded_env (loaded absent_disk)))
      !! overview_path
    = Some (Png (OverviewFig central X Y C (NaN, NaN, "2131"))).
Proof.
  split; [exact absent_facets_none|].
  split; [exact absent_grids_bound|].
  split; [vm_compute; reflexivity|].
  split; [vm_compute; reflexivity|].
  eexists _, _, _, _. vm_compute. reflexivity.
Qed.

(** The amended C7 on the same grids. *)
Lemma absent_facet_sample :
  (grids_bound (loaded absent_disk) loaded_env
     sample_lons sample_lats absent_facets sample_orientation /\
   finite_mesh sample_lons sample_lats /\
   mesh_accepts sample_lons sample_lats sample_orientation /\
   mask_fits sample_lons sample_lats absent_facets /\
   ~ occurs 2131 absent_facets) /\
  fst (overview_map 2131 loaded_env (loaded absent_disk)) = Ok tt /\
  exists central X Y C,
    shown (snd (overview_map 2131 loaded_env (loaded absent_disk)))
    = shown (loaded absent_disk)
      ++ [OverviewFig central X Y C (NaN, NaN, "2131")].
Proof.
  pose proof absent_grids_bound as Hb.
  pose proof sample_grids_conform as [Hmesh _].
  assert (Hfit : mask_fits sample_lons sample_lats absent_facets)
    by (split; reflexivity).
  pose proof absent_facets_none as Hno.
  pose proof sample_grids_finite as Hfin.
  split; [repeat split;
          first [apply Hb|apply Hfin|apply Hmesh|apply Hfit|exact Hno]|].
  destruct (absent_facet_label_is_nan 2131 loaded_env (loaded absent_disk)
              sample_lons sample_lats absent_facets sample_orientation
              Hb Hfin Hmesh Hfit Hno)
    as (_ & _ & Hok & central & X & Y & C & _ & Hshown).
  split; [exact Hok|]. exists central, X, Y, C. exact Hshown.
Defined.

(** Midnight and noon of 2017-01-07 name the same file. *)
Lemma daily_file_name_sample :
  (valid_datetime64 (17173 * NS_PER_DAY)%Z /\
   valid_datetime64 (17173 * NS_PER_DAY + 43200000000000)%Z) /\
  daily_path (datetime_as_string_D (17173 * NS_PER_DAY)%Z)
  = "../figures/atmos_2017-01-07.png" /\
  daily_path (datetime_as_string_D (17173 * NS_PER_DAY)%Z)
  = daily_path (datetime_as_string_D
                  (17173 * NS_PER_DAY + 43200000000000)%Z).
Proof.
  assert (H1 : valid_datetime64 (17173 * NS_PER_DAY)%Z)
    by (split; reflexivity).
  assert (H2 : valid_datetime64 (17173 * NS_PER_DAY + 43200000000000)%Z)
    by (split; reflexivity).
  split; [split; assumption|]. split; [reflexivity|].
  apply (daily_file_name_by_day _ _ H1 H2). reflexivity.
Defined.

(** The time-series cell on the sample table, column 7: two rows, two
    points, the first one nan as in the table. *)
Lemma timeseries_plot_rows_sample :
  (heap (loaded sample_disk) !! opg loaded_env = Some (OFrame sample_opg) /\
   wf_DataFrame sample_opg /\
   index_of "7" (df_columns sample_opg) = Some 1 /\
   Forall (fun label => is_Some (parse_iso label)) (df_index sample_opg)) /\
  exists xs ys,
    shown (snd (timeseries_plot parse_iso "7" loaded_env
                  (loaded sample_disk)))
    = [SeriesFig xs ys] /\
    xs = [mk_date 2017 1 1; mk_date 2017 1 2] /\ ys = [NaN; Num 4%Q].
Proof.
  assert (Hdf : heap (loaded sample_disk) !! opg loaded_env
                = Some (OFrame sample_opg)) by (vm_compute; reflexivity).
  assert (Hwf : wf_DataFrame sample_opg) by (repeat split).
  assert (Hk : index_of "7" (df_columns sample_opg) = Some 1)
    by reflexivity.
  assert (Hl : Forall (fun label => is_Some (parse_iso label))
                 (df_index sample_opg)).
  { repeat constructor; vm_compute; eauto. }
  split; [repeat split; assumption|].
  destruct (timeseries_plot_rows parse_iso "7" loaded_env (loaded sample_disk)
              sample_opg 1 Hdf Hwf Hk Hl)
    as (xs & ys & Hrun & Hlx & Hly & Hat).
  exists xs, ys. rewrite Hrun. cbn [snd shown]. split; [reflexivity|].
  destruct (Hat 0 "2017-01-01" eq_refl) as [Hx0 Hy0].
  destruct (Hat 1 "2017-01-02" eq_refl) as [Hx1 Hy1].
  destruct xs as [|x0 [|x1 [|? ?]]]; try discriminate Hlx.
  destruct ys as [|y0 [|y1 [|? ?]]]; try discriminate Hly.
  vm_compute in Hx0, Hx1, Hy0, Hy1.
  injection Hx0 as ->. injection Hx1 as ->.
  injection Hy0 as ->. injection Hy1 as ->. split; reflexivity.
Defined.

(** The sample table has no column 9999: KeyError, and nothing changes. *)
Lemma timeseries_plot_failures_sample :
  heap (loaded sample_disk) !! opg loaded_env = Some (OFrame sample_opg) /\
  ("9999" ∉ df_columns sample_opg) /\
  timeseries_plot parse_iso "9999" loaded_env (loaded sample_disk)
  = (Raise KeyError, loaded sample_disk).
Proof.
  assert (Hdf : heap (loaded sample_disk) !! opg loaded_env
                = Some (OFrame sample_opg)) by (vm_compute; reflexivity).
  assert (Hl : Forall (fun label => is_Some (parse_iso label))
                 (df_index sample_opg)).
  { repeat constructor; vm_compute; eauto. }
  assert (Hcol : "9999" ∉ df_columns sample_opg).
  { intros Hin. cbn [df_columns sample_opg] in Hin.
    repeat (apply elem_of_cons in Hin as [Hin|Hin]; [discriminate Hin|]).
    inversion Hin. }
  split; [exact Hdf|]. split; [exact Hcol|].
  apply (timeseries_plot_failures parse_iso "9999" loaded_env
           (loaded sample_disk) sample_opg Hdf); assumption.
Defined.

(** The facet cell on the sample disk. *)
Lemma load_facets_binds_sample :
  facet_csvs (disk (fresh sample_disk)) facets_dir sample_tables /\
  exists e s',
    load_facets facets_dir (fresh sample_disk) = (Ok e, s') /\
    heap s' !! orientation e = Some (OArray sample_orientation) /\
    heap s' !! opg e = Some (OFrame sample_opg).
Proof.
  assert (Hf : facet_csvs (disk (fresh sample_disk)) facets_dir sample_tables)
    by (repeat split; vm_compute; reflexivity).
  split; [exact Hf|].
  destruct (load_facets_binds_tables facets_dir (fresh sample_disk)
              sample_tables Hf)
    as (e & s' & Hrun & _ & _ & _ & _ & Ho & Hopg & _).
  exists e, s'. split; [exact Hrun|]. split; [exact Ho|exact Hopg].
Defined.

Lemma sample_lons_between :
  finite_between (-114) (-111) (cells (to_float sample_lons)) /\
  finite_between 40 43 (cells (to_float sample_lats)).
Proof.
  split; repeat (constructor;
                 [eexists; split; [reflexivity|split; discriminate]|]);
    constructor.
Qed.

(** The sample grids span longitudes -114 .. -111 and latitudes
    40 .. 43: so does the label. *)
Lemma overview_label_range_sample :
  (grids_bound (loaded sample_disk) loaded_env
     sample_lons sample_lats sample_facets sample_orientation /\
   mesh_accepts sample_lons sample_lats sample_orientation /\
   mask_fits sample_lons sample_lats sample_facets /\
   occurs 2131 sample_facets /\
   finite_between (-114) (-111) (cells (to_float sample_lons)) /\
   finite_between 40 43 (cells (to_float sample_lats))) /\
  fst (overview_map 2131 loaded_env (loaded sample_disk)) = Ok tt /\
  exists (x y : Q) central X Y C,
    disk (snd (overview_map 2131 loaded_env (loaded sample_disk)))
      !! overview_path
    = Some (Png (OverviewFig central X Y C (Num x, Num y, "2131"))) /\
    (-114 <= x)%Q /\ (x <= -111)%Q /\ (40 <= y)%Q /\ (y <= 43)%Q.
Proof.
  pose proof sample_grids_bound as Hb.
  pose proof sample_grids_conform as [Hmesh Hfit].
  pose proof sample_lons_between as [Hlo Hla].
  assert (Hocc : occurs 2131 sample_facets).
  { exists 0, (of_int 2131). split; reflexivity. }
  split; [repeat split;
          first [apply Hb|apply Hmesh|apply Hfit|exact Hocc|exact Hlo
                |exact Hla]|].
  apply (overview_label_within_range 2131 loaded_env (loaded sample_disk)
           sample_lons sample_lats sample_facets sample_orientation
           (-114) (-111) 40 43 Hb Hmesh Hfit eq_refl eq_refl eq_refl Hocc
           Hlo Hla).
Defined.

(** With a nan longitude no projection is built, and with a nan latitude
    no mesh is drawn: CRSError, ValueError, and no image either time. *)
Lemma overview_nan_coordinate_sample :
  (grids_bound (loaded nan_lons_disk) loaded_env
     nan_lons sample_lats sample_facets sample_orientation /\
   NaN ∈ cells (to_float nan_lons) /\
   grids_bound (loaded nan_lats_disk) loaded_env
     sample_lons nan_lats sample_facets sample_orientation /\
   np_mean (cells (to_float sample_lons)) <> NaN /\
   NaN ∈ cells (to_float nan_lats)) /\
  fst (overview_map 2131 loaded_env (loaded nan_lons_disk)) = Raise CRSError /\
  disk (snd (overview_map 2131 loaded_env (loaded nan_lons_disk)))
  = nan_lons_disk /\
  fst (overview_map 2131 loaded_env (loaded nan_lats_disk))
  = Raise ValueError /\
  disk (snd (overview_map 2131 loaded_env (loaded nan_lats_disk)))
  = nan_lats_disk.
Proof.
  assert (Hb1 : grids_bound (loaded nan_lons_disk) loaded_env
                  nan_lons sample_lats sample_facets sample_orientation)
    by (repeat split; vm_compute; reflexivity).
  assert (Hb2 : grids_bound (loaded nan_lats_disk) loaded_env
                  sample_lons nan_lats sample_facets sample_orientation)
    by (repeat split; vm_compute; reflexivity).
  assert (Hn1 : NaN ∈ cells (to_float nan_lons)) by left.
  assert (Hn2 : NaN ∈ cells (to_float nan_lats)) by (right; left).
  pose proof sample_lons_mean as Hc.
  split; [repeat split; first [apply Hb1|apply Hb2|assumption]|].
  destruct (overview_nan_coordinate_stops 2131 loaded_env
              (loaded nan_lons_disk) nan_lons sample_lats sample_facets
              sample_orientation Hb1) as (Hlon & _).
  destruct (overview_nan_coordinate_stops 2131 loaded_env
              (loaded nan_lats_disk) sample_lons nan_lats sample_facets
              sample_orientation Hb2) as (_ & Hlat).
  rewrite (Hlon Hn1), (Hlat Hc Hn2). cbn [fst snd disk].
  repeat split; reflexivity.
Defined.

(** Two runs of the overview cell on the sample grids. *)
Lemma overview_map_twice_sample :
  (grids_bound (loaded sample_disk) loaded_env
     sample_lons sample_lats sample_facets sample_orientation /\
   finite_mesh sample_lons sample_lats /\
   mesh_accepts sample_lons sample_lats sample_orientation /\
   mask_fits sample_lons sample_lats sample_facets) /\
  let s1 := snd (overview_map 2131 loaded_env (loaded sample_disk)) in
  let s2 := snd (overview_map 2131 loaded_env s1) in
  fst (overview_map 2131 loaded_env s1) = Ok tt /\
  disk s2 = disk s1 /\ length (shown s2) = 2 /\ length (heap s2) = 8.
Proof.
  pose proof sample_grids_bound as Hb.
  pose proof sample_grids_conform as [Hmesh Hfit].
  split; [repeat split;
          first [apply Hb|apply sample_grids_finite|apply Hmesh|apply Hfit]|].
  cbv zeta.
  destruct (overview_map_twice 2131 loaded_env (loaded sample_disk)
              sample_lons sample_lats sample_facets sample_orientation
              Hb sample_grids_finite Hmesh Hfit)
    as (Hok & Hdisk & fig & _ & Hshown & Hheap).
  split; [exact Hok|]. split; [exact Hdisk|].
  rewrite Hshown, Hheap. split; reflexivity.
Defined.

(** January 2017 cut to 7 .. 12, then again, then to 9 .. 20. *)
Lemma sel_time_twice_january :
  (is_monotonic_increasing (time (d_IVT sample_raw)) = true /\
   sel_time (d_IVT sample_raw) (mk_date 2017 1 7) (mk_date 2017 1 12)
   = Ok (isel_time (d_IVT sample_raw) 6 12)) /\
  sel_time (isel_time (d_IVT sample_raw) 6 12)
           (mk_date 2017 1 7) (mk_date 2017 1 12)
  = Ok (isel_time (d_IVT sample_raw) 6 12) /\
  exists ds2,
    sel_time (isel_time (d_IVT sample_raw) 6 12)
             (mk_date 2017 1 9) (mk_date 2017 1 20) = Ok ds2 /\
    map datetime_as_string_D (time ds2)
    = ["2017-01-09"; "2017-01-10"; "2017-01-11"; "2017-01-12"].
Proof.
  assert (Hm : is_monotonic_increasing (time (d_IVT sample_raw)) = true)
    by (vm_compute; reflexivity).
  assert (Hs : sel_time (d_IVT sample_raw) (mk_date 2017 1 7)
                 (mk_date 2017 1 12)
               = Ok (isel_time (d_IVT sample_raw) 6 12))
    by (vm_compute; reflexivity).
  split; [split; assumption|].
  destruct (sel_time_twice (d_IVT sample_raw) _ (mk_date 2017 1 7)
              (mk_date 2017 1 12) (mk_date 2017 1 9) (mk_date 2017 1 20)
              Hm Hs) as (Hagain & ds2 & Hsel2 & _).
  split; [exact Hagain|]. exists ds2. split; [exact Hsel2|].
  assert (Hc : sel_time (isel_time (d_IVT sample_raw) 6 12)
                 (mk_date 2017 1 9) (mk_date 2017 1 20)
               = Ok (isel_time (isel_time (d_IVT sample_raw) 6 12) 2 6))
    by (vm_compute; reflexivity).
  rewrite Hc in Hsel2. injection Hsel2 as <-. vm_compute. reflexivity.
Defined.

(** January 2017 newest first: KeyError for the notebook's dates, and
    for dates that cover the whole month. *)
Lemma sel_time_unsorted_sample :
  (is_monotonic_increasing (time january_backwards) = false /\
   Forall (fun t => (t mod NS_PER_DAY = 0)%Z) (time january_backwards)) /\
  sel_time january_backwards (mk_date 2017 1 7) (mk_date 2017 1 12)
  = Raise KeyError /\
  sel_time january_backwards (mk_date 2017 1 1) (mk_date 2017 1 31)
  = Raise KeyError.
Proof.
  assert (Hm : is_monotonic_increasing (time january_backwards) = false)
    by (vm_compute; reflexivity).
  assert (Hmid : Forall (fun t => (t mod NS_PER_DAY = 0)%Z)
                   (time january_backwards)).
  { apply Forall_forall. intros t Ht. vm_compute in Ht.
    repeat (apply elem_of_cons in Ht as [->|Ht]; [reflexivity|]).
    inversion Ht. }
  split; [split; assumption|].
  destruct (sel_time_unsorted_raises january_backwards (mk_date 2017 1 7)
              (mk_date 2017 1 12) Hm) as (Hout & _ & _).
  destruct (sel_time_unsorted_raises january_backwards (mk_date 2017 1 1)
              (mk_date 2017 1 31) Hm) as (_ & Hmidnight & _).
  split; [|exact (Hmidnight Hmid)].
  apply Hout. exists (17167 * NS_PER_DAY)%Z. split.
  - apply (list_elem_of_lookup_2 _ 30). reflexivity.
  - intros [Hlo _]. vm_compute in Hlo. apply Hlo. reflexivity.
Defined.





Lemma half_days_bound :
  heap (bound_state (era5_on half_days)) !! 0 = Some (OArray sample_lons) /\
  era5_bound (bound_state (era5_on half_days)) bound_env (era5_on half_days) /\
  vars_named (era5_on half_days) (frames_in (era5_on half_days)) /\
  enough_frames (era5_on half_days) (frames_in (era5_on half_days)).
Proof.
  split; [reflexivity|]. split; [repeat split|].
  split; [repeat split|repeat split; vm_compute; lia].
Qed.

Lemma half_days_valid : Forall valid_datetime64 half_days.
Proof. repeat (constructor; [split; reflexivity|]). constructor. Qed.

Lemma half_days_drawable :
  drawable (era5_on half_days) (frames_in (era5_on half_days)).
Proof.
  repeat (split; [apply Forall_fits_checked; vm_compute; reflexivity|]).
  split; reflexivity.
Qed.

(** Midnight and noon of 2017-01-07 write the same file; it keeps the
    figure of noon, the frame at position 1. *)
Lemma daily_plots_last_of_day_sample :
  (era5_bound (bound_state (era5_on half_days)) bound_env (era5_on half_days) /\
   enough_frames (era5_on half_days) (frames_in (era5_on half_days)) /\
   drawable (era5_on half_days) (frames_in (era5_on half_days)) /\
   np_mean (cells (to_float sample_lons)) <> NaN /\
   Forall valid_datetime64 (time (d_IVT (era5_on half_days))) /\
   time (d_IVT (era5_on half_days)) !! 1
   = Some (17173 * NS_PER_DAY + 43200000000000)%Z /\
   daily_path (datetime_as_string_D (17173 * NS_PER_DAY)%Z)
   = daily_path (datetime_as_string_D
                   (17173 * NS_PER_DAY + 43200000000000)%Z)) /\
  exists fr,
    frames_at (frames_in (era5_on half_days)) 1 = Some fr /\
    disk (snd (daily_plots 0 bound_env (bound_state (era5_on half_days))))
      !! "../figures/atmos_2017-01-07.png"
    = Some (Png (figure_of (np_mean (cells (to_float sample_lons)))
                   (era5_on half_days) fr
                   (17173 * NS_PER_DAY + 43200000000000)%Z)).
Proof.
  pose proof half_days_bound as (Hlo & Hb & Hv & He).
  pose proof half_days_drawable as Hd.
  pose proof sample_lons_mean as Hc.
  split; [split; [exact Hb|]; split; [exact He|]; split; [exact Hd|];
          split; [exact Hc|]; split; [exact half_days_valid|];
          split; reflexivity|].
  assert (Hlast : forall k' t', 1 < k' ->
            time (d_IVT (era5_on half_days)) !! k' = Some t' ->
            day_of t' <> day_of (17173 * NS_PER_DAY + 43200000000000)%Z).
  { intros k' t' Hk Ht.
    destruct k' as [|[|[|k']]]; [lia|lia| |discriminate Ht].
    injection Ht as <-. vm_compute. discriminate. }
  apply (daily_plots_last_of_day 0 bound_env (bound_state (era5_on half_days))
           sample_lons (era5_on half_days) (frames_in (era5_on half_days)) 1
           (17173 * NS_PER_DAY + 43200000000000)%Z
           Hlo Hb Hv He Hd Hc half_days_valid eq_refl Hlast).
Defined.

(** A 6 x 7 field gives 2 x 2 barbs; the one at row 1, column 1 is the
    wind of cell (5, 5), number 40, in knots. *)
Lemma barbs_every_fifth_sample :
  wf_ndarray wind_frame /\
  shape (to_knots wind_frame) = (2, 2) /\
  cells (to_knots wind_frame) !! 3 = Some (40 * (194384 # 100000))%Q /\
  every 5 [10; 11; 12; 13; 14; 15; 16]%Q = [10; 15]%Q.
Proof.
  assert (Hwf : wf_ndarray wind_frame) by reflexivity.
  split; [exact Hwf|].
  destruct (barbs_every_fifth wind_frame Hwf)
    as (Hr & Hc & _ & Hcell & Hcoord).
  split; [unfold shape; rewrite Hr, Hc; reflexivity|].
  split.
  - specialize (Hcell 1 1). rewrite Hc in Hcell.
    change (1 * ((ncols wind_frame + 4) / 5) + 1) with 3 in Hcell.
    rewrite Hcell by (vm_compute; lia). reflexivity.
  - reflexivity.
Defined.

(** Noon of 2017-01-07. *)
Lemma date_string_sample :
  valid_datetime64 (17173 * NS_PER_DAY + 43200000000000)%Z /\
  datetime_as_string_D (17173 * NS_PER_DAY + 43200000000000)%Z
  = "2017-01-07" /\
  parse_iso (datetime_as_string_D (17173 * NS_PER_DAY + 43200000000000)%Z)
  = Some (mk_date 2017 1 7).
Proof.
  assert (Ht : valid_datetime64 (17173 * NS_PER_DAY + 43200000000000)%Z)
    by (split; reflexivity).
  split; [exact Ht|]. split; [reflexivity|].
  destruct (date_string_round_trip _ Ht) as (Hp & _ & _).
  rewrite Hp. reflexivity.
Defined.

Lemma january_valid : Forall valid_datetime64 january.
Proof.
  apply Forall_forall. intros t Ht. vm_compute in Ht.
  repeat (apply elem_of_cons in Ht as [->|Ht]; [split; reflexivity|]).
  inversion Ht.
Qed.

(** January 2017 cut to the single date 2017-01-07. *)
Lemma sel_time_one_day_sample :
  (valid_date (mk_date 2017 1 7) /\
   is_monotonic_increasing (time (d_IVT sample_raw)) = true) /\
  exists ds',
    sel_time (d_IVT sample_raw) (mk_date 2017 1 7) (mk_date 2017 1 7)
    = Ok ds' /\
    time ds' = [(17173 * NS_PER_DAY)%Z] /\
    daily_path (iso_string (mk_date 2017 1 7))
    = "../figures/atmos_2017-01-07.png".
Proof.
  assert (Hd : valid_date (mk_date 2017 1 7)) by (split; vm_compute; split; discriminate).
  assert (Hm : is_monotonic_increasing (time (d_IVT sample_raw)) = true)
    by (vm_compute; reflexivity).
  split; [split; assumption|].
  destruct (sel_time_one_day_names_file (d_IVT sample_raw) (mk_date 2017 1 7)
              Hd ltac:(cbn; lia) Hm january_valid) as (ds' & Hsel & _).
  exists ds'. split; [exact Hsel|].
  assert (Hc : sel_time (d_IVT sample_raw) (mk_date 2017 1 7)
                 (mk_date 2017 1 7)
               = Ok (isel_time (d_IVT sample_raw) 6 7))
    by (vm_compute; reflexivity).
  rewrite Hc in Hsel. injection Hsel as <-. split; vm_compute; reflexivity.
Defined.




(** The six-day run of the notebook: the image of 2017-01-07 is titled
    2017-01-07. *)
Lemma daily_files_titled_sample :
  (heap subset_state !! lons loaded_env = Some (OArray sample_lons) /\
   era5_bound subset_state subset_env six_days /\
   enough_frames six_days six_days_frames /\
   drawable six_days six_days_frames /\
   np_mean (cells (to_float sample_lons)) <> NaN /\
   (17173 * NS_PER_DAY)%Z ∈ time (d_IVT six_days)) /\
  exists fg,
    disk (snd (daily_plots (lons loaded_env) subset_env subset_state))
      !! "../figures/atmos_2017-01-07.png"
    = Some (Png (DailyFig fg)) /\
    suptitle fg = "2017-01-07".
Proof.
  pose proof subset_state_bound as (Hlo & Hb & Hv).
  pose proof six_days_frames_enough as (He & _).
  pose proof six_days_valid as (Hvalid & _).
  assert (Hin : (17173 * NS_PER_DAY)%Z ∈ time (d_IVT six_days)).
  { apply (list_elem_of_lookup_2 _ 0). reflexivity. }
  pose proof six_days_drawable as Hd.
  pose proof sample_lons_mean as Hc.
  split; [repeat split;
          first [exact Hlo|apply Hb|apply He|apply Hd|exact Hc|exact Hin]|].
  destruct (daily_files_titled_by_date (lons loaded_env) subset_env
              subset_state sample_lons six_days six_days_frames
              (17173 * NS_PER_DAY)%Z Hlo Hb Hv He Hd Hc Hvalid Hin)
    as (fg & Hfile & _ & Htitle & _).
  exists fg. split; [exact Hfile|exact Htitle].
Defined.

(** With the precipitation records stamped a day later than the others,
    the loop runs as before and draws the same three figures: the figure
    titled 2017-01-07 holds the precipitation frame stamped 2017-01-08. *)
Lemma daily_plots_by_position_sample :
  (time (d_precip shifted_precip) <> time (d_IVT shifted_precip) /\
   time (d_precip shifted_precip) !! 0 = Some (17174 * NS_PER_DAY)%Z /\
   time (d_IVT shifted_precip) !! 0 = Some (17173 * NS_PER_DAY)%Z) /\
  fst (daily_plots 0 bound_env (bound_state shifted_precip)) = Ok tt /\
  shown (snd (daily_plots 0 bound_env (bound_state shifted_precip)))
  = shown (snd (daily_plots 0 bound_env (bound_state (era5_on three_days)))).
Proof.
  split; [split; [discriminate|split; reflexivity]|].
  assert (Hb : era5_bound (bound_state (era5_on three_days)) bound_env
                 (era5_on three_days)) by (repeat split).
  assert (Hb' : era5_bound (bound_state shifted_precip) bound_env
                  shifted_precip) by (repeat split).
  assert (Hp : same_but_time (d_precip (era5_on three_days))
                 (d_precip shifted_precip)) by (repeat split).
  assert (Hsame : forall ds : Dataset Q, same_but_time ds ds)
    by (intros ds; repeat split).
  destruct (daily_plots_pairs_by_position 0 bound_env
              (bound_state (era5_on three_days)) (bound_state shifted_precip)
              sample_lons (era5_on three_days) shifted_precip
              eq_refl eq_refl Hb Hb' eq_refl eq_refl eq_refl Hp
              (Hsame _) (Hsame _) (Hsame _) (Hsame _))
    as (Hfst & _ & Hshown).
  split; [|exact Hshown].
  rewrite Hfst. vm_compute. reflexivity.
Defined.
